(** * forwardmebot: the multi-bot relay manager of [main.go]

    A shallow embedding of [BotManager] and its methods.  The SQLite table
    [bots], the Telegram client and the log are effects of the Go program;
    here they are a state ([State]), a list of emitted events ([Event]) and
    two fault schedules that say which store and platform calls fail.  A
    method is a computation in the monad [M]; it is written statement by
    statement as in [main.go], log lines included.

    Packages [strconv] and [strings] are modelled by the functions the
    program calls; [encoding/json] is an interface ([EncodingJson]) with the
    laws the proofs need ([JsonLaws]) and a reference codec that satisfies
    them ([RefJson]). *)

From stdpp Require Import gmap strings list fin_maps pretty sorting.
From Stdlib Require Import Ascii String ZArith.

Local Open Scope Z_scope.
Local Open Scope string_scope.

(** ** Go values *)

(** The [error] values the program can see.  [ErrNoRows] is [sql.ErrNoRows],
    the only one the code compares against. *)
Inductive error : Set :=
  | ErrNoRows      (* sql.ErrNoRows *)
  | ErrStore       (* any other failure of a database call *)
  | ErrConstraint  (* INSERT on an existing primary key *)
  | ErrNum         (* *strconv.NumError *)
  | ErrJSON        (* an error of encoding/json *)
  | ErrPlatform.   (* a failed Telegram request *)

#[global] Instance error_eq_dec : EqDecision error.
Proof. solve_decision. Defined.

(** A Go result [(v, err)]. *)
Inductive result (A : Type) : Type :=
  | Ok (a : A)
  | Err (e : error).
Arguments Ok {A} a.
Arguments Err {A} e.

(** [int64] and the wrap-around of [int] (64 bits on the targets of the
    Dockerfile, linux/amd64 and linux/arm64). *)
Definition minInt64 : Z := - 2 ^ 63.
Definition maxInt64 : Z := 2 ^ 63 - 1.
Definition isInt64 (z : Z) : Prop := minInt64 <= z <= maxInt64.
Definition wrapInt (z : Z) : Z := (z + 2 ^ 63) mod 2 ^ 64 - 2 ^ 63.

(** ** Package strconv *)
Module strconv.

(** [FormatInt(i, 10)]: decimal digits, a leading minus for negatives. *)
Definition FormatInt (i : Z) : string := pretty i.

Definition digit (c : ascii) : option N :=
  let n := N_of_ascii c in
  if ((48 <=? n) && (n <=? 57))%N then Some (n - 48)%N else None.

(** The digit loop of [ParseUint] in base 10 (the range check is made by
    the caller on the exact value). *)
Fixpoint digits (s : string) (acc : N) : option N :=
  match s with
  | EmptyString => Some acc
  | String c s' =>
      match digit c with
      | Some d => digits s' (10 * acc + d)%N
      | None => None
      end
  end.

(** [ParseInt(s, 10, 64)]: an optional sign, then at least one decimal
    digit and nothing else; the value has to fit [int64]. *)
Definition ParseInt (s : string) : result Z :=
  match s with
  | EmptyString => Err ErrNum
  | String c rest =>
      let neg := bool_decide (c = "-"%char) in
      let body := if bool_decide (c = "+"%char) || neg then rest else s in
      match body with
      | EmptyString => Err ErrNum
      | _ =>
          match digits body 0 with
          | None => Err ErrNum
          | Some un =>
              let cutoff := (2 ^ 63)%N in
              if negb neg && (cutoff <=? un)%N then Err ErrNum
              else if neg && (cutoff <? un)%N then Err ErrNum
              else Ok (if neg then - Z.of_N un else Z.of_N un)
          end
      end
  end.

End strconv.

(** ** Package strings *)
Module strings.

(** [Split(s, sep)] for a one-byte separator: never empty, [Split("", sep)]
    is [[""]]. *)
Fixpoint Split (s : string) (sep : ascii) : list string :=
  match s with
  | EmptyString => [EmptyString]
  | String c s' =>
      if bool_decide (c = sep) then EmptyString :: Split s' sep
      else match Split s' sep with
           | x :: xs => String c x :: xs
           | [] => [String c EmptyString]
           end
  end.

(** [Join(elems, sep)]. *)
Fixpoint Join (elems : list string) (sep : ascii) : string :=
  match elems with
  | [] => EmptyString
  | [x] => x
  | x :: rest => x ++ String sep (Join rest sep)
  end.

Definition HasPrefix (s pre : string) : bool := String.prefix pre s.

Definition TrimPrefix (s pre : string) : string :=
  if HasPrefix s pre
  then String.substring (String.length pre) (String.length s - String.length pre) s
  else s.

End strings.

(** ** Package encoding/json, at type [map[string]int]

    The library is not part of the repository: the program is verified
    against its interface.  [json_Unmarshal s] returns the map as the call
    leaves it (decoding into an empty map) together with the error;
    [json_clean] holds of the maps the decoder can produce. *)
Class EncodingJson := {
  json_Marshal : gmap string Z → result string;
  json_Unmarshal : string → gmap string Z * option error;
  json_clean : gmap string Z → Prop
}.

(** What the program relies on: the empty text is not JSON and leaves the map
    empty, the decoder produces clean maps, a clean map stays clean when a
    decimal key is set to an [int] or a key is deleted, and a clean map is
    written and read back unchanged. *)
Record JsonLaws (J : EncodingJson) : Prop := {
  json_Unmarshal_empty : ∃ e, json_Unmarshal EmptyString = (∅, Some e);
  json_clean_Unmarshal : ∀ s, json_clean (json_Unmarshal s).1;
  json_clean_insert : ∀ m i v,
    json_clean m → isInt64 v → json_clean (<[strconv.FormatInt i := v]> m);
  json_clean_delete : ∀ m k, json_clean m → json_clean (delete k m);
  json_roundtrip : ∀ m,
    json_clean m → ∃ s, json_Marshal m = Ok s ∧ json_Unmarshal s = (m, None)
}.

(** ** Package tgbotapi: the values the program builds and inspects *)

Record BotAPI := { Token : string }.

Record User := {
  User_ID : Z;
  UserName : string;
  FirstName : string;
  LastName : string
}.

Record Chat := { Chat_ID : Z }.

Record MessageEntity := {
  Entity_Type : string;
  Entity_Offset : nat;
  Entity_Length : nat
}.

(** [From] is a pointer in Go; the program dereferences it without a check,
    so a message here always has a sender. *)
#[warnings="-register-all"]
Inductive Message : Type := mkMessage {
  MessageID : Z;
  From : User;
  Message_Chat : Chat;
  Text : string;
  Entities : list MessageEntity;
  ForwardFrom : option User;
  ReplyToMessage : option Message
}.

Record CallbackQuery := {
  CallbackQuery_ID : string;
  Data : string
}.

Record Update := {
  Update_Message : option Message;
  Update_CallbackQuery : option CallbackQuery
}.

Record InlineKeyboardButton := {
  Button_Text : string;
  CallbackData : string
}.

Definition InlineKeyboardMarkup : Type := list (list InlineKeyboardButton).

(** What is handed to [bot.Send] or [bot.Request]. *)
Inductive Chattable : Type :=
  | MessageConfig (chatID : Z) (text : string) (replyMarkup : option InlineKeyboardMarkup)
  | ForwardConfig (chatID fromChatID messageID : Z)
  | CallbackConfig (callbackQueryID : string) (text : string).

Definition NewMessage (chatID : Z) (text : string) : Chattable :=
  MessageConfig chatID text None.

Definition NewForward (chatID fromChatID messageID : Z) : Chattable :=
  ForwardConfig chatID fromChatID messageID.

Definition NewCallback (id text : string) : Chattable := CallbackConfig id text.

Definition NewInlineKeyboardButtonData (text data : string) : InlineKeyboardButton :=
  {| Button_Text := text; CallbackData := data |}.

Definition with_ReplyMarkup (c : Chattable) (k : InlineKeyboardMarkup) : Chattable :=
  match c with
  | MessageConfig chatID text _ => MessageConfig chatID text (Some k)
  | _ => c
  end.

(** [Message.IsCommand]: the first entity is a bot command at offset 0. *)
Definition IsCommand (m : Message) : bool :=
  match Entities m with
  | [] => false
  | entity :: _ =>
      bool_decide (Entity_Offset entity = 0%nat)
      && bool_decide (Entity_Type entity = "bot_command")
  end.

Fixpoint before_at (s : string) : string :=
  match s with
  | EmptyString => EmptyString
  | String c s' => if bool_decide (c = "@"%char) then EmptyString else String c (before_at s')
  end.

(** [Message.Command]: the text of the command entity without the slash and
    without a trailing [@botname]. *)
Definition Command (m : Message) : string :=
  if IsCommand m then
    match Entities m with
    | entity :: _ => before_at (String.substring 1 (Entity_Length entity - 1) (Text m))
    | [] => EmptyString
    end
  else EmptyString.

(** [Message.CommandArguments]: what follows the command and one separator. *)
Definition CommandArguments (m : Message) : string :=
  if IsCommand m then
    match Entities m with
    | entity :: _ =>
        if bool_decide (String.length (Text m) = Entity_Length entity) then EmptyString
        else String.substring (S (Entity_Length entity))
               (String.length (Text m) - S (Entity_Length entity)) (Text m)
    | [] => EmptyString
    end
  else EmptyString.

(** ** The world around the manager *)

(** An argument of a [Printf] or of a SQL statement. *)
Inductive Arg : Type :=
  | AStr (s : string)
  | AInt (i : Z)
  | AErr (e : error).

(** What a run does to the outside, in order. *)
Inductive Event : Type :=
  | Log (format : string) (args : list Arg)
  | NetNewBotAPI (token : string)
  | NetSend (c : Chattable)
  | NetRequest (c : Chattable)
  | SqlQuery (query : string) (args : list Arg)
  | SqlExec (query : string) (args : list Arg)
  | MuLock
  | MuUnlock
  | MuRLock
  | MuRUnlock
  | GoStartBot (bot : BotAPI) (creatorID : Z).

(** One row of table [bots]; the two text columns default to the empty
    string, and the only INSERT of the program leaves them at the default,
    so they are never NULL. *)
Record BotRow := {
  creator_id : Z;
  blocked_users : string;
  appeal_counts : string
}.

(** [bots] and [creator] are the maps of [BotManager], [rows] is the table
    behind [m.db].  [db_faults] and [net_faults] say, call by call, whether
    the next database call and the next platform call fail ([true]); an
    exhausted schedule means no failure. *)
Record State := {
  bots : gmap string BotAPI;
  creator : gmap string Z;
  rows : gmap string BotRow;
  db_faults : list bool;
  net_faults : list bool
}.

Definition set_bots (f : gmap string BotAPI → gmap string BotAPI) (s : State) : State :=
  {| bots := f (bots s); creator := creator s; rows := rows s;
     db_faults := db_faults s; net_faults := net_faults s |}.
Definition set_creator (f : gmap string Z → gmap string Z) (s : State) : State :=
  {| bots := bots s; creator := f (creator s); rows := rows s;
     db_faults := db_faults s; net_faults := net_faults s |}.
Definition set_rows (f : gmap string BotRow → gmap string BotRow) (s : State) : State :=
  {| bots := bots s; creator := creator s; rows := f (rows s);
     db_faults := db_faults s; net_faults := net_faults s |}.
Definition set_db_faults (fs : list bool) (s : State) : State :=
  {| bots := bots s; creator := creator s; rows := rows s;
     db_faults := fs; net_faults := net_faults s |}.
Definition set_net_faults (fs : list bool) (s : State) : State :=
  {| bots := bots s; creator := creator s; rows := rows s;
     db_faults := db_faults s; net_faults := fs |}.

(** ** The monad of the program: state, and the events emitted *)

Definition M (A : Type) : Type := State → A * State * list Event.

Definition ret {A} (a : A) : M A := λ s, (a, s, []).

Definition bind {A B} (c : M A) (k : A → M B) : M B := λ s,
  let '(a, s1, e1) := c s in
  let '(b, s2, e2) := k a s1 in
  (b, s2, (e1 ++ e2)%list).

Declare Scope go_scope.
Delimit Scope go_scope with go.
Notation "x ← y ; z" := (bind y (λ x, z))
  (at level 20, y at level 100, z at level 200, only parsing) : go_scope.
Notation "x ;; z" := (bind x (λ _, z))
  (at level 100, z at level 200, only parsing, right associativity) : go_scope.
Local Open Scope go_scope.

Definition emit (e : Event) : M unit := λ s, (tt, s, [e]).
Definition get : M State := λ s, (s, s, []).
Definition modify (f : State → State) : M unit := λ s, (tt, f s, []).

Definition log_Printf (format : string) (args : list Arg) : M unit :=
  emit (Log format args).

(** The next entry of a fault schedule. *)
Definition next_fault (fs : list bool) : bool * list bool :=
  match fs with
  | [] => (false, [])
  | b :: fs' => (b, fs')
  end.

Definition db_fault : M bool := λ s,
  let '(b, fs) := next_fault (db_faults s) in (b, set_db_faults fs s, []).

Definition net_fault : M bool := λ s,
  let '(b, fs) := next_fault (net_faults s) in (b, set_net_faults fs s, []).

(** *** The registry lock [m.mu] *)
Definition mu_Lock : M unit := emit MuLock.
Definition mu_Unlock : M unit := emit MuUnlock.
Definition mu_RLock : M unit := emit MuRLock.
Definition mu_RUnlock : M unit := emit MuRUnlock.

(** *** The platform *)

(** [tgbotapi.NewBotAPI(token)]: the platform validates the token. *)
Definition NewBotAPI (token : string) : M (result BotAPI) :=
  emit (NetNewBotAPI token);;
  failed ← net_fault;
  if failed : bool then ret (Err ErrPlatform) else ret (Ok {| Token := token |}).

(** [bot.Send(c)] and [bot.Request(c)]; only the error is used. *)
Definition Send (bot : BotAPI) (c : Chattable) : M (option error) :=
  emit (NetSend c);;
  failed ← net_fault;
  ret (if failed : bool then Some ErrPlatform else None).

Definition Request (bot : BotAPI) (c : Chattable) : M (option error) :=
  emit (NetRequest c);;
  failed ← net_fault;
  ret (if failed : bool then Some ErrPlatform else None).

(** *** The statements the program runs on [m.db] *)

Definition q_exists : string := "SELECT EXISTS(SELECT 1 FROM bots WHERE token = ?)".
Definition q_insert : string := "INSERT INTO bots (token, creator_id) VALUES (?, ?)".
Definition q_appeal_counts : string := "SELECT appeal_counts FROM bots WHERE token = ?".
Definition q_blocked_users : string := "SELECT blocked_users FROM bots WHERE token = ?".
Definition q_set_appeal_counts : string := "UPDATE bots SET appeal_counts = ? WHERE token = ?".
Definition q_set_blocked_users : string := "UPDATE bots SET blocked_users = ? WHERE token = ?".
Definition q_delete : string := "DELETE FROM bots WHERE token = ?".

(** [QueryRow(q_exists, token).Scan(&exists)]. *)
Definition QueryRow_exists (token : string) : M (result bool) :=
  emit (SqlQuery q_exists [AStr token]);;
  failed ← db_fault;
  if failed : bool then ret (Err ErrStore)
  else s ← get; ret (Ok (bool_decide (is_Some (rows s !! token)))).

(** [QueryRow("SELECT col FROM bots WHERE token = ?", token).Scan(&v)]. *)
Definition QueryRow_column (q : string) (col : BotRow → string) (token : string)
  : M (result string) :=
  emit (SqlQuery q [AStr token]);;
  failed ← db_fault;
  if failed : bool then ret (Err ErrStore)
  else s ← get;
       ret (match rows s !! token with
            | Some r => Ok (col r)
            | None => Err ErrNoRows
            end).

(** A failed statement changes nothing; an UPDATE or DELETE that matches no
    row succeeds. *)
Definition Exec (q : string) (args : list Arg)
    (effect : gmap string BotRow → result (gmap string BotRow)) : M (option error) :=
  emit (SqlExec q args);;
  failed ← db_fault;
  if failed : bool then ret (Some ErrStore)
  else s ← get;
       match effect (rows s) with
       | Ok t => modify (set_rows (λ _, t));; ret None
       | Err e => ret (Some e)
       end.

Definition Exec_insert (token : string) (creatorID : Z) : M (option error) :=
  Exec q_insert [AStr token; AInt creatorID] (λ t,
    match t !! token with
    | Some _ => Err ErrConstraint
    | None => Ok (<[token := {| creator_id := creatorID;
                                blocked_users := EmptyString;
                                appeal_counts := EmptyString |}]> t)
    end).

Definition with_blocked_users (v : string) (r : BotRow) : BotRow :=
  {| creator_id := creator_id r; blocked_users := v; appeal_counts := appeal_counts r |}.

Definition with_appeal_counts (v : string) (r : BotRow) : BotRow :=
  {| creator_id := creator_id r; blocked_users := blocked_users r; appeal_counts := v |}.

Definition Exec_set_blocked_users (v token : string) : M (option error) :=
  Exec q_set_blocked_users [AStr v; AStr token] (λ t,
    Ok (alter (with_blocked_users v) token t)).

Definition Exec_set_appeal_counts (v token : string) : M (option error) :=
  Exec q_set_appeal_counts [AStr v; AStr token] (λ t,
    Ok (alter (with_appeal_counts v) token t)).

Definition Exec_delete (token : string) : M (option error) :=
  Exec q_delete [AStr token] (λ t, Ok (delete token t)).

(** The variable a [Scan] was to fill keeps its zero value on error. *)
Definition scanned (r : result string) : string :=
  match r with Ok v => v | Err _ => EmptyString end.

(** [err != nil && err != sql.ErrNoRows] *)
Definition store_failed (r : result string) : option error :=
  match r with
  | Ok _ => None
  | Err e => if bool_decide (e = ErrNoRows) then None else Some e
  end.

Definition when_err (e : option error) (k : error → M unit) : M unit :=
  match e with
  | Some err => k err
  | None => ret tt
  end.

(** [for x := range xs] with the loop's variables threaded as [acc]. *)
Fixpoint for_range {A S : Type} (body : S → A → M S) (acc : S) (xs : list A) : M S :=
  match xs with
  | [] => ret acc
  | x :: xs' => acc' ← body acc x; for_range body acc' xs'
  end.

Definition comma : ascii := ","%char.
Definition newline : string := String "010"%char EmptyString.

(** ** BotManager *)
Section BotManager.
Context {J : EncodingJson}.

Definition AddBot (token : string) (creatorID : Z) : M (option error) :=
  log_Printf "Attempting to add bot with token: %s, creator ID: %d"
    [AStr token; AInt creatorID];;
  r ← NewBotAPI token;
  match r with
  | Err err =>
      log_Printf "Failed to create bot API for token %s: %v" [AStr token; AErr err];;
      ret (Some err)
  | Ok bot =>
      log_Printf "Bot API created successfully for token: %s" [AStr token];;
      mu_Lock;;
      modify (set_bots <[token := bot]>);;
      modify (set_creator <[token := creatorID]>);;
      mu_Unlock;;
      log_Printf "Bot %s added to the manager's in-memory storage." [AStr token];;
      emit (GoStartBot bot creatorID);;
      log_Printf "Bot %s started." [AStr token];;
      r ← QueryRow_exists token;
      match r with
      | Err err =>
          log_Printf "Failed to check bot existence for token %s: %v"
            [AStr token; AErr err];;
          ret (Some err)
      | Ok true =>
          log_Printf "Bot with token %s already exists in the database." [AStr token];;
          ret None
      | Ok false =>
          e ← Exec_insert token creatorID;
          match e with
          | Some err =>
              log_Printf "Failed to insert bot with token %s into database: %v"
                [AStr token; AErr err];;
              ret (Some err)
          | None =>
              log_Printf "Bot with token %s added to the database successfully."
                [AStr token];;
              ret None
          end
      end
  end.

Definition getAppealCount (token : string) (userID : Z) : M Z :=
  r ← QueryRow_column q_appeal_counts appeal_counts token;
  let appealCountsStr := scanned r in
  match store_failed r with
  | Some err =>
      log_Printf "Failed to get appeal counts for bot %s: %v" [AStr token; AErr err];;
      ret 0
  | None =>
      if bool_decide (appealCountsStr = EmptyString) then ret 0
      else
        let '(appealCounts, e) := json_Unmarshal appealCountsStr in
        match e with
        | Some err =>
            log_Printf "Failed to unmarshal appeal counts: %v" [AErr err];;
            ret 0
        | None => ret (default 0 (appealCounts !! strconv.FormatInt userID))
        end
  end.

Definition incrementAppealCount (token : string) (userID : Z) : M (option error) :=
  r ← QueryRow_column q_appeal_counts appeal_counts token;
  let appealCountsStr := scanned r in
  match store_failed r with
  | Some err =>
      log_Printf "Failed to get appeal counts for bot %s: %v" [AStr token; AErr err];;
      ret (Some err)
  | None =>
      let '(appealCounts, e) :=
        if bool_decide (appealCountsStr ≠ EmptyString)
        then json_Unmarshal appealCountsStr
        else (∅, None) in
      match e with
      | Some err =>
          log_Printf "Failed to unmarshal appeal counts: %v" [AErr err];;
          ret (Some err)
      | None =>
          let userIDStr := strconv.FormatInt userID in
          let appealCounts :=
            <[userIDStr := wrapInt (default 0 (appealCounts !! userIDStr) + 1)]>
              appealCounts in
          match json_Marshal appealCounts with
          | Err err =>
              log_Printf "Failed to marshal updated appeal counts: %v" [AErr err];;
              ret (Some err)
          | Ok updatedAppealCounts =>
              e ← Exec_set_appeal_counts updatedAppealCounts token;
              match e with
              | Some err =>
                  log_Printf "Failed to update appeal counts for bot %s: %v"
                    [AStr token; AErr err];;
                  ret (Some err)
              | None => ret None
              end
          end
      end
  end.

(** [id, err := strconv.ParseInt(idStr, 10, 64); err == nil && id == userID] *)
Definition is_id (userID : Z) (idStr : string) : bool :=
  match strconv.ParseInt idStr with
  | Ok id => bool_decide (id = userID)
  | Err _ => false
  end.

Definition isUserBlocked (token : string) (userID : Z) : M bool :=
  r ← QueryRow_column q_blocked_users blocked_users token;
  let blockedUsers := scanned r in
  match store_failed r with
  | Some err =>
      log_Printf "Failed to get blocked users for bot %s: %v" [AStr token; AErr err];;
      ret false
  | None =>
      if bool_decide (blockedUsers = EmptyString) then ret false
      else ret (existsb (is_id userID) (strings.Split blockedUsers comma))
  end.

Definition blockUser (token : string) (userID : Z) : M (option error) :=
  r ← QueryRow_column q_blocked_users blocked_users token;
  let blockedUsers := scanned r in
  match store_failed r with
  | Some err =>
      log_Printf "Failed to get blocked users for bot %s: %v" [AStr token; AErr err];;
      ret (Some err)
  | None =>
      let blockedList := strings.Split blockedUsers comma in
      if existsb (is_id userID) blockedList then
        log_Printf "User ID: %d is already in the block list for bot %s."
          [AInt userID; AStr token];;
        ret None
      else
        let blockedList :=
          if bool_decide (blockedUsers ≠ EmptyString)
          then (blockedList ++ [strconv.FormatInt userID])%list
          else [strconv.FormatInt userID] in
        let newBlockedUsers := strings.Join blockedList comma in
        e ← Exec_set_blocked_users newBlockedUsers token;
        match e with
        | Some err =>
            log_Printf "Failed to add user to block list for bot %s: %v"
              [AStr token; AErr err];;
            ret (Some err)
        | None =>
            log_Printf "User ID: %d added to the block list for bot %s."
              [AInt userID; AStr token];;
            ret None
        end
  end.

(** The loop of [unblockUser] keeps the entries that parse and differ from
    [userID]. *)
Definition keeps (userID : Z) (idStr : string) : bool :=
  match strconv.ParseInt idStr with
  | Ok id => bool_decide (id ≠ userID)
  | Err _ => false
  end.

Definition unblockUser (token : string) (userID : Z) : M (option error) :=
  r ← QueryRow_column q_blocked_users blocked_users token;
  let blockedUsers := scanned r in
  match store_failed r with
  | Some err =>
      log_Printf "Failed to get blocked users for bot %s: %v" [AStr token; AErr err];;
      ret (Some err)
  | None =>
      if bool_decide (blockedUsers = EmptyString) then
        log_Printf "No blocked users found for bot %s" [AStr token];;
        ret None
      else
        let blockedList := strings.Split blockedUsers comma in
        let newBlockedList := List.filter (keeps userID) blockedList in
        let newBlockedUsers := strings.Join newBlockedList comma in
        e ← Exec_set_blocked_users newBlockedUsers token;
        match e with
        | Some err =>
            log_Printf "Failed to remove user from block list for bot %s: %v"
              [AStr token; AErr err];;
            ret (Some err)
        | None =>
            (* Reset the appeal count when unbanning user *)
            r ← QueryRow_column q_appeal_counts appeal_counts token;
            let appealCountsStr := scanned r in
            match store_failed r with
            | Some err =>
                log_Printf "Failed to get appeal counts for bot %s: %v"
                  [AStr token; AErr err];;
                ret (Some err)
            | None =>
                let '(appealCounts, e) :=
                  if bool_decide (appealCountsStr ≠ EmptyString)
                  then json_Unmarshal appealCountsStr
                  else (∅, None) in
                when_err e (λ err,
                  log_Printf "Failed to unmarshal appeal counts: %v" [AErr err]);;
                let userIDStr := strconv.FormatInt userID in
                let appealCounts := delete userIDStr appealCounts in
                match json_Marshal appealCounts with
                | Err err =>
                    log_Printf "Failed to marshal updated appeal counts: %v" [AErr err];;
                    ret (Some err)
                | Ok updatedAppealCounts =>
                    e ← Exec_set_appeal_counts updatedAppealCounts token;
                    match e with
                    | Some err =>
                        log_Printf "Failed to update appeal counts for bot %s: %v"
                          [AStr token; AErr err];;
                        ret (Some err)
                    | None =>
                        log_Printf
                          "User ID: %d removed from the block list and appeal count reset for bot %s."
                          [AInt userID; AStr token];;
                        ret None
                    end
                end
            end
        end
  end.

(** [update] is [update.Message], which [startBot] has checked to be there. *)
Definition handleBotCommands (bot : BotAPI) (update : Message) (creatorID : Z)
  : M unit :=
  let botToken := Token bot in
  if bool_decide (Command update = "start") then
    let userID := User_ID (From update) in
    let userName := UserName (From update) in
    let userName :=
      if bool_decide (userName = EmptyString)
      then FirstName (From update) ++ " " ++ LastName (From update)
      else userName in
    let userName :=
      if bool_decide (userName = " ") then FirstName (From update) else userName in
    let startMessage :=
      NewMessage creatorID
        ("用户 " ++ userName ++ " (ID: " ++ strconv.FormatInt userID
         ++ ") 发起了 /start 命令。" ++ newline ++ newline ++ "选择操作:") in
    let banButton :=
      NewInlineKeyboardButtonData "封禁" ("ban_" ++ strconv.FormatInt userID) in
    let unbanButton :=
      NewInlineKeyboardButtonData "解禁" ("unban_" ++ strconv.FormatInt userID) in
    let keyboard := [[banButton; unbanButton]] in
    let startMessage := with_ReplyMarkup startMessage keyboard in
    e ← Send bot startMessage;
    match e with
    | Some err => log_Printf "Failed to send /start message to creator: %v" [AErr err]
    | None => log_Printf "Sent /start message to creator for user ID: %d" [AInt userID]
    end
  else if bool_decide (Command update = "getbans") then
    r ← QueryRow_column q_blocked_users blocked_users botToken;
    let blockedUsers := scanned r in
    match store_failed r with
    | Some err =>
        log_Printf "Failed to get blocked users for bot %s: %v" [AStr botToken; AErr err];;
        Send bot (NewMessage creatorID "Failed to get blocked users.");;
        ret tt
    | None =>
        if bool_decide (blockedUsers = EmptyString) then
          Send bot (NewMessage creatorID "当前没有封禁用户");;
          ret tt
        else
          Send bot (NewMessage creatorID ("封禁列表: " ++ blockedUsers));;
          ret tt
    end
  else if bool_decide (Command update = "ban") then
    let args := CommandArguments update in
    if bool_decide (args = EmptyString) then
      Send bot (NewMessage creatorID "请提供要封禁的 Telegram ID，例如：/ban 123456");;
      ret tt
    else
      match strconv.ParseInt args with
      | Err _ => Send bot (NewMessage creatorID "无效的 Telegram ID");; ret tt
      | Ok userID =>
          e ← blockUser botToken userID;
          match e with
          | Some err =>
              log_Printf "Failed to block user using /ban command: %v" [AErr err];;
              Send bot (NewMessage creatorID "Failed to block user");;
              ret tt
          | None =>
              Send bot (NewMessage creatorID
                ("用户ID: " ++ strconv.FormatInt userID ++ " 已被封禁"));;
              ret tt
          end
      end
  else if bool_decide (Command update = "unban") then
    let args := CommandArguments update in
    if bool_decide (args = EmptyString) then
      Send bot (NewMessage creatorID "请提供要解封的 Telegram ID，例如：/unban 123456");;
      ret tt
    else
      match strconv.ParseInt args with
      | Err _ => Send bot (NewMessage creatorID "无效的 Telegram ID");; ret tt
      | Ok userID =>
          e ← unblockUser botToken userID;
          match e with
          | Some err =>
              log_Printf "Failed to unblock user using /unban command: %v" [AErr err];;
              Send bot (NewMessage creatorID "Failed to unblock user");;
              ret tt
          | None =>
              Send bot (NewMessage creatorID
                ("用户ID: " ++ strconv.FormatInt userID ++ " 已被解封"));;
              ret tt
          end
      end
  else ret tt.

(** The read lock is taken on entry and released by the deferred
    [RUnlock] when the function returns. *)
Definition handleIncomingMessage (bot : BotAPI) (message : Message) (creatorID : Z)
    (botAPI : BotAPI) (botToken : string) : M unit :=
  mu_RLock;;
  (let userID := User_ID (From message) in
   blocked ← isUserBlocked botToken userID;
   if blocked : bool then
     log_Printf "User ID: %d is blocked for bot %s, not forwarding message."
       [AInt userID; AStr botToken];;
     appealCount ← getAppealCount botToken userID;
     if bool_decide (3 <= appealCount) then
       let blockedMsg := NewMessage userID "你已被永久封禁，无法发送消息。" in
       e ← Send botAPI blockedMsg;
       when_err e (λ err,
         log_Printf "Failed to send blocked message to user: %v" [AErr err])
     else
       let appealButton :=
         NewInlineKeyboardButtonData "误伤了？申诉一下"
           ("appeal_" ++ strconv.FormatInt userID) in
       let keyboard := [[appealButton]] in
       let blockedMsg := NewMessage userID "你已被封禁，无法发送消息。" in
       let blockedMsg := with_ReplyMarkup blockedMsg keyboard in
       e ← Send botAPI blockedMsg;
       when_err e (λ err,
         log_Printf "Failed to send blocked message with appeal button to user: %v"
           [AErr err])
   else
     log_Printf "Forwarding message from user ID: %d to creator ID: %d"
       [AInt (User_ID (From message)); AInt creatorID];;
     let msg := NewForward creatorID (Chat_ID (Message_Chat message)) (MessageID message) in
     e ← Send bot msg;
     match e with
     | Some err => log_Printf "Error forwarding message: %v" [AErr err]
     | None => log_Printf "Message forwarded successfully." []
     end);;
  mu_RUnlock.

Definition handleReplyMessage (bot : BotAPI) (message : Message) : M unit :=
  match ReplyToMessage message with
  | Some replied =>
      match ForwardFrom replied with
      | Some sender =>
          let originalSenderID := User_ID sender in
          log_Printf "Attempting to reply to user ID: %d" [AInt originalSenderID];;
          let replyMsg := NewMessage originalSenderID (Text message) in
          e ← Send bot replyMsg;
          match e with
          | Some err => log_Printf "Error sending reply message: %v" [AErr err]
          | None =>
              log_Printf "Reply sent successfully to user ID: %d" [AInt originalSenderID]
          end
      | None =>
          log_Printf "Message is a reply but no forward information is available." []
      end
  | None =>
      log_Printf "Message is a reply but no forward information is available." []
  end.

(** The write lock is released by the deferred [Unlock], after the
    DELETE. *)
Definition DeleteBot (token : string) : M unit :=
  log_Printf "Attempting to delete bot with token: %s" [AStr token];;
  mu_Lock;;
  (modify (set_bots (delete token));;
   modify (set_creator (delete token));;
   log_Printf "Bot with token %s removed from manager's in-memory storage." [AStr token];;
   e ← Exec_delete token;
   match e with
   | Some err =>
       log_Printf "Failed to delete bot with token %s from database: %v"
         [AStr token; AErr err]
   | None =>
       log_Printf "Bot with token %s deleted from the database successfully."
         [AStr token]
   end);;
  mu_Unlock.

Definition noAppealMsg (userID : Z) : Chattable :=
  NewMessage userID "你的申诉次数已达上限，已被永久封禁。".

(** The branch of the loop of [startBot] taken when [appeals[userID]] is
    set: the message is the appeal. *)
Definition consumeAppeal (bot : BotAPI) (creatorID : Z) (appeals : gmap Z bool)
    (message : Message) : M (gmap Z bool) :=
  let botToken := Token bot in
  let userID := User_ID (From message) in
  let appealText := Text message in
  let appealForward :=
    NewMessage creatorID
      ("用户 " ++ strconv.FormatInt userID ++ " 发起申诉: " ++ appealText) in
  e ← Send bot appealForward;
  when_err e (λ err,
    log_Printf "Failed to send appeal message to creator: %v" [AErr err]);;
  log_Printf "Received appeal message from user ID: %d, forwarding to creator."
    [AInt userID];;
  let appeals := delete userID appeals in
  e ← incrementAppealCount botToken userID;
  when_err e (λ err,
    log_Printf "Failed to increment appeal count for user %d of bot %s : %v"
      [AInt userID; AStr botToken; AErr err]);;
  appealCount ← getAppealCount botToken userID;
  (if bool_decide (3 <= appealCount) then
     e ← blockUser botToken userID;
     when_err e (λ err,
       log_Printf "Failed to block user using /ban command: %v" [AErr err]);;
     e ← Send bot (noAppealMsg userID);
     when_err e (λ err,
       log_Printf "Failed to send no appeal message to user %d of bot %s : %v"
         [AInt userID; AStr botToken; AErr err])
   else ret tt);;
  ret appeals.

(** The branch of the loop of [startBot] for a button press. *)
Definition handleCallback (bot : BotAPI) (creatorID : Z) (appeals : gmap Z bool)
    (query : CallbackQuery) : M (gmap Z bool) :=
  let botToken := Token bot in
  let callback := NewCallback (CallbackQuery_ID query) EmptyString in
  e ← Request bot callback;
  match e with
  | Some err => log_Printf "Error processing callback: %v" [AErr err];; ret appeals
  | None =>
      let callbackData := Data query in
      log_Printf "Received a callback query with data: %s" [AStr callbackData];;
      if strings.HasPrefix callbackData "appeal_" then
        let userIDStr := strings.TrimPrefix callbackData "appeal_" in
        match strconv.ParseInt userIDStr with
        | Err err => log_Printf "Invalid userID in callback: %v" [AErr err];; ret appeals
        | Ok userID =>
            appealCount ← getAppealCount botToken userID;
            if bool_decide (3 <= appealCount) then
              e ← Send bot (noAppealMsg userID);
              when_err e (λ err,
                log_Printf "Failed to send no appeal message to user %d of bot %s : %v"
                  [AInt userID; AStr botToken; AErr err]);;
              ret appeals
            else
              let appealMsg := NewMessage userID "请在此输入你的申诉信息：" in
              e ← Send bot appealMsg;
              match e with
              | Some err =>
                  log_Printf "Failed to send appeal message to user: %v" [AErr err];;
                  ret appeals
              | None => ret (<[userID := true]> appeals)
              end
        end
      else if strings.HasPrefix callbackData "ban_" then
        let userIDStr := strings.TrimPrefix callbackData "ban_" in
        match strconv.ParseInt userIDStr with
        | Err err => log_Printf "Invalid userID in callback: %v" [AErr err];; ret appeals
        | Ok userID =>
            log_Printf "Creator requested to ban user ID: %d for bot %s"
              [AInt userID; AStr botToken];;
            e ← blockUser botToken userID;
            match e with
            | Some err => log_Printf "Failed to block user: %v" [AErr err];; ret appeals
            | None =>
                let banMsg :=
                  NewMessage creatorID
                    ("用户ID: " ++ strconv.FormatInt userID ++ " 已被封禁") in
                e ← Send bot banMsg;
                when_err e (λ err,
                  log_Printf "Failed to send ban confirmation message to creator: %v"
                    [AErr err]);;
                ret appeals
            end
        end
      else if strings.HasPrefix callbackData "unban_" then
        let userIDStr := strings.TrimPrefix callbackData "unban_" in
        match strconv.ParseInt userIDStr with
        | Err err => log_Printf "Invalid userID in callback: %v" [AErr err];; ret appeals
        | Ok userID =>
            log_Printf "Creator requested to unban user ID: %d for bot %s"
              [AInt userID; AStr botToken];;
            e ← unblockUser botToken userID;
            match e with
            | Some err => log_Printf "Failed to unblock user: %v" [AErr err];; ret appeals
            | None =>
                let unbanMsg :=
                  NewMessage creatorID
                    ("用户ID: " ++ strconv.FormatInt userID ++ " 已被解禁") in
                e ← Send bot unbanMsg;
                when_err e (λ err,
                  log_Printf "Failed to send unban confirmation message to creator: %v"
                    [AErr err]);;
                ret appeals
            end
        end
      else ret appeals
  end.

(** One iteration of [for update := range updates] in [startBot];
    [appeals] is the loop's local map. *)
Definition startBot_update (bot : BotAPI) (creatorID : Z) (appeals : gmap Z bool)
    (update : Update) : M (gmap Z bool) :=
  let botToken := Token bot in
  match Update_Message update with
  | Some message =>
      log_Printf "Received a message from user ID: %d in chat ID: %d, text: %s"
        [AInt (User_ID (From message)); AInt (Chat_ID (Message_Chat message));
         AStr (Text message)];;
      let userID := User_ID (From message) in
      if default false (appeals !! userID) then
        consumeAppeal bot creatorID appeals message
      else if IsCommand message && bool_decide (User_ID (From message) = creatorID) then
        handleBotCommands bot message creatorID;;
        ret appeals
      else if IsCommand message then
        handleBotCommands bot message creatorID;;
        ret appeals
      else if bool_decide (User_ID (From message) = creatorID) then
        handleReplyMessage bot message;;
        ret appeals
      else
        handleIncomingMessage bot message creatorID bot botToken;;
        ret appeals
  | None =>
      match Update_CallbackQuery update with
      | Some query => handleCallback bot creatorID appeals query
      | None => ret appeals
      end
  end.

(** [startBot], fed the updates its channel delivers before it is closed. *)
Definition startBot (bot : BotAPI) (creatorID : Z) (updates : list Update)
  : M (gmap Z bool) :=
  log_Printf "Starting bot with creator ID: %d" [AInt creatorID];;
  for_range (startBot_update bot creatorID) ∅ updates.

End BotManager.

(** ** A reference codec for [EncodingJson]

    The fragment of JSON the program itself writes: an object whose keys are
    signed decimal numerals and whose values are integers, keys in byte order,
    no white space.  Any other text is rejected as a syntax error, which
    leaves the map empty. *)

Definition ref_quote : ascii := "034"%char.

Definition ref_key_char (c : ascii) : bool :=
  bool_decide (c = "-"%char) || bool_decide (is_Some (strconv.digit c)).

Fixpoint ref_plain (k : string) : bool :=
  match k with
  | EmptyString => true
  | String c k' => ref_key_char c && ref_plain k'
  end.

Definition ref_clean (m : gmap string Z) : Prop :=
  map_Forall (λ k v, ref_plain k = true ∧ isInt64 v) m.

Definition ref_member (kv : string * Z) : string :=
  String ref_quote (kv.1 ++ String ref_quote (String ":"%char (strconv.FormatInt kv.2))).

Definition ref_key_le (a b : string * Z) : Prop := String.leb a.1 b.1 = true.

#[global] Instance ref_key_le_dec a b : Decision (ref_key_le a b).
Proof. unfold ref_key_le. apply _. Defined.

Definition ref_Marshal (m : gmap string Z) : result string :=
  Ok (String "{"%char
        (strings.Join (map ref_member (merge_sort ref_key_le (map_to_list m))) comma
         ++ "}")).

(** Where the reader stands in the text. *)
Inductive ref_pos : Type :=
  | PStart                       (* before the opening brace *)
  | PFirst                       (* after the opening brace *)
  | PKey (k : string)            (* inside a key *)
  | PColon (k : string)          (* after a key *)
  | PValue (k : string)          (* after the colon *)
  | PMinus (k : string)          (* after the sign of a value *)
  | PDigits (k : string) (neg : bool) (n : N)  (* inside the digits of a value *)
  | PNext                        (* after a comma *)
  | PEnd.                        (* after the closing brace *)

Definition ref_value (neg : bool) (n : N) : Z :=
  if neg then - Z.of_N n else Z.of_N n.

Definition ref_fits (v : Z) : bool := ((minInt64 <=? v) && (v <=? maxInt64))%Z.

Fixpoint ref_read (p : ref_pos) (acc : gmap string Z) (s : string)
  : option (gmap string Z) :=
  match s with
  | EmptyString => match p with PEnd => Some acc | _ => None end
  | String c s' =>
      match p with
      | PStart => if bool_decide (c = "{"%char) then ref_read PFirst acc s' else None
      | PFirst =>
          if bool_decide (c = ref_quote) then ref_read (PKey EmptyString) acc s'
          else if bool_decide (c = "}"%char) then ref_read PEnd acc s'
          else None
      | PKey k =>
          if bool_decide (c = ref_quote) then ref_read (PColon k) acc s'
          else if ref_key_char c then ref_read (PKey (k ++ String c EmptyString)) acc s'
          else None
      | PColon k => if bool_decide (c = ":"%char) then ref_read (PValue k) acc s' else None
      | PValue k =>
          if bool_decide (c = "-"%char) then ref_read (PMinus k) acc s'
          else match strconv.digit c with
               | Some d => ref_read (PDigits k false d) acc s'
               | None => None
               end
      | PMinus k =>
          match strconv.digit c with
          | Some d => ref_read (PDigits k true d) acc s'
          | None => None
          end
      | PDigits k neg n =>
          match strconv.digit c with
          | Some d =>
              (* no digit may follow a leading zero *)
              if bool_decide (n = 0%N) then None
              else ref_read (PDigits k neg (10 * n + d)%N) acc s'
          | None =>
              let v := ref_value neg n in
              if ref_fits v then
                if bool_decide (c = comma) then ref_read PNext (<[k := v]> acc) s'
                else if bool_decide (c = "}"%char) then ref_read PEnd (<[k := v]> acc) s'
                else None
              else None
          end
      | PNext =>
          if bool_decide (c = ref_quote) then ref_read (PKey EmptyString) acc s' else None
      | PEnd => None
      end
  end.

Definition ref_Unmarshal (s : string) : gmap string Z * option error :=
  match ref_read PStart ∅ s with
  | Some m => (m, None)
  | None => (∅, Some ErrJSON)
  end.

Definition RefJson : EncodingJson := {|
  json_Marshal := ref_Marshal;
  json_Unmarshal := ref_Unmarshal;
  json_clean := ref_clean
|}.

(** ** Observations on a state *)

(** The text a [Scan] of column [col] yields for [token]; empty when there is
    no row. *)
Definition column (col : BotRow → string) (t : gmap string BotRow) (token : string)
  : string :=
  match t !! token with
  | Some r => col r
  | None => EmptyString
  end.

(** The map the program works on after reading [appeal_counts]. *)
Definition decode `{J : EncodingJson} (appealCountsStr : string)
  : gmap string Z * option error :=
  if bool_decide (appealCountsStr ≠ EmptyString) then json_Unmarshal appealCountsStr
  else (∅, None).

(** The appeal count that [getAppealCount] reads when the store answers. *)
Definition appealCountOf `{J : EncodingJson} (s : State) (token : string) (userID : Z) : Z :=
  let appealCountsStr := column appeal_counts (rows s) token in
  if bool_decide (appealCountsStr = EmptyString) then 0
  else match json_Unmarshal appealCountsStr with
       | (appealCounts, None) => default 0 (appealCounts !! strconv.FormatInt userID)
       | (_, Some _) => 0
       end.

(** Whether [isUserBlocked] answers [true] when the store answers. *)
Definition blockedIn (s : State) (token : string) (userID : Z) : bool :=
  let blockedUsers := column blocked_users (rows s) token in
  if bool_decide (blockedUsers = EmptyString) then false
  else existsb (is_id userID) (strings.Split blockedUsers comma).

(** The stored appeal counts can be decoded. *)
Definition readable `{J : EncodingJson} (s : State) (token : string) : Prop :=
  (decode (column appeal_counts (rows s) token)).2 = None.

(** The state after one call on the database. *)
Definition pop_db (s : State) : State :=
  set_db_faults (next_fault (db_faults s)).2 s.

(** The requests a run handed to [bot.Send]. *)
Definition sent (evs : list Event) : list Chattable :=
  omap (λ e, match e with NetSend c => Some c | _ => None end) evs.

(** Whether a store or platform call is made while the registry lock is
    held; [held] counts the holders so far. *)
Fixpoint locked_call (held : nat) (evs : list Event) : bool :=
  match evs with
  | [] => false
  | e :: evs' =>
      match e with
      | MuLock | MuRLock => locked_call (S held) evs'
      | MuUnlock | MuRUnlock => locked_call (pred held) evs'
      | NetNewBotAPI _ | NetSend _ | NetRequest _ | SqlQuery _ _ | SqlExec _ _ =>
          negb (Nat.eqb held 0) || locked_call held evs'
      | Log _ _ | GoStartBot _ _ => locked_call held evs'
      end
  end.

(** A concrete starting point: bot [AAA] of operator 100 is registered and
    stored, nobody is blocked, no call fails. *)
Definition demo_row : BotRow :=
  {| creator_id := 100; blocked_users := EmptyString; appeal_counts := EmptyString |}.

Definition demo_bot : BotAPI := {| Token := "AAA" |}.

Definition demo_state : State :=
  {| bots := {["AAA" := demo_bot]};
     creator := {["AAA" := 100]};
     rows := {["AAA" := demo_row]};
     db_faults := [];
     net_faults := [] |}.

Definition demo_user (id : Z) : User :=
  {| User_ID := id; UserName := "u"; FirstName := "F"; LastName := "L" |}.

Definition demo_message (from : Z) (text : string) (entities : list MessageEntity)
  : Message :=
  {| MessageID := 7; From := demo_user from; Message_Chat := {| Chat_ID := from |};
     Text := text; Entities := entities; ForwardFrom := None; ReplyToMessage := None |}.

Definition command_entity (len : nat) : MessageEntity :=
  {| Entity_Type := "bot_command"; Entity_Offset := 0; Entity_Length := len |}.

(** ** Auxiliary notions for the proofs *)

(** [x] does not contain the separator. *)
Fixpoint avoids (sep : ascii) (x : string) : bool :=
  match x with
  | EmptyString => true
  | String c x' => negb (bool_decide (c = sep)) && avoids sep x'
  end.

Definition digits_str (ds : list N) : string :=
  foldr (λ d s, String (pretty_N_char d) s) EmptyString ds.

Definition digits_val (acc : N) (ds : list N) : N :=
  foldl (λ a d, 10 * a + d)%N acc ds.

(** The position after a value that ends at [c]. *)
Definition ref_after (c : ascii) : ref_pos :=
  if bool_decide (c = comma) then PNext else PEnd.

Definition ref_kv_ok (kv : string * Z) : Prop := ref_plain kv.1 = true ∧ isInt64 kv.2.

Definition ref_put (acc : gmap string Z) (kv : string * Z) : gmap string Z :=
  <[kv.1 := kv.2]> acc.

Definition ref_pos_ok (p : ref_pos) : Prop :=
  match p with
  | PKey k | PColon k | PValue k | PMinus k | PDigits k _ _ => ref_plain k = true
  | PStart | PFirst | PNext | PEnd => True
  end.

(** The workers a run started and the statements it executed. *)
Definition spawned (evs : list Event) : list (BotAPI * Z) :=
  omap (λ e, match e with GoStartBot b c => Some (b, c) | _ => None end) evs.

Definition executed (evs : list Event) : list string :=
  omap (λ e, match e with SqlExec q _ => Some q | _ => None end) evs.

Definition queried (evs : list Event) : list string :=
  omap (λ e, match e with SqlQuery q _ => Some q | _ => None end) evs.

(** The next call on the schedule does not fail. *)
Definition answers (fs : list bool) : Prop := (next_fault fs).1 = false.

(** Any number of appeal submissions by [userID] to the worker of [bot]:
    presses of the appeal button and messages consumed as appeal texts. *)
Inductive appeal_steps `{J : EncodingJson} (bot : BotAPI) (creatorID userID : Z)
  : State → State → Prop :=
  | appeal_steps_done s : appeal_steps bot creatorID userID s s
  | appeal_steps_press s appeals query appeals' s' evs s'' :
      strings.HasPrefix (Data query) "appeal_" = true →
      handleCallback bot creatorID appeals query s = (appeals', s', evs) →
      appeal_steps bot creatorID userID s' s'' →
      appeal_steps bot creatorID userID s s''
  | appeal_steps_text s appeals message appeals' s' evs s'' :
      User_ID (From message) = userID →
      consumeAppeal bot creatorID appeals message s = (appeals', s', evs) →
      appeal_steps bot creatorID userID s' s'' →
      appeal_steps bot creatorID userID s s''.

(** The user is on a non-empty blocked list, or the bot has no row. *)
Definition listed (token : string) (s : State) : Prop :=
  rows s !! token = None ∨ column blocked_users (rows s) token ≠ EmptyString.

(** The two notices a blocked sender can get. *)
Definition permanentBlockNotice (userID : Z) : Chattable :=
  NewMessage userID "你已被永久封禁，无法发送消息。".

Definition blockNotice (userID : Z) : Chattable :=
  MessageConfig userID "你已被封禁，无法发送消息。"
    (Some [[ {| Button_Text := "误伤了？申诉一下";
                CallbackData := "appeal_" ++ strconv.FormatInt userID |} ]]).

(** The operations of the ban/appeal state machine on one bot. *)
Inductive Operation : Type :=
  | OpIsBlocked (userID : Z)
  | OpBlock (userID : Z)
  | OpUnblock (userID : Z)
  | OpIncrementAppealCount (userID : Z)
  | OpGetAppealCount (userID : Z).

Definition run_operation `{J : EncodingJson} (token : string) (op : Operation)
  : M (option error) :=
  match op with
  | OpIsBlocked userID => bind (isUserBlocked token userID) (λ _, ret None)
  | OpBlock userID => blockUser token userID
  | OpUnblock userID => unblockUser token userID
  | OpIncrementAppealCount userID => incrementAppealCount token userID
  | OpGetAppealCount userID => bind (getAppealCount token userID) (λ _, ret None)
  end.

Definition message_update (m : Message) : Update :=
  {| Update_Message := Some m; Update_CallbackQuery := None |}.

Definition callback_update (data : string) : Update :=
  {| Update_Message := None;
     Update_CallbackQuery := Some {| CallbackQuery_ID := "q"; Data := data |} |}.

(** Bot [AAA] with user 42 on the blocked list and three appeals counted. *)
Definition banned_state : State :=
  (startBot (J := RefJson) demo_bot 100
     [message_update (demo_message 100 "/ban 42" [command_entity 4]);
      callback_update "appeal_42";
      message_update (demo_message 42 "one" []);
      callback_update "appeal_42";
      message_update (demo_message 42 "two" []);
      callback_update "appeal_42";
      message_update (demo_message 42 "three" [])]
     demo_state).1.2.

(** The operator replying [hi] to the forwarded copy of a message of user 42. *)
Definition demo_forwarded : Message :=
  {| MessageID := 8; From := demo_user 100; Message_Chat := {| Chat_ID := 100 |};
     Text := "hello"; Entities := []; ForwardFrom := Some (demo_user 42);
     ReplyToMessage := None |}.

Definition demo_reply : Message :=
  {| MessageID := 9; From := demo_user 100; Message_Chat := {| Chat_ID := 100 |};
     Text := "hi"; Entities := []; ForwardFrom := None;
     ReplyToMessage := Some demo_forwarded |}.

(** What the operator is sent when [from] issues [/start]. *)
Definition startNotice (creatorID : Z) (from : User) : Chattable :=
  let userName :=
    if bool_decide (UserName from = EmptyString)
    then FirstName from ++ " " ++ LastName from
    else UserName from in
  let userName := if bool_decide (userName = " ") then FirstName from else userName in
  MessageConfig creatorID
    ("用户 " ++ userName ++ " (ID: " ++ strconv.FormatInt (User_ID from)
     ++ ") 发起了 /start 命令。" ++ newline ++ newline ++ "选择操作:")
    (Some [[ {| Button_Text := "封禁";
                CallbackData := "ban_" ++ strconv.FormatInt (User_ID from) |};
             {| Button_Text := "解禁";
                CallbackData := "unban_" ++ strconv.FormatInt (User_ID from) |} ]]).

(** The request is a message to chat [chatID]. *)
Definition message_to (chatID : Z) (c : Chattable) : Prop :=
  ∃ text markup, c = MessageConfig chatID text markup.

(** Whether every store and platform call of a run is made while the
    registry lock is held; [held] counts the holders so far. *)
Fixpoint calls_locked (held : nat) (evs : list Event) : bool :=
  match evs with
  | [] => true
  | e :: evs' =>
      match e with
      | MuLock | MuRLock => calls_locked (S held) evs'
      | MuUnlock | MuRUnlock => calls_locked (pred held) evs'
      | NetNewBotAPI _ | NetSend _ | NetRequest _ | SqlQuery _ _ | SqlExec _ _ =>
          negb (Nat.eqb held 0) && calls_locked held evs'
      | Log _ _ | GoStartBot _ _ => calls_locked held evs'
      end
  end.

(** ** The manager process: [NewBotManager] and [main] *)

Definition horizontal_tab : string := String "009"%char EmptyString.
Definition double_quote : string := String "034"%char EmptyString.

Definition q_create_table : string :=
  "CREATE TABLE IF NOT EXISTS bots (" ++ newline
  ++ horizontal_tab ++ "token TEXT PRIMARY KEY," ++ newline
  ++ horizontal_tab ++ "creator_id INTEGER," ++ newline
  ++ horizontal_tab ++ "blocked_users TEXT DEFAULT " ++ double_quote ++ double_quote
  ++ "," ++ newline
  ++ horizontal_tab ++ "appeal_counts TEXT DEFAULT " ++ double_quote ++ double_quote
  ++ newline
  ++ "   )".

Definition q_select_bots : string := "SELECT token, creator_id FROM bots".

(** [NewBotManager(db)]: a manager with two empty maps. *)
Definition NewBotManager : M unit :=
  modify (set_bots (λ _, ∅));;
  modify (set_creator (λ _, ∅)).

(** [db.Exec] of the CREATE TABLE IF NOT EXISTS statement: the table of the
    model always exists, so the statement changes nothing when it runs. *)
Definition Exec_create_table : M (option error) :=
  Exec q_create_table [] (λ t, Ok t).

(** [db.Query(q_select_bots)] and the rows its cursor yields; the order is
    the one in which the model lists the table, the program does not depend
    on it.  [AddBot] writes no row for a token that is stored, so the rows
    read during the loop are the rows of the table at the query; a stored
    [creator_id] is an integer, so [rows.Scan] succeeds. *)
Definition Query_bots : M (result (list (string * Z))) :=
  emit (SqlQuery q_select_bots []);;
  failed ← db_fault;
  if failed : bool then ret (Err ErrStore)
  else s ← get;
       ret (Ok ((λ kv : string * BotRow, (kv.1, creator_id kv.2))
                  <$> map_to_list (rows s))).

Section Manager.
(** [err.Error()]: the text of an error is the library's. *)
Context (Error : error → string).

(** The body of [for rows.Next()] in [main]. *)
Definition main_load_row (_ : unit) (row : string * Z) : M unit :=
  let '(token, creatorID) := row in
  e ← AddBot token creatorID;
  match e with
  | Some err => log_Printf "Failed to add bot from database: %v" [AErr err]
  | None =>
      log_Printf "Bot with token %s loaded from database and added to the manager."
        [AStr token]
  end.

(** The body of [for update := range updates] in [main]. *)
Definition main_update (managerBot : BotAPI) (_ : unit) (update : Update) : M unit :=
  match Update_Message update with
  | Some message =>
      if IsCommand message then
        log_Printf "Received a command: %s from user ID: %d in chat ID: %d"
          [AStr (Command message); AInt (User_ID (From message));
           AInt (Chat_ID (Message_Chat message))];;
        let args := CommandArguments message in
        if bool_decide (Command message = "newbot") then
          e ← AddBot args (Chat_ID (Message_Chat message));
          match e with
          | Some err =>
              log_Printf
                "Failed to create new bot using command from user ID: %d, error: %v"
                [AInt (User_ID (From message)); AErr err];;
              Send managerBot
                (NewMessage (Chat_ID (Message_Chat message))
                   ("Failed to create new bot: " ++ Error err));;
              ret tt
          | None =>
              Send managerBot
                (NewMessage (Chat_ID (Message_Chat message))
                   "New bot created successfully!");;
              log_Printf "New bot created successfully using command from user ID: %d"
                [AInt (User_ID (From message))]
          end
        else if bool_decide (Command message = "deletebot") then
          DeleteBot args;;
          Send managerBot
            (NewMessage (Chat_ID (Message_Chat message)) "Bot deleted successfully!");;
          log_Printf "Bot deleted successfully using command from user ID: %d"
            [AInt (User_ID (From message))]
        else ret tt
      else ret tt
  | None => ret tt
  end.

(** [main], with the token of the environment and the updates the channel
    of the manager bot delivers.  [log.Fatalf] ends the process: the run
    stops after its log line.  [sql.Open] only records the driver and the
    path, it makes no call.  The workers [AddBot] starts run on their own;
    they are the [GoStartBot] events of the run. *)
Definition main (managerToken : string) (updates : list Update) : M unit :=
  r ← NewBotAPI managerToken;
  match r with
  | Err err => log_Printf "Failed to create manager bot: %s" [AErr err]
  | Ok managerBot =>
      log_Printf "Manager bot created successfully." [];;
      log_Printf "Database connection established." [];;
      e ← Exec_create_table;
      match e with
      | Some err => log_Printf "Failed to create table: %v" [AErr err]
      | None =>
          log_Printf "Database table 'bots' created or already exists." [];;
          NewBotManager;;
          log_Printf "Bot manager initialized." [];;
          log_Printf "Loading existing bots from the database..." [];;
          r ← Query_bots;
          match r with
          | Err err => log_Printf "Failed to load bots: %v" [AErr err]
          | Ok loaded =>
              for_range main_load_row tt loaded;;
              log_Printf "Existing bots loaded from database." [];;
              log_Printf "Manager bot started listening for updates." [];;
              for_range (main_update managerBot) tt updates
          end
      end
  end.

End Manager.

(** ** Auxiliary notions for the further properties *)

(** The blocked list [blockUser] writes for a user who is not yet on it. *)
Definition blocked_after (userID : Z) (old : string) : string :=
  strings.Join
    (if bool_decide (old ≠ EmptyString)
     then (strings.Split old comma ++ [strconv.FormatInt userID])%list
     else [strconv.FormatInt userID])
    comma.

(** The blocked list [unblockUser] writes. *)
Definition blocked_without (userID : Z) (old : string) : string :=
  strings.Join (List.filter (keeps userID) (strings.Split old comma)) comma.

(** The row the INSERT of [AddBot] creates: both text columns take their
    default, the empty string. *)
Definition fresh_row (creatorID : Z) : BotRow :=
  {| creator_id := creatorID; blocked_users := EmptyString;
     appeal_counts := EmptyString |}.

(** * Proofs *)

(** ** Running the monad *)

Ltac unfold_prims :=
  unfold QueryRow_column, QueryRow_exists, Exec_insert, Exec_set_blocked_users,
    Exec_set_appeal_counts, Exec_delete, Exec, NewBotAPI, Send, Request,
    mu_Lock, mu_Unlock, mu_RLock, mu_RUnlock, log_Printf, when_err,
    db_fault, net_fault, emit, get, modify, bind, ret in *.

Lemma bind_run {A B} (c : M A) (k : A → M B) s a s1 e1 b s2 e2 :
  c s = (a, s1, e1) → k a s1 = (b, s2, e2) → bind c k s = (b, s2, (e1 ++ e2)%list).
Proof. intros Hc Hk. unfold bind. by rewrite Hc, Hk. Qed.

Lemma bind_events {A B} (c : M A) (k : A → M B) s :
  (bind c k s).2 = ((c s).2 ++ (k (c s).1.1 (c s).1.2).2)%list.
Proof.
  unfold bind. destruct (c s) as [[a s1] e1]. simpl.
  by destruct (k a s1) as [[b s2] e2].
Qed.

Lemma triple_eta {A B C} (x : A * B * C) : x = (x.1.1, x.1.2, x.2).
Proof. by destruct x as [[??]?]. Qed.

Lemma sent_cons e evs :
  sent (e :: evs) = match e with NetSend c => c :: sent evs | _ => sent evs end.
Proof. by destruct e. Qed.

Lemma sent_nil : sent [] = [].
Proof. reflexivity. Qed.

Lemma sent_app evs1 evs2 : sent (evs1 ++ evs2) = (sent evs1 ++ sent evs2)%list.
Proof. unfold sent. apply omap_app. Qed.

(** ** Facts on strings *)

Lemma append_cons c s t : String c s ++ t = String c (s ++ t).
Proof. reflexivity. Qed.

Lemma append_nil_r s : s ++ EmptyString = s.
Proof. induction s as [|c s IH]; [done|]. by rewrite append_cons, IH. Qed.

Lemma append_assoc s t u : (s ++ t) ++ u = s ++ (t ++ u).
Proof. induction s as [|c s IH]; [done|]. by rewrite !append_cons, IH. Qed.

Lemma Split_nonempty s sep : strings.Split s sep ≠ [].
Proof.
  destruct s as [|c s]; simpl; [done|].
  case_bool_decide; [done|]. by destruct (strings.Split s sep).
Qed.

Lemma Split_avoids s sep : Forall (λ x, avoids sep x = true) (strings.Split s sep).
Proof.
  induction s as [|c s IH]; simpl.
  - by repeat constructor.
  - case_bool_decide as Hc.
    + by constructor.
    + destruct (strings.Split s sep) as [|x xs].
      * repeat constructor. simpl. by rewrite bool_decide_eq_false_2.
      * inversion_clear IH as [|?? Hx Hxs]. constructor; [|done].
        simpl. by rewrite bool_decide_eq_false_2.
Qed.

Lemma Split_app_sep x sep rest :
  avoids sep x = true →
  strings.Split (x ++ String sep rest) sep = x :: strings.Split rest sep.
Proof.
  induction x as [|c x IH]; simpl; intros Hx.
  - by rewrite bool_decide_eq_true_2.
  - apply andb_true_iff in Hx as [Hc Hx]. apply negb_true_iff in Hc.
    rewrite Hc. by rewrite IH.
Qed.

Lemma Split_avoiding x sep : avoids sep x = true → strings.Split x sep = [x].
Proof.
  induction x as [|c x IH]; simpl; intros Hx; [done|].
  apply andb_true_iff in Hx as [Hc Hx]. apply negb_true_iff in Hc.
  rewrite Hc. by rewrite IH.
Qed.

Lemma Split_Join l sep :
  l ≠ [] → Forall (λ x, avoids sep x = true) l →
  strings.Split (strings.Join l sep) sep = l.
Proof.
  induction l as [|x l IH]; [done|]. intros _ Hl.
  inversion_clear Hl as [|?? Hx Hl'].
  destruct l as [|y l].
  - simpl. by apply Split_avoiding.
  - change (strings.Join (x :: y :: l) sep)
      with (x ++ String sep (strings.Join (y :: l) sep)).
    rewrite Split_app_sep by done. f_equal. by apply IH.
Qed.

Lemma Join_nil_inv l sep :
  strings.Join l sep = EmptyString → l = [] ∨ l = [EmptyString].
Proof.
  destruct l as [|x [|y l]]; simpl; [by left|intros ->; by right|].
  destruct x; simpl; discriminate.
Qed.

Lemma Join_snoc_nonempty l x sep :
  x ≠ EmptyString → strings.Join (l ++ [x]) sep ≠ EmptyString.
Proof.
  intros Hx Hj. apply Join_nil_inv in Hj as [Hj|Hj].
  - by destruct l.
  - destruct l as [|y [|z l]]; simplify_eq/=.
Qed.

(** ** Facts on package strconv *)

Lemma digits_str_app ds1 ds2 :
  digits_str (ds1 ++ ds2) = digits_str ds1 ++ digits_str ds2.
Proof. induction ds1 as [|d ds1 IH]; simpl; [done|]. by rewrite IH. Qed.

Lemma digits_val_app acc ds1 ds2 :
  digits_val acc (ds1 ++ ds2) = digits_val (digits_val acc ds1) ds2.
Proof. apply foldl_app. Qed.

Lemma digit_pretty d : (d < 10)%N → strconv.digit (pretty_N_char d) = Some d.
Proof.
  intros Hd.
  assert (d = 0 ∨ d = 1 ∨ d = 2 ∨ d = 3 ∨ d = 4 ∨ d = 5 ∨ d = 6 ∨ d = 7
          ∨ d = 8 ∨ d = 9)%N as Hcases by lia.
  repeat (destruct Hcases as [->|Hcases]; [reflexivity|]). by subst.
Qed.

Lemma pretty_N_go_digits x :
  ∃ ds, (∀ s, pretty_N_go x s = digits_str ds ++ s)
        ∧ digits_val 0 ds = x
        ∧ Forall (λ d, d < 10)%N ds
        ∧ match ds with [] => x = 0%N | d :: _ => (0 < d)%N end.
Proof.
  induction (N.lt_wf_0 x) as [x _ IH].
  destruct (decide (x = 0%N)) as [->|Hx].
  - exists []. repeat split. constructor.
  - assert (0 < x)%N as Hpos by lia.
    destruct (IH (x `div` 10)%N) as (ds & Hstr & Hval & Hlt & Hhead).
    { by apply N.div_lt. }
    exists (ds ++ [(x `mod` 10)%N])%list. repeat split.
    + intros s. rewrite pretty_N_go_step by done. rewrite Hstr.
      rewrite digits_str_app. simpl. by rewrite append_assoc.
    + rewrite digits_val_app, Hval. simpl.
      pose proof (N.div_mod x 10). lia.
    + apply Forall_app. split; [done|]. repeat constructor.
      apply N.mod_lt. lia.
    + destruct ds as [|d ds]; simpl; [|done].
      pose proof (N.div_mod x 10). lia.
Qed.

Lemma FormatInt_pos p : strconv.FormatInt (Z.pos p) = pretty_N_go (N.pos p) EmptyString.
Proof. reflexivity. Qed.

Lemma FormatInt_neg p :
  strconv.FormatInt (Z.neg p) = String "-"%char (pretty_N_go (N.pos p) EmptyString).
Proof. reflexivity. Qed.

(** The shape of [FormatInt]: an optional minus, then the decimal digits of
    the absolute value, without a leading zero. *)
Lemma FormatInt_digits (i : Z) :
  ∃ d ds,
    strconv.FormatInt i
    = (if bool_decide (i < 0) then "-" else EmptyString) ++ digits_str (d :: ds)
    ∧ digits_val d ds = Z.abs_N i
    ∧ Forall (λ d, d < 10)%N (d :: ds)
    ∧ (ds ≠ [] → (0 < d)%N).
Proof.
  destruct i as [|p|p].
  - exists 0%N, []. repeat split; [by repeat constructor|done].
  - destruct (pretty_N_go_digits (N.pos p)) as (ds & Hstr & Hval & Hlt & Hhead).
    destruct ds as [|d ds']; [lia|].
    exists d, ds'. rewrite bool_decide_eq_false_2 by lia.
    rewrite FormatInt_pos, Hstr. repeat split; [|done..].
    by rewrite append_nil_r.
  - destruct (pretty_N_go_digits (N.pos p)) as (ds & Hstr & Hval & Hlt & Hhead).
    destruct ds as [|d ds']; [lia|].
    exists d, ds'. rewrite bool_decide_eq_true_2 by lia.
    rewrite FormatInt_neg, Hstr. repeat split; [|done..].
    by rewrite append_nil_r.
Qed.

Lemma FormatInt_nonempty i : strconv.FormatInt i ≠ EmptyString.
Proof.
  destruct (FormatInt_digits i) as (d & ds & -> & _).
  by case_bool_decide.
Qed.

Lemma digits_digits_str ds s acc :
  Forall (λ d, d < 10)%N ds →
  strconv.digits (digits_str ds ++ s) acc = strconv.digits s (digits_val acc ds).
Proof.
  intros Hds. revert acc.
  induction Hds as [|d ds Hd _ IH]; intros acc; simpl; [done|].
  rewrite digit_pretty by done. apply IH.
Qed.

Lemma digits_of_digits_str d ds :
  Forall (λ d, d < 10)%N (d :: ds) →
  strconv.digits (digits_str (d :: ds)) 0 = Some (digits_val d ds).
Proof.
  intros Hlt. rewrite <- (append_nil_r (digits_str (d :: ds))).
  by rewrite digits_digits_str.
Qed.

Lemma pretty_N_char_not_sign d :
  pretty_N_char d ≠ "-"%char ∧ pretty_N_char d ≠ "+"%char.
Proof. unfold pretty_N_char. by repeat case_match. Qed.

Lemma ParseInt_FormatInt i : isInt64 i → strconv.ParseInt (strconv.FormatInt i) = Ok i.
Proof.
  intros Hi. unfold isInt64, minInt64, maxInt64 in Hi.
  destruct (FormatInt_digits i) as (d & ds & -> & Hval & Hlt & _).
  pose proof (digits_of_digits_str d ds Hlt) as Hdig. rewrite Hval in Hdig.
  destruct (pretty_N_char_not_sign d) as [Hm Hp].
  change (digits_str (d :: ds)) with (String (pretty_N_char d) (digits_str ds)) in *.
  unfold strconv.ParseInt.
  case_bool_decide as Hneg.
  - change ("-" ++ String (pretty_N_char d) (digits_str ds))
      with (String "-"%char (String (pretty_N_char d) (digits_str ds))).
    cbv beta iota zeta. rewrite (bool_decide_eq_true_2 ("-"%char = "-"%char)) by done.
    rewrite orb_true_r. rewrite Hdig.
    cbv beta iota zeta. simpl negb. simpl andb.
    destruct (2 ^ 63 <? Z.abs_N i)%N eqn:Hc.
    + apply N.ltb_lt in Hc. lia.
    + f_equal. lia.
  - change (EmptyString ++ String (pretty_N_char d) (digits_str ds))
      with (String (pretty_N_char d) (digits_str ds)).
    cbv beta iota zeta. rewrite !bool_decide_eq_false_2 by done.
    simpl orb. cbv beta iota zeta. rewrite Hdig. simpl negb. simpl andb.
    destruct (2 ^ 63 <=? Z.abs_N i)%N eqn:Hc.
    + apply N.leb_le in Hc. lia.
    + f_equal. lia.
Qed.

(** ** The reference codec satisfies [JsonLaws] *)

Lemma ref_plain_app k1 k2 : ref_plain (k1 ++ k2) = ref_plain k1 && ref_plain k2.
Proof.
  induction k1 as [|c k1 IH]; [done|].
  rewrite append_cons. simpl. by rewrite IH, andb_assoc.
Qed.

Lemma ref_key_char_digit d : (d < 10)%N → ref_key_char (pretty_N_char d) = true.
Proof.
  intros Hd. unfold ref_key_char. rewrite digit_pretty by done.
  rewrite (bool_decide_eq_true_2 (is_Some _)) by eauto. apply orb_true_r.
Qed.

Lemma ref_plain_digits ds : Forall (λ d, d < 10)%N ds → ref_plain (digits_str ds) = true.
Proof.
  induction 1 as [|d ds Hd _ IH]; simpl; [done|].
  by rewrite ref_key_char_digit, IH.
Qed.

Lemma ref_plain_FormatInt i : ref_plain (strconv.FormatInt i) = true.
Proof.
  destruct (FormatInt_digits i) as (d & ds & -> & _ & Hlt & _).
  rewrite ref_plain_app, ref_plain_digits by done.
  by case_bool_decide.
Qed.

Lemma ref_key_char_not_quote c : ref_key_char c = true → c ≠ ref_quote.
Proof. intros Hc ->. discriminate Hc. Qed.

Lemma ref_read_key k k0 acc rest :
  ref_plain k = true →
  ref_read (PKey k0) acc (k ++ String ref_quote rest) = ref_read (PColon (k0 ++ k)) acc rest.
Proof.
  revert k0. induction k as [|c k IH]; intros k0 Hk.
  - simpl. by rewrite append_nil_r.
  - simpl in Hk. apply andb_true_iff in Hk as [Hc Hk].
    rewrite append_cons. simpl.
    rewrite bool_decide_eq_false_2 by by apply ref_key_char_not_quote.
    rewrite Hc, IH by done. by rewrite append_assoc.
Qed.

Lemma ref_read_digits ds k neg n acc c rest :
  Forall (λ d, d < 10)%N ds →
  (ds ≠ [] → n ≠ 0%N) →
  c = comma ∨ c = "}"%char →
  ref_fits (ref_value neg (digits_val n ds)) = true →
  ref_read (PDigits k neg n) acc (digits_str ds ++ String c rest)
  = ref_read (ref_after c) (<[k := ref_value neg (digits_val n ds)]> acc) rest.
Proof.
  intros Hds. revert n.
  induction Hds as [|d ds Hd _ IH]; intros n Hn Hc Hfit.
  - simpl in *. unfold ref_after.
    destruct Hc as [-> | ->]; simpl; by rewrite Hfit.
  - simpl. rewrite digit_pretty by done.
    rewrite bool_decide_eq_false_2 by auto.
    apply IH; [|done..]. intros _. specialize (Hn ltac:(done)). lia.
Qed.

Lemma ref_value_abs i : ref_value (bool_decide (i < 0)) (Z.abs_N i) = i.
Proof. unfold ref_value. case_bool_decide; lia. Qed.

Lemma ref_fits_int64 v : isInt64 v → ref_fits v = true.
Proof.
  unfold isInt64, ref_fits. intros [??].
  apply andb_true_iff. split; by apply Z.leb_le.
Qed.

Lemma ref_read_number i k acc c rest :
  isInt64 i → c = comma ∨ c = "}"%char →
  ref_read (PValue k) acc (strconv.FormatInt i ++ String c rest)
  = ref_read (ref_after c) (<[k := i]> acc) rest.
Proof.
  intros Hi Hc.
  destruct (FormatInt_digits i) as (d & ds & -> & Hval & Hlt & Hhead).
  pose proof (ref_value_abs i) as Habs. rewrite <- Hval in Habs.
  inversion Hlt as [|?? Hd Hds]; subst.
  destruct (pretty_N_char_not_sign d) as [Hm _].
  case_bool_decide as Hneg.
  - change (("-" ++ digits_str (d :: ds)) ++ String c rest)
      with (String "-"%char (String (pretty_N_char d) (digits_str ds ++ String c rest))).
    simpl. rewrite digit_pretty by done.
    rewrite ref_read_digits; [by rewrite Habs|done| |done|].
    + intros Hne. specialize (Hhead Hne). lia.
    + rewrite Habs. by apply ref_fits_int64.
  - change ((EmptyString ++ digits_str (d :: ds)) ++ String c rest)
      with (String (pretty_N_char d) (digits_str ds ++ String c rest)).
    simpl. rewrite bool_decide_eq_false_2 by done.
    rewrite digit_pretty by done.
    rewrite ref_read_digits; [by rewrite Habs|done| |done|].
    + intros Hne. specialize (Hhead Hne). lia.
    + rewrite Habs. by apply ref_fits_int64.
Qed.

Lemma ref_read_member kv acc c rest :
  ref_kv_ok kv → c = comma ∨ c = "}"%char →
  ref_read (PKey EmptyString) acc
    (kv.1 ++ String ref_quote (String ":"%char (strconv.FormatInt kv.2 ++ String c rest)))
  = ref_read (ref_after c) (ref_put acc kv) rest.
Proof.
  intros [Hk Hv] Hc. rewrite ref_read_key by done. simpl.
  by rewrite ref_read_number.
Qed.

Lemma ref_member_app kv t :
  ref_member kv ++ t
  = String ref_quote
      (kv.1 ++ String ref_quote (String ":"%char (strconv.FormatInt kv.2 ++ t))).
Proof.
  unfold ref_member. rewrite append_cons. f_equal.
  rewrite append_assoc. f_equal.
Qed.

Lemma ref_read_members l p acc :
  p = PFirst ∨ p = PNext → l ≠ [] → Forall ref_kv_ok l →
  ref_read p acc (strings.Join (map ref_member l) comma ++ "}")
  = Some (foldl ref_put acc l).
Proof.
  intros Hp Hl Hok. revert p acc Hp Hl.
  induction Hok as [|kv l Hkv Hok IH]; intros p acc Hp Hl; [done|].
  destruct l as [|kv' l].
  - change (strings.Join (map ref_member [kv]) comma) with (ref_member kv).
    rewrite ref_member_app.
    assert (ref_read p acc
              (String ref_quote
                 (kv.1 ++ String ref_quote
                    (String ":"%char (strconv.FormatInt kv.2 ++ "}"))))
            = ref_read (PKey EmptyString) acc
                (kv.1 ++ String ref_quote
                   (String ":"%char (strconv.FormatInt kv.2 ++ "}")))) as ->.
    { by destruct Hp as [-> | ->]. }
    rewrite ref_read_member by auto. done.
  - change (strings.Join (map ref_member (kv :: kv' :: l)) comma)
      with (ref_member kv ++ String comma (strings.Join (map ref_member (kv' :: l)) comma)).
    rewrite append_assoc, ref_member_app, append_cons.
    assert (∀ t, ref_read p acc (String ref_quote t)
                 = ref_read (PKey EmptyString) acc t) as ->.
    { intros t. by destruct Hp as [-> | ->]. }
    rewrite ref_read_member by auto.
    apply (IH PNext); auto.
Qed.

Lemma foldl_ref_put l acc : foldl ref_put acc l = list_to_map (reverse l) ∪ acc.
Proof.
  revert acc. induction l as [|[k v] l IH]; intros acc; simpl.
  - by rewrite (left_id_L ∅ (∪)).
  - rewrite IH, reverse_cons, list_to_map_app. simpl.
    unfold ref_put. simpl.
    rewrite <- (assoc_L (∪)). f_equal.
    rewrite insert_empty. by rewrite <- insert_union_singleton_l.
Qed.

Lemma ref_roundtrip m :
  ref_clean m → ∃ s, ref_Marshal m = Ok s ∧ ref_Unmarshal s = (m, None).
Proof.
  intros Hm. eexists. split; [reflexivity|].
  unfold ref_Unmarshal. simpl.
  set (l := merge_sort ref_key_le (map_to_list m)).
  assert (l ≡ₚ map_to_list m) as Hperm by apply merge_sort_Permutation.
  destruct l as [|kv l'] eqn:Hl.
  - apply Permutation_nil_l in Hperm. symmetry in Hperm.
    apply map_to_list_empty_iff in Hperm as ->. done.
  - rewrite <- Hl. rewrite ref_read_members; [|by left|by rewrite Hl|].
    + rewrite foldl_ref_put, (right_id_L ∅ (∪)).
      rewrite <- Hl in Hperm.
      rewrite (list_to_map_proper (reverse l) (map_to_list m)).
      * by rewrite list_to_map_to_list.
      * rewrite reverse_Permutation, Hperm. apply NoDup_fst_map_to_list.
      * by rewrite reverse_Permutation.
    + rewrite <- Hl in Hperm. rewrite Hperm.
      apply Forall_forall. intros [k v] Hkv%elem_of_map_to_list.
      by apply (Hm k v).
Qed.

Lemma ref_clean_insert m k v :
  ref_clean m → ref_plain k = true → isInt64 v → ref_clean (<[k := v]> m).
Proof. intros Hm Hk Hv. by apply map_Forall_insert_2. Qed.

Lemma ref_fits_inv v : ref_fits v = true → isInt64 v.
Proof.
  unfold ref_fits, isInt64. intros [??]%andb_true_iff.
  split; by apply Z.leb_le.
Qed.

Lemma ref_read_clean s p acc m :
  ref_pos_ok p → ref_clean acc → ref_read p acc s = Some m → ref_clean m.
Proof.
  revert p acc. induction s as [|c s IH]; intros p acc Hp Hacc Hread.
  - destruct p; simplify_eq/=. done.
  - destruct p; simpl in Hread;
      repeat (case_bool_decide || case_match); simplify_eq/=;
      try (eapply IH; [| |eassumption]; simpl; try done);
      try (apply ref_clean_insert; auto using ref_fits_inv).
    rewrite ref_plain_app. simpl. rewrite Hp. simpl. by rewrite andb_true_r.
Qed.

Lemma ref_laws : JsonLaws RefJson.
Proof.
  split; simpl.
  - by exists ErrJSON.
  - intros s. unfold ref_Unmarshal.
    destruct (ref_read PStart ∅ s) as [m|] eqn:Hread; simpl.
    + eapply ref_read_clean; [| |exact Hread]; [done|]. apply map_Forall_empty.
    + apply map_Forall_empty.
  - intros m i v Hm Hv. apply ref_clean_insert; auto using ref_plain_FormatInt.
  - intros m k Hm. by apply map_Forall_delete.
  - apply ref_roundtrip.
Qed.

(** Computes [sent] on a list of events whose unknown parts send nothing, or
    what a hypothesis says. *)
Ltac sent_simpl :=
  repeat (rewrite sent_app || rewrite sent_cons || rewrite sent_nil
          || match goal with H : sent _ = _ |- _ => rewrite H end);
  simpl.

(** ** The store primitives *)

Lemma QueryRow_column_run q col token s :
  QueryRow_column q col token s
  = (if (next_fault (db_faults s)).1 then Err ErrStore
     else match rows s !! token with
          | Some r => Ok (col r)
          | None => Err ErrNoRows
          end,
     pop_db s, [SqlQuery q [AStr token]]).
Proof.
  unfold QueryRow_column, pop_db. unfold_prims.
  by destruct (next_fault (db_faults s)) as [[] fs].
Qed.

Lemma Exec_run q args effect s :
  Exec q args effect s
  = (if (next_fault (db_faults s)).1 then (Some ErrStore, pop_db s, [SqlExec q args])
     else match effect (rows s) with
          | Ok t => (None, set_rows (λ _, t) (pop_db s), [SqlExec q args])
          | Err e => (Some e, pop_db s, [SqlExec q args])
          end).
Proof.
  unfold Exec, pop_db. unfold_prims.
  destruct (next_fault (db_faults s)) as [[] fs]; simpl; [done|].
  by destruct (effect (rows s)).
Qed.

Lemma scanned_column col t token :
  scanned (match t !! token with Some r => Ok (col r) | None => Err ErrNoRows end)
  = column col t token.
Proof. unfold column. by destruct (t !! token). Qed.

Lemma store_failed_column col (t : gmap string BotRow) token :
  store_failed (match t !! token with Some r => Ok (col r) | None => Err ErrNoRows end)
  = None.
Proof. by destruct (t !! token). Qed.

Lemma column_alter_ne col f (t : gmap string BotRow) token token' :
  token ≠ token' → column col (alter f token' t) token = column col t token.
Proof. intros Hne. unfold column. by rewrite lookup_alter_ne. Qed.

Lemma column_alter col f (t : gmap string BotRow) token :
  column col (alter f token t) token
  = match t !! token with Some r => col (f r) | None => EmptyString end.
Proof. unfold column. rewrite lookup_alter_eq. by destruct (t !! token). Qed.

Lemma column_appeal_with_blocked v (t : gmap string BotRow) token token' :
  column appeal_counts (alter (with_blocked_users v) token' t) token
  = column appeal_counts t token.
Proof.
  destruct (decide (token = token')) as [->|Hne].
  - rewrite column_alter. unfold column. by destruct (t !! token').
  - by apply column_alter_ne.
Qed.

Lemma column_blocked_with_appeal v (t : gmap string BotRow) token token' :
  column blocked_users (alter (with_appeal_counts v) token' t) token
  = column blocked_users t token.
Proof.
  destruct (decide (token = token')) as [->|Hne].
  - rewrite column_alter. unfold column. by destruct (t !! token').
  - by apply column_alter_ne.
Qed.

Lemma column_written col f v (t : gmap string BotRow) token :
  is_Some (t !! token) → (∀ r, col (f r) = v) →
  column col (alter f token t) token = v.
Proof. intros [r Hr] Hf. rewrite column_alter, Hr. apply Hf. Qed.

Lemma column_nonempty col (t : gmap string BotRow) token :
  column col t token ≠ EmptyString → is_Some (t !! token).
Proof. unfold column. destruct (t !! token); [eauto|done]. Qed.

Section Store.
Context {J : EncodingJson}.

Lemma getAppealCount_run token userID s :
  ∃ evs, getAppealCount token userID s
         = (if (next_fault (db_faults s)).1 then 0 else appealCountOf s token userID,
            pop_db s, evs)
         ∧ sent evs = [].
Proof.
  unfold getAppealCount, appealCountOf. unfold bind at 1.
  rewrite QueryRow_column_run.
  destruct (next_fault (db_faults s)).1; simpl; [by eexists|].
  rewrite scanned_column, store_failed_column.
  case_bool_decide; [by eexists|].
  destruct (json_Unmarshal _) as [m [e|]]; by eexists.
Qed.

Lemma isUserBlocked_run token userID s :
  ∃ evs, isUserBlocked token userID s
         = (if (next_fault (db_faults s)).1 then false else blockedIn s token userID,
            pop_db s, evs)
         ∧ sent evs = [].
Proof.
  unfold isUserBlocked, blockedIn. unfold bind at 1.
  rewrite QueryRow_column_run.
  destruct (next_fault (db_faults s)).1; simpl; [by eexists|].
  rewrite scanned_column, store_failed_column.
  case_bool_decide; by eexists.
Qed.

(** What [blockUser] does to the table. *)
Lemma blockUser_run token userID s :
  ∃ e s' evs, blockUser token userID s = (e, s', evs)
    ∧ sent evs = []
    ∧ (db_faults s = [] → db_faults s' = [])
    ∧ net_faults s' = net_faults s
    ∧ (rows s' = rows s
       ∨ ∃ new, new ≠ EmptyString
                ∧ rows s' = alter (with_blocked_users new) token (rows s))
    ∧ (e = None →
       rows s' !! token = None ∨ column blocked_users (rows s') token ≠ EmptyString).
Proof.
  unfold blockUser. unfold bind at 1. rewrite QueryRow_column_run.
  destruct (next_fault (db_faults s)) as [f1 fs1] eqn:Hf1.
  assert (db_faults s = [] → fs1 = []) as Hq1.
  { intros Hs. rewrite Hs in Hf1. by simplify_eq/=. }
  destruct f1; simpl.
  { do 3 eexists. split; [reflexivity|]. unfold pop_db. rewrite Hf1. simpl.
    repeat split; auto; by left. }
  rewrite scanned_column, store_failed_column.
  set (blockedUsers := column blocked_users (rows s) token).
  destruct (existsb (is_id userID) (strings.Split blockedUsers comma)) eqn:Hex.
  { do 3 eexists. split; [reflexivity|]. unfold pop_db. rewrite Hf1. simpl.
    repeat split; auto. intros _. right. fold blockedUsers.
    intros Hb. rewrite Hb in Hex. discriminate Hex. }
  set (new := strings.Join _ comma).
  assert (new ≠ EmptyString) as Hnew.
  { subst new. case_bool_decide.
    - apply Join_snoc_nonempty, FormatInt_nonempty.
    - apply FormatInt_nonempty. }
  unfold bind at 1. unfold Exec_set_blocked_users. rewrite Exec_run.
  unfold pop_db. simpl. rewrite Hf1. simpl.
  destruct (next_fault fs1) as [f2 fs2] eqn:Hf2.
  assert (fs1 = [] → fs2 = []) as Hq2.
  { intros Hs. rewrite Hs in Hf2. by simplify_eq/=. }
  destruct f2; simpl.
  { do 3 eexists. split; [reflexivity|]. simpl.
    repeat split; auto; by left. }
  do 3 eexists. split; [reflexivity|]. simpl.
  repeat split; auto.
  - right. by exists new.
  - intros _. destruct (rows s !! token) as [r|] eqn:Hr.
    + right. rewrite column_alter, Hr. done.
    + left. by rewrite lookup_alter_eq, Hr.
Qed.

Lemma avoids_comma_plain k : ref_plain k = true → avoids comma k = true.
Proof.
  induction k as [|c k IH]; simpl; [done|].
  intros [Hc Hk]%andb_true_iff. rewrite IH by done.
  rewrite andb_true_r. apply negb_true_iff, bool_decide_eq_false_2.
  intros ->. discriminate Hc.
Qed.

Lemma is_id_FormatInt userID :
  isInt64 userID → is_id userID (strconv.FormatInt userID) = true.
Proof.
  intros Hu. unfold is_id. rewrite ParseInt_FormatInt by done.
  by apply bool_decide_eq_true_2.
Qed.

(** Ban: on a store that answers and holds the bot's row, [blockUser]
    succeeds and the user is then on the blocked list. *)
Lemma blockUser_blocks token userID s :
  isInt64 userID → db_faults s = [] → is_Some (rows s !! token) →
  ∃ s' evs, blockUser token userID s = (None, s', evs)
    ∧ blockedIn s' token userID = true.
Proof.
  intros Hu Hdb Hrow. unfold blockUser. unfold bind at 1.
  rewrite QueryRow_column_run. unfold pop_db. rewrite Hdb. simpl.
  rewrite scanned_column, store_failed_column.
  set (old := column blocked_users (rows s) token).
  destruct (existsb (is_id userID) (strings.Split old comma)) eqn:Hex.
  { do 2 eexists. split; [reflexivity|]. unfold blockedIn. simpl. fold old.
    case_bool_decide as Hold; [|done]. by rewrite Hold in Hex. }
  unfold bind at 1. unfold Exec_set_blocked_users. rewrite Exec_run.
  unfold pop_db. simpl.
  do 2 eexists. split; [reflexivity|]. unfold blockedIn. simpl.
  set (new := strings.Join _ comma).
  rewrite (column_written blocked_users (with_blocked_users new) new) by done.
  assert (avoids comma (strconv.FormatInt userID) = true) as Hav
    by apply avoids_comma_plain, ref_plain_FormatInt.
  assert (strings.Split new comma
          = if bool_decide (old ≠ EmptyString)
            then (strings.Split old comma ++ [strconv.FormatInt userID])%list
            else [strconv.FormatInt userID]) as ->.
  { subst new. case_bool_decide.
    - apply Split_Join.
      + intros Hnil%app_eq_nil. by destruct Hnil.
      + apply Forall_app. split; [apply Split_avoids|by repeat constructor].
    - by apply Split_Join; [|repeat constructor]. }
  assert (new ≠ EmptyString) as Hnew.
  { subst new. case_bool_decide.
    - apply Join_snoc_nonempty, FormatInt_nonempty.
    - apply FormatInt_nonempty. }
  rewrite bool_decide_eq_false_2 by done.
  case_bool_decide.
  - rewrite existsb_app. simpl. rewrite is_id_FormatInt by done.
    by rewrite orb_true_r.
  - simpl. by rewrite is_id_FormatInt.
Qed.

Lemma next_fault_nil fs f fs' : next_fault fs = (f, fs') → fs = [] → fs' = [].
Proof. intros H ->. by simplify_eq/=. Qed.

(** Closes the run equation and the frame conjuncts of a leaf. *)
Ltac leaf :=
  do 3 eexists; split; [reflexivity|]; unfold pop_db; simpl;
  split; [repeat (rewrite sent_cons || rewrite sent_app
                  || match goal with H : sent _ = [] |- _ => rewrite H end);
          try done|];
  split; [eauto|]; split; [done|].

(** What [incrementAppealCount] does to the table. *)
Lemma incrementAppealCount_run token userID s :
  let k := strconv.FormatInt userID in
  ∃ e s' evs, incrementAppealCount token userID s = (e, s', evs)
    ∧ sent evs = []
    ∧ (db_faults s = [] → db_faults s' = [])
    ∧ net_faults s' = net_faults s
    ∧ (rows s' = rows s
       ∨ ∃ m str,
           decode (column appeal_counts (rows s) token) = (m, None)
           ∧ json_Marshal (<[k := wrapInt (default 0 (m !! k) + 1)]> m) = Ok str
           ∧ rows s' = alter (with_appeal_counts str) token (rows s))
    ∧ (db_faults s = [] → ∀ m str,
         decode (column appeal_counts (rows s) token) = (m, None) →
         json_Marshal (<[k := wrapInt (default 0 (m !! k) + 1)]> m) = Ok str →
         e = None ∧ rows s' = alter (with_appeal_counts str) token (rows s)).
Proof.
  intros k. unfold incrementAppealCount. unfold bind at 1.
  rewrite QueryRow_column_run. unfold pop_db.
  destruct (next_fault (db_faults s)) as [f1 fs1] eqn:Hf1.
  pose proof (next_fault_nil _ _ _ Hf1) as Hq1.
  destruct f1; simpl.
  { leaf. split; [by left|].
    intros Hs. rewrite Hs in Hf1. discriminate Hf1. }
  rewrite scanned_column, store_failed_column.
  change (if bool_decide (column appeal_counts (rows s) token ≠ EmptyString)
          then json_Unmarshal (column appeal_counts (rows s) token)
          else (∅, None))
    with (decode (column appeal_counts (rows s) token)).
  destruct (decode (column appeal_counts (rows s) token)) as [m [err|]] eqn:Hdec.
  { leaf. split; [by left|]. by intros _ ?? [=]. }
  fold k.
  destruct (json_Marshal (<[k := wrapInt (default 0 (m !! k) + 1)]> m))
    as [str|err] eqn:Hmar.
  2:{ leaf. split; [by left|]. intros _ ?? [= <-] ?. congruence. }
  unfold bind at 1. unfold Exec_set_appeal_counts. rewrite Exec_run.
  unfold pop_db. simpl.
  destruct (next_fault fs1) as [f2 fs2] eqn:Hf2.
  pose proof (next_fault_nil _ _ _ Hf2) as Hq2.
  destruct f2; simpl.
  { leaf. split; [by left|].
    intros Hs. rewrite (Hq1 Hs) in Hf2. discriminate Hf2. }
  leaf. split.
  - right. by exists m, str.
  - intros _ ?? [= <-] ?. split; [done|]. congruence.
Qed.

(** What [unblockUser] does to the table. *)
Lemma unblockUser_run token userID s :
  let old := column blocked_users (rows s) token in
  let new := strings.Join (List.filter (keeps userID) (strings.Split old comma)) comma in
  let m := (decode (column appeal_counts (rows s) token)).1 in
  ∃ e s' evs, unblockUser token userID s = (e, s', evs)
    ∧ sent evs = []
    ∧ (db_faults s = [] → db_faults s' = [])
    ∧ net_faults s' = net_faults s
    ∧ ((rows s' = rows s ∧ (e = None → old = EmptyString))
       ∨ (e ≠ None ∧ rows s' = alter (with_blocked_users new) token (rows s))
       ∨ (e = None ∧ old ≠ EmptyString
          ∧ ∃ str,
              json_Marshal (delete (strconv.FormatInt userID) m) = Ok str
              ∧ rows s'
                = alter (with_appeal_counts str) token
                    (alter (with_blocked_users new) token (rows s)))).
Proof.
  intros old new m. unfold unblockUser. unfold bind at 1.
  rewrite QueryRow_column_run. unfold pop_db.
  destruct (next_fault (db_faults s)) as [f1 fs1] eqn:Hf1.
  pose proof (next_fault_nil _ _ _ Hf1) as Hq1.
  destruct f1; simpl.
  { leaf. left. by split. }
  rewrite scanned_column, store_failed_column. fold old.
  case_bool_decide as Hold.
  { leaf. left. by split. }
  fold new.
  unfold bind at 1. unfold Exec_set_blocked_users. rewrite Exec_run.
  unfold pop_db. simpl.
  destruct (next_fault fs1) as [f2 fs2] eqn:Hf2.
  pose proof (next_fault_nil _ _ _ Hf2) as Hq2.
  destruct f2; simpl.
  { leaf. left. by split. }
  unfold bind at 1. rewrite QueryRow_column_run. unfold pop_db. simpl.
  destruct (next_fault fs2) as [f3 fs3] eqn:Hf3.
  pose proof (next_fault_nil _ _ _ Hf3) as Hq3.
  destruct f3; simpl.
  { leaf. right. left. by split. }
  rewrite scanned_column, store_failed_column, column_appeal_with_blocked.
  change (if bool_decide (column appeal_counts (rows s) token ≠ EmptyString)
          then json_Unmarshal (column appeal_counts (rows s) token)
          else (∅, None))
    with (decode (column appeal_counts (rows s) token)).
  subst m.
  destruct (decode (column appeal_counts (rows s) token)) as [m e0]. simpl.
  assert (∃ ev0, (∀ s0, when_err e0 (λ err,
            log_Printf "Failed to unmarshal appeal counts: %v" [AErr err]) s0
          = (tt, s0, ev0)) ∧ sent ev0 = []) as (ev0 & Hrun0 & Hev0).
  { destruct e0; by eexists. }
  unfold bind at 1. rewrite Hrun0.
  destruct (json_Marshal (delete (strconv.FormatInt userID) m)) as [str|err] eqn:Hmar.
  2:{ leaf. right. left. by split. }
  unfold bind at 1. unfold Exec_set_appeal_counts. rewrite Exec_run.
  unfold pop_db. simpl.
  destruct (next_fault fs3) as [f4 fs4] eqn:Hf4.
  pose proof (next_fault_nil _ _ _ Hf4) as Hq4.
  destruct f4; simpl.
  { leaf. right. left. by split. }
  leaf. right. right. repeat split; auto. by exists str.
Qed.

Lemma Send_run bot c s :
  ∃ e, Send bot c s = (e, set_net_faults (next_fault (net_faults s)).2 s, [NetSend c]).
Proof.
  unfold Send. unfold_prims.
  destruct (next_fault (net_faults s)) as [[] fs]; by eexists.
Qed.

Lemma when_err_run e (k : error → M unit) s :
  (∀ err, ∃ ev, k err s = (tt, s, ev) ∧ sent ev = []) →
  ∃ ev, when_err e k s = (tt, s, ev) ∧ sent ev = [].
Proof. intros Hk. destruct e as [err|]; simpl; [apply Hk|by eexists]. Qed.

(** What the appeal branch of the worker does: the flag is dropped, the
    appeal goes to the operator, the count is incremented, and at the cap
    the user is blocked again and told so. *)
Lemma consumeAppeal_run bot creatorID appeals message s :
  let token := Token bot in
  let userID := User_ID (From message) in
  let appealForward :=
    NewMessage creatorID
      ("用户 " ++ strconv.FormatInt userID ++ " 发起申诉: " ++ Text message) in
  ∃ s' evs sA eI sI evI,
    consumeAppeal bot creatorID appeals message s = (delete userID appeals, s', evs)
    ∧ (sent evs = [appealForward] ∨ sent evs = [appealForward; noAppealMsg userID])
    ∧ rows sA = rows s ∧ db_faults sA = db_faults s
    ∧ incrementAppealCount token userID sA = (eI, sI, evI)
    ∧ (rows s' = rows sI
       ∨ ∃ new, new ≠ EmptyString
                ∧ rows s' = alter (with_blocked_users new) token (rows sI)).
Proof.
  intros token userID appealForward. unfold consumeAppeal.
  fold token userID appealForward.
  destruct (Send_run bot appealForward s) as [e1 Hsend1].
  unfold bind at 1. rewrite Hsend1.
  set (sA := set_net_faults _ s).
  destruct (when_err_run e1 (λ err,
    log_Printf "Failed to send appeal message to creator: %v" [AErr err]) sA)
    as (ev2 & Hrun2 & Hev2); [intros; by eexists|].
  unfold bind at 1. rewrite Hrun2.
  unfold bind at 1. unfold log_Printf at 1. unfold emit at 1.
  destruct (incrementAppealCount_run token userID sA)
    as (eI & sI & evI & HrunI & HevI & _ & _ & _ & _).
  unfold bind at 1. rewrite HrunI.
  destruct (when_err_run eI (λ err,
    log_Printf "Failed to increment appeal count for user %d of bot %s : %v"
      [AInt userID; AStr token; AErr err]) sI)
    as (ev3 & Hrun3 & Hev3); [intros; by eexists|].
  unfold bind at 1. rewrite Hrun3.
  destruct (getAppealCount_run token userID sI) as (ev4 & Hrun4 & Hev4).
  unfold bind at 1. rewrite Hrun4.
  set (appealCount := if (next_fault (db_faults sI)).1 then 0
                      else appealCountOf sI token userID).
  case_bool_decide as Hcap.
  - destruct (blockUser_run token userID (pop_db sI))
      as (eB & sB & evB & HrunB & HevB & _ & _ & HrowsB & _).
    unfold bind at 1. unfold bind at 1. rewrite HrunB.
    destruct (when_err_run eB (λ err,
      log_Printf "Failed to block user using /ban command: %v" [AErr err]) sB)
      as (ev5 & Hrun5 & Hev5); [intros; by eexists|].
    unfold bind at 1. rewrite Hrun5.
    destruct (Send_run bot (noAppealMsg userID) sB) as [e6 Hsend6].
    unfold bind at 1. rewrite Hsend6.
    set (sC := set_net_faults _ sB).
    destruct (when_err_run e6 (λ err,
      log_Printf "Failed to send no appeal message to user %d of bot %s : %v"
        [AInt userID; AStr token; AErr err]) sC)
      as (ev7 & Hrun7 & Hev7); [intros; by eexists|].
    rewrite Hrun7. unfold ret. simpl.
    eexists sC, _, sA, eI, sI, evI. split; [reflexivity|].
    split; [|done].
    right.
    repeat (rewrite sent_cons || rewrite sent_app
            || match goal with H : sent _ = [] |- _ => rewrite H end).
    reflexivity.
  - unfold bind at 1. unfold ret. simpl.
    eexists (pop_db sI), _, sA, eI, sI, evI. split; [reflexivity|].
    split; [|repeat split; auto].
    left.
    repeat (rewrite sent_cons || rewrite sent_app
            || match goal with H : sent _ = [] |- _ => rewrite H end).
    reflexivity.
Qed.

Lemma Request_run bot c s :
  ∃ e, Request bot c s
       = (e, set_net_faults (next_fault (net_faults s)).2 s, [NetRequest c]).
Proof.
  unfold Request. unfold_prims.
  destruct (next_fault (net_faults s)) as [[] fs]; by eexists.
Qed.

(** A press of the appeal button does not write to the table. *)
Lemma handleCallback_appeal_rows bot creatorID appeals query s :
  strings.HasPrefix (Data query) "appeal_" = true →
  rows (handleCallback bot creatorID appeals query s).1.2 = rows s.
Proof.
  intros Hpre. unfold handleCallback.
  destruct (Request_run bot (NewCallback (CallbackQuery_ID query) EmptyString) s)
    as [e0 Hreq].
  unfold bind at 1. rewrite Hreq. destruct e0 as [err|]; [done|].
  unfold bind at 1. unfold log_Printf at 1. unfold emit at 1.
  rewrite Hpre.
  destruct (strconv.ParseInt _) as [userID|err]; [|done].
  set (s1 := set_net_faults _ s).
  destruct (getAppealCount_run (Token bot) userID s1) as (ev & Hrun & _).
  unfold bind at 1. rewrite Hrun.
  case_bool_decide.
  - destruct (Send_run bot (noAppealMsg userID) (pop_db s1)) as [e1 Hsend].
    unfold bind at 1. rewrite Hsend.
    set (s2 := set_net_faults _ _).
    destruct (when_err_run e1 (λ err,
      log_Printf "Failed to send no appeal message to user %d of bot %s : %v"
        [AInt userID; AStr (Token bot); AErr err]) s2)
      as (ev7 & Hrun7 & Hev7); [intros; by eexists|].
    unfold bind at 1. rewrite Hrun7. done.
  - destruct (Send_run bot (NewMessage userID "请在此输入你的申诉信息：") (pop_db s1))
      as [e1 Hsend].
    unfold bind at 1. rewrite Hsend. by destruct e1.
Qed.
End Store.

Section Unban.
Context {J : EncodingJson} (HJ : JsonLaws J).

Lemma decode_clean str : json_clean (decode str).1.
Proof.
  unfold decode. case_bool_decide; [apply HJ|]. simpl.
  destruct (json_Unmarshal_empty J HJ) as [e He].
  pose proof (json_clean_Unmarshal J HJ EmptyString) as Hc.
  by rewrite He in Hc.
Qed.

Lemma appealCountOf_decode s token userID m :
  decode (column appeal_counts (rows s) token) = (m, None) →
  appealCountOf s token userID = default 0 (m !! strconv.FormatInt userID).
Proof.
  unfold decode, appealCountOf.
  destruct (decide (column appeal_counts (rows s) token = EmptyString)) as [Hcol|Hcol].
  - rewrite bool_decide_eq_false_2 by auto.
    rewrite bool_decide_eq_true_2 by done. by intros [= <-].
  - rewrite bool_decide_eq_true_2 by done.
    rewrite bool_decide_eq_false_2 by done. by intros ->.
Qed.

(** Reading back what the program wrote. *)
Lemma appealCountOf_written s token userID m str :
  json_clean m → json_Marshal m = Ok str →
  column appeal_counts (rows s) token = str →
  appealCountOf s token userID = default 0 (m !! strconv.FormatInt userID).
Proof.
  intros Hm Hmar Hcol.
  destruct (json_roundtrip J HJ m Hm) as (str' & Hmar' & Hun).
  assert (str' = str) as -> by congruence.
  unfold appealCountOf. rewrite Hcol.
  case_bool_decide as Hstr.
  - destruct (json_Unmarshal_empty J HJ) as [e He]. congruence.
  - by rewrite Hun.
Qed.

Lemma appealCountOf_rows s s' token userID :
  column appeal_counts (rows s') token = column appeal_counts (rows s) token →
  appealCountOf s' token userID = appealCountOf s token userID.
Proof. unfold appealCountOf. by intros ->. Qed.

Lemma is_id_keeps userID x : keeps userID x = true → is_id userID x = false.
Proof.
  unfold keeps, is_id. destruct (strconv.ParseInt x); [|done].
  intros Hk%bool_decide_eq_true. by rewrite bool_decide_eq_false_2.
Qed.

Lemma existsb_is_id_filter userID l :
  existsb (is_id userID) (List.filter (keeps userID) l) = false.
Proof.
  induction l as [|x l IH]; [done|]. simpl.
  destruct (keeps userID x) eqn:Hk; [|done].
  simpl. by rewrite is_id_keeps.
Qed.

Lemma Forall_filter_avoids sep keep l :
  Forall (λ x, avoids sep x = true) l →
  Forall (λ x, avoids sep x = true) (List.filter keep l).
Proof.
  induction 1 as [|x l Hx _ IH]; simpl; [constructor|].
  destruct (keep x); [by constructor|done].
Qed.

(** The blocked list written by [unblockUser] no longer names the user. *)
Lemma unblocked_list userID old :
  let new := strings.Join (List.filter (keeps userID) (strings.Split old comma)) comma in
  new = EmptyString ∨ existsb (is_id userID) (strings.Split new comma) = false.
Proof.
  intros new. subst new.
  destruct (List.filter (keeps userID) (strings.Split old comma)) as [|x l] eqn:Hl.
  - by left.
  - right. rewrite Split_Join; [|done|].
    + rewrite <- Hl. apply existsb_is_id_filter.
    + rewrite <- Hl. apply Forall_filter_avoids, Split_avoids.
Qed.

Lemma listed_rows token s s' : rows s' = rows s → listed token s → listed token s'.
Proof. unfold listed. by intros ->. Qed.

Lemma listed_with_appeal token str s s' :
  rows s' = alter (with_appeal_counts str) token (rows s) →
  listed token s → listed token s'.
Proof.
  unfold listed. intros -> [Hn|Hb].
  - left. by rewrite lookup_alter_eq, Hn.
  - right. by rewrite column_blocked_with_appeal.
Qed.

Lemma listed_with_blocked token new s s' :
  new ≠ EmptyString →
  rows s' = alter (with_blocked_users new) token (rows s) →
  listed token s → listed token s'.
Proof.
  unfold listed. intros Hnew -> _.
  destruct (rows s !! token) as [r|] eqn:Hr.
  - right. by rewrite column_alter, Hr.
  - left. by rewrite lookup_alter_eq, Hr.
Qed.

Lemma appeal_steps_listed bot creatorID userID s s' :
  appeal_steps bot creatorID userID s s' →
  listed (Token bot) s → listed (Token bot) s'.
Proof.
  induction 1 as [s|s appeals query appeals' s' evs s'' Hpre Hrun _ IH
                   |s appeals message appeals' s' evs s'' Hfrom Hrun _ IH];
    intros Hl; [done|..]; apply IH.
  - pose proof (handleCallback_appeal_rows bot creatorID appeals query s Hpre) as Hr.
    rewrite Hrun in Hr. by apply (listed_rows _ s).
  - destruct (consumeAppeal_run bot creatorID appeals message s)
      as (s1 & evs1 & sA & eI & sI & evI & Hrun' & _ & HsA & _ & HrunI & Hrows).
    rewrite Hrun in Hrun'. injection Hrun' as _ <- _.
    assert (listed (Token bot) sI) as HlI.
    { destruct (incrementAppealCount_run (Token bot) (User_ID (From message)) sA)
        as (e & sI' & evI' & HrunI' & _ & _ & _ & Hr & _).
      rewrite HrunI in HrunI'. injection HrunI' as _ <- _.
      destruct Hr as [Hr|(m & str & _ & _ & Hr)].
      - apply (listed_rows _ s); [congruence|done].
      - apply (listed_with_appeal _ str sA); [done|].
        by apply (listed_rows _ s). }
    destruct Hrows as [Hr|(new & Hnew & Hr)].
    + by apply (listed_rows _ sI).
    + by apply (listed_with_blocked _ new sI).
Qed.

(** C2: after a successful Block of the user and any number of appeal
    submissions, an Unblock that returns success leaves the appeal count
    at 0 and the user unblocked: that is what [getAppealCount] and
    [isUserBlocked] return afterwards, and what the table holds. *)
Theorem unblockUser_resets bot creatorID userID s0 s1 ev1 s2 s3 ev3 :
  let token := Token bot in
  blockUser token userID s0 = (None, s1, ev1) →
  appeal_steps bot creatorID userID s1 s2 →
  unblockUser token userID s2 = (None, s3, ev3) →
  (getAppealCount token userID s3).1.1 = 0
  ∧ (isUserBlocked token userID s3).1.1 = false
  ∧ appealCountOf s3 token userID = 0
  ∧ blockedIn s3 token userID = false.
Proof.
  intros token. subst token. generalize (Token bot) (appeal_steps_listed bot creatorID userID).
  intros token Hlisted Hblock Hsteps Hunblock.
  assert (listed token s1) as Hl1.
  { destruct (blockUser_run token userID s0) as (e & s' & evs & Hrun & _ & _ & _ & _ & Hl).
    rewrite Hblock in Hrun. injection Hrun as <- <- _. by apply Hl. }
  pose proof (Hlisted _ _ Hsteps Hl1) as Hl2.
  assert (appealCountOf s3 token userID = 0 ∧ blockedIn s3 token userID = false)
    as [Hcount Hblocked].
  { destruct (unblockUser_run token userID s2)
      as (e & s' & evs & Hrun & _ & _ & _ & Hcases).
    rewrite Hunblock in Hrun. injection Hrun as <- <- _.
    destruct Hcases as [[Hrows Hold]|[[Hne _]|(_ & Hold & str & Hmar & Hrows)]];
      [|done|].
    - specialize (Hold eq_refl). destruct Hl2 as [Hnone|Hb]; [|done].
      unfold appealCountOf, blockedIn, column. rewrite Hrows, Hnone.
      by rewrite !bool_decide_eq_true_2.
    - pose proof (column_nonempty _ _ _ Hold) as Hsome.
      split.
      + erewrite appealCountOf_written; [|apply json_clean_delete, decode_clean; done
                                          |exact Hmar|].
        * by rewrite lookup_delete_eq.
        * rewrite Hrows. apply column_written; [|done].
          destruct Hsome as [r Hr]. rewrite lookup_alter_eq, Hr. by eexists.
      + unfold blockedIn. rewrite Hrows, column_blocked_with_appeal.
        set (new := strings.Join _ comma).
        rewrite (column_written blocked_users (with_blocked_users new) new _ _ Hsome)
          by done.
        case_bool_decide as Hnew; [done|].
        by destruct (unblocked_list userID (column blocked_users (rows s2) token)). }
  repeat split; [| |done..].
  - destruct (getAppealCount_run token userID s3) as (ev & -> & _). simpl.
    by destruct (next_fault (db_faults s3)).1.
  - destruct (isUserBlocked_run token userID s3) as (ev & -> & _). simpl.
    by destruct (next_fault (db_faults s3)).1.
Qed.
End Unban.

(** ** Appeals *)

Lemma wrapInt_small z : isInt64 z → wrapInt z = z.
Proof.
  unfold isInt64, minInt64, maxInt64, wrapInt. intros Hz.
  rewrite Z.mod_small; lia.
Qed.

Lemma wrapInt_isInt64 z : isInt64 (wrapInt z).
Proof.
  unfold isInt64, minInt64, maxInt64, wrapInt.
  pose proof (Z.mod_pos_bound (z + 2 ^ 63) (2 ^ 64)). lia.
Qed.

Section Appeals.
Context {J : EncodingJson} (HJ : JsonLaws J).

(** With a store that answers, a row for the bot and readable counts,
    [incrementAppealCount] adds one to the count of the user. *)
Lemma incrementAppealCount_adds token userID s :
  db_faults s = [] → is_Some (rows s !! token) → readable s token →
  ∃ s' evs, incrementAppealCount token userID s = (None, s', evs)
    ∧ appealCountOf s' token userID = wrapInt (appealCountOf s token userID + 1)
    ∧ db_faults s' = [].
Proof.
  intros Hdb Hrow Hread.
  destruct (incrementAppealCount_run token userID s)
    as (e & s' & evs & Hrun & _ & Hdb' & _ & _ & Hok).
  unfold readable in Hread.
  destruct (decode (column appeal_counts (rows s) token)) as [m e0] eqn:Hdec.
  simpl in Hread. subst e0.
  pose proof (decode_clean HJ (column appeal_counts (rows s) token)) as Hm.
  rewrite Hdec in Hm. simpl in Hm.
  set (k := strconv.FormatInt userID) in *.
  set (m' := <[k := wrapInt (default 0 (m !! k) + 1)]> m) in *.
  assert (json_clean m') as Hm'.
  { apply json_clean_insert; [done..|]. apply wrapInt_isInt64. }
  destruct (json_roundtrip J HJ m' Hm') as (str & Hmar & _).
  destruct (Hok Hdb m str eq_refl Hmar) as [-> Hrows].
  exists s', evs. repeat split; [done| |auto].
  rewrite (appealCountOf_written HJ s' token userID m' str Hm' Hmar).
  - subst m'. fold k. rewrite lookup_insert_eq. simpl.
    by rewrite (appealCountOf_decode s token userID m Hdec).
  - rewrite Hrows. by apply column_written.
Qed.

(** C3, amended: when the flag of the sender is set, the worker takes the
    message as the appeal text.  The text is sent to the operator and
    nothing else is sent, except the permanent-block notice to the user at
    the cap; the flag is cleared; with a store that answers and holds the
    bot's row with readable counts, below the maximum of int64, the appeal
    count of the user grows by exactly one; when the bot has no stored row,
    or the read of the counts fails, the message is consumed all the same
    and the count stays as it was; and the outcome depends on the sender
    and the text only, so a command, a reply or a plain message with the
    same text are handled alike. *)
Theorem appeal_text_consumed bot creatorID appeals message query s :
  let userID := User_ID (From message) in
  let token := Token bot in
  let appealForward :=
    NewMessage creatorID
      ("用户 " ++ strconv.FormatInt userID ++ " 发起申诉: " ++ Text message) in
  default false (appeals !! userID) = true →
  let '(appeals', s', evs) :=
    startBot_update bot creatorID appeals
      {| Update_Message := Some message; Update_CallbackQuery := query |} s in
  (sent evs = [appealForward] ∨ sent evs = [appealForward; noAppealMsg userID])
  ∧ appeals' = delete userID appeals
  ∧ default false (appeals' !! userID) = false
  ∧ (db_faults s = [] → is_Some (rows s !! token) → readable s token →
     minInt64 <= appealCountOf s token userID < maxInt64 →
     appealCountOf s' token userID = appealCountOf s token userID + 1)
  ∧ (rows s !! token = None ∨ (next_fault (db_faults s)).1 = true →
     appealCountOf s' token userID = appealCountOf s token userID)
  ∧ (∀ message2 query2,
       User_ID (From message2) = userID → Text message2 = Text message →
       let '(appeals2, s2, evs2) :=
         startBot_update bot creatorID appeals
           {| Update_Message := Some message2; Update_CallbackQuery := query2 |} s in
       appeals2 = appeals' ∧ s2 = s' ∧ sent evs2 = sent evs).
Proof.
  intros userID token appealForward Hflag.
  destruct (consumeAppeal_run bot creatorID appeals message s)
    as (s' & evs & sA & eI & sI & evI & Hrun & Hsent & HsA & HdbA & HrunI & Hrows).
  fold userID token appealForward in Hrun, Hsent, HrunI, Hrows.
  assert (∀ message2 query2,
            User_ID (From message2) = userID → Text message2 = Text message →
            ∃ l, startBot_update bot creatorID appeals
                   {| Update_Message := Some message2;
                      Update_CallbackQuery := query2 |} s
                 = (delete userID appeals, s', l :: evs)
                 ∧ sent [l] = []) as Hsame.
  { intros message2 query2 Hfrom Htext. unfold startBot_update. simpl.
    unfold bind at 1. unfold log_Printf at 1. unfold emit at 1.
    rewrite Hfrom, Hflag.
    assert (consumeAppeal bot creatorID appeals message2
            = consumeAppeal bot creatorID appeals message) as ->.
    { unfold consumeAppeal. by rewrite Hfrom, Htext. }
    rewrite Hrun. by eexists. }
  destruct (Hsame message query eq_refl eq_refl) as (l & -> & Hl).
  assert (sent (l :: evs) = sent evs) as Hcons.
  { change (l :: evs) with ([l] ++ evs)%list. by rewrite sent_app, Hl. }
  rewrite Hcons. split; [done|]. split; [done|]. split.
  { by rewrite lookup_delete_eq. }
  split.
  - intros Hdb Hrow Hread Hbound.
    destruct (incrementAppealCount_adds token userID sA) as (sI' & evI' & HrunI' & Hcount & _).
    { by rewrite HdbA. }
    { by rewrite HsA. }
    { unfold readable. by rewrite HsA. }
    rewrite HrunI in HrunI'. injection HrunI' as _ <- _.
    rewrite (appealCountOf_rows s sA) in Hcount by by rewrite HsA.
    rewrite wrapInt_small in Hcount
      by (unfold isInt64, minInt64, maxInt64 in *; lia).
    rewrite <- Hcount. apply appealCountOf_rows.
    destruct Hrows as [->|(new & _ & ->)]; [done|].
    apply column_appeal_with_blocked.
  - split.
    { intros Hcase.
      assert (column appeal_counts (rows s') token
              = column appeal_counts (rows sI) token) as Hcol'.
      { destruct Hrows as [->|(new & _ & ->)]; [done|].
        apply column_appeal_with_blocked. }
      rewrite (appealCountOf_rows sI s' token userID Hcol').
      destruct Hcase as [Hnone|Hfault].
      - destruct (incrementAppealCount_run token userID sA)
          as (eI' & sI' & evI' & HrunI' & _ & _ & _ & HrowsI & _).
        rewrite HrunI in HrunI'. injection HrunI' as _ <- _.
        apply appealCountOf_rows. unfold column.
        assert (rows sI !! token = None) as ->.
        { destruct HrowsI as [->|(m & str & _ & _ & ->)].
          - by rewrite HsA.
          - by rewrite lookup_alter_eq, HsA, Hnone. }
        by rewrite Hnone.
      - revert HrunI. unfold incrementAppealCount. unfold bind at 1.
        rewrite QueryRow_column_run, HdbA, Hfault. simpl.
        intros [= _ <- _]. apply appealCountOf_rows. by rewrite <- HsA. }
    intros message2 query2 Hfrom Htext.
    destruct (Hsame message2 query2 Hfrom Htext) as (l2 & -> & Hl2).
    repeat split.
    change (l2 :: evs) with ([l2] ++ evs)%list. by rewrite sent_app, Hl2.
Qed.

Lemma FormatInt_inj i j : strconv.FormatInt i = strconv.FormatInt j → i = j.
Proof. unfold strconv.FormatInt. apply (inj pretty). Qed.

Lemma readable_rows s s' token :
  column appeal_counts (rows s') token = column appeal_counts (rows s) token →
  readable s token → readable s' token.
Proof. unfold readable. by intros ->. Qed.

Lemma readable_written s token m str :
  json_clean m → json_Marshal m = Ok str →
  column appeal_counts (rows s) token = str → readable s token.
Proof.
  intros Hm Hmar Hcol.
  destruct (json_roundtrip J HJ m Hm) as (str' & Hmar' & Hun).
  assert (str' = str) as -> by congruence.
  unfold readable, decode. rewrite Hcol.
  case_bool_decide; [by rewrite Hun|done].
Qed.

(** The effect of the three shapes of writes on the count of a user. *)
Lemma count_unwritten s s' token' userID :
  (∀ token, column appeal_counts (rows s') token = column appeal_counts (rows s) token) →
  appealCountOf s' token' userID = appealCountOf s token' userID
  ∧ (readable s token' → readable s' token').
Proof.
  intros Hcol. split.
  - by apply appealCountOf_rows.
  - by apply readable_rows.
Qed.

Lemma count_written s s' t token token' userID m str :
  (∀ tok, column appeal_counts t tok = column appeal_counts (rows s) tok) →
  (is_Some (t !! token) ↔ is_Some (rows s !! token)) →
  rows s' = alter (with_appeal_counts str) token t →
  json_clean m → json_Marshal m = Ok str →
  (token = token' ∧ is_Some (rows s !! token)
   ∧ appealCountOf s' token' userID = default 0 (m !! strconv.FormatInt userID)
   ∧ readable s' token')
  ∨ ((token ≠ token' ∨ rows s !! token = None)
     ∧ appealCountOf s' token' userID = appealCountOf s token' userID
     ∧ (readable s token' → readable s' token')).
Proof.
  intros Hcol Hdom Hrows Hm Hmar.
  destruct (decide (token = token')) as [<-|Hne].
  - destruct (rows s !! token) as [r|] eqn:Hr.
    + left. assert (column appeal_counts (rows s') token = str) as Hw.
      { rewrite Hrows. apply column_written; [|done]. apply Hdom. eauto. }
      repeat split; [eauto| |].
      * by apply (appealCountOf_written HJ s' token userID m str).
      * by apply (readable_written s' token m str).
    + right. assert (t !! token = None) as Ht.
      { apply eq_None_not_Some. rewrite Hdom. by apply eq_None_not_Some. }
      assert (column appeal_counts (rows s') token
              = column appeal_counts (rows s) token) as Hw.
      { rewrite Hrows, column_alter, Ht. unfold column. by rewrite Hr. }
      split; [by right|].
      split; [by apply appealCountOf_rows|by apply readable_rows].
  - right. assert (column appeal_counts (rows s') token'
                   = column appeal_counts (rows s) token') as Hw.
    { rewrite Hrows, column_alter_ne by done. apply Hcol. }
    split; [by left|].
    split; [by apply appealCountOf_rows|by apply readable_rows].
Qed.

(** C7, amended: no operation of the state machine lowers the appeal count
    of a user, except [unblockUser] for that very user.  That call leaves
    the count as it was or at 0: at 0 when it succeeds on a non-empty
    blocked list, as it was when the blocked list is empty. *)
Theorem appealCount_only_reset_by_unblock token op token' userID s :
  readable s token' →
  minInt64 <= appealCountOf s token' userID < maxInt64 →
  let '(e, s', _) := run_operation token op s in
  let old := column blocked_users (rows s) token in
  let c := appealCountOf s token' userID in
  let c' := appealCountOf s' token' userID in
  readable s' token'
  ∧ (¬ (op = OpUnblock userID ∧ token = token') → c <= c')
  ∧ (op = OpUnblock userID → token = token' →
     (c' = c ∨ c' = 0)
     ∧ (e = None → old ≠ EmptyString → c' = 0)
     ∧ (old = EmptyString → c' = c)).
Proof.
  intros Hread Hbound.
  destruct op as [u|u|u|u|u]; simpl.
  - destruct (isUserBlocked_run token u s) as (evs & Hrun & _).
    unfold bind. rewrite Hrun. simpl.
    destruct (count_unwritten s (pop_db s) token' userID) as [-> Hr]; [done|].
    split; [auto|]. split; [intros _; lia|done].
  - destruct (blockUser_run token u s) as (e & s' & evs & -> & _ & _ & _ & Hrows & _).
    destruct (count_unwritten s s' token' userID) as [-> Hr].
    { intros tok. destruct Hrows as [->|(new & _ & ->)]; [done|].
      apply column_appeal_with_blocked. }
    split; [auto|]. split; [intros _; lia|done].
  - destruct (unblockUser_run token u s) as (e & s' & evs & -> & _ & _ & _ & Hcases).
    destruct Hcases as [[Hrows Hold]|[[Hne Hrows]|(-> & Hold & str & Hmar & Hrows)]].
    + destruct (count_unwritten s s' token' userID) as [-> Hr].
      { intros tok. by rewrite Hrows. }
      split; [auto|]. split; [intros _; lia|]. intros _ _.
      split; [by left|]. split; [|done]. intros -> Hne. by specialize (Hold eq_refl).
    + destruct (count_unwritten s s' token' userID) as [-> Hr].
      { intros tok. rewrite Hrows. apply column_appeal_with_blocked. }
      split; [auto|]. split; [intros _; lia|]. intros _ _.
      split; [by left|]. done.
    + pose proof (decode_clean HJ (column appeal_counts (rows s) token)) as Hm.
      set (m := (decode (column appeal_counts (rows s) token)).1) in *.
      set (t := alter (with_blocked_users _) token (rows s)) in Hrows.
      edestruct (count_written s s' t token token' userID
                   (delete (strconv.FormatInt u) m) str)
        as [(<- & Hrow & Hc & Hr)|(Hwhy & Hc & Hr)];
        [| |exact Hrows|by apply json_clean_delete|exact Hmar|..].
      { intros tok. apply column_appeal_with_blocked. }
      { subst t. rewrite lookup_alter_eq. by rewrite fmap_is_Some. }
      * split; [done|]. rewrite Hc.
        assert (appealCountOf s token userID
                = default 0 (m !! strconv.FormatInt userID)) as Hcm.
        { apply appealCountOf_decode. unfold readable in Hread. subst m.
          by destruct (decode (column appeal_counts (rows s) token)) as [m0 []];
            simplify_eq/=. }
        destruct (decide (u = userID)) as [->|Hu].
        -- rewrite lookup_delete_eq. simpl. split; [intros []; done|].
           intros _ _. split; [by right|]. done.
        -- rewrite lookup_delete_ne by (intros ?%FormatInt_inj; done).
           rewrite <- Hcm. split; [intros _; lia|]. intros [= Heq]. by destruct Hu.
      * rewrite Hc. split; [auto|]. split; [intros _; lia|].
        intros _ Htok. destruct Hwhy as [Hne|Hnone]; [done|].
        apply column_nonempty in Hold. rewrite Hnone in Hold.
        by destruct Hold.
  - destruct (incrementAppealCount_run token u s)
      as (e & s' & evs & -> & _ & _ & _ & Hrows & _).
    destruct Hrows as [Hrows|(m & str & Hdec & Hmar & Hrows)].
    + destruct (count_unwritten s s' token' userID) as [-> Hr].
      { intros tok. by rewrite Hrows. }
      split; [auto|]. split; [intros _; lia|done].
    + pose proof (decode_clean HJ (column appeal_counts (rows s) token)) as Hm.
      rewrite Hdec in Hm. simpl in Hm.
      set (k := strconv.FormatInt u) in *.
      edestruct (count_written s s' (rows s) token token' userID
                   (<[k := wrapInt (default 0 (m !! k) + 1)]> m) str)
        as [(<- & Hrow & Hc & Hr)|(Hwhy & Hc & Hr)];
        [done|done|exact Hrows| |exact Hmar|..].
      { apply json_clean_insert; [done..|]. apply wrapInt_isInt64. }
      * split; [done|]. rewrite Hc.
        pose proof (appealCountOf_decode s token userID m Hdec) as Hcm.
        split; [|done]. intros _.
        destruct (decide (u = userID)) as [->|Hu].
        -- subst k. rewrite lookup_insert_eq. simpl. rewrite <- Hcm.
           rewrite wrapInt_small
             by (unfold isInt64, minInt64, maxInt64 in *; lia).
           lia.
        -- rewrite lookup_insert_ne by (intros ?%FormatInt_inj; done).
           rewrite <- Hcm. lia.
      * rewrite Hc. split; [auto|]. split; [intros _; lia|done].
  - destruct (getAppealCount_run token u s) as (evs & Hrun & _).
    unfold bind. rewrite Hrun. simpl.
    destruct (count_unwritten s (pop_db s) token' userID) as [-> Hr]; [done|].
    split; [auto|]. split; [intros _; lia|done].
Qed.
End Appeals.

(** ** Commands *)

Section Commands.
Context {J : EncodingJson}.

Lemma Send_then_ret bot c s :
  ∃ s' evs, bind (Send bot c) (λ _, ret tt) s = (tt, s', evs)
    ∧ rows s' = rows s ∧ sent evs = [c].
Proof.
  destruct (Send_run bot c s) as [e Hsend].
  unfold bind. rewrite Hsend. by do 2 eexists.
Qed.

(** What [handleBotCommands] does, command by command. *)
Lemma handleBotCommands_run bot message creatorID s :
  let token := Token bot in
  let cmd := Command message in
  let args := CommandArguments message in
  let old := column blocked_users (rows s) token in
  ∃ s' evs, handleBotCommands bot message creatorID s = (tt, s', evs)
    ∧ Forall (message_to creatorID) (sent evs)
    ∧ (cmd = "start" →
       rows s' = rows s ∧ sent evs = [startNotice creatorID (From message)])
    ∧ (cmd ≠ "start" → cmd ≠ "getbans" → cmd ≠ "ban" → cmd ≠ "unban" →
       s' = s ∧ evs = [])
    ∧ (cmd = "getbans" →
       rows s' = rows s
       ∧ (answers (db_faults s) →
          sent evs
          = [NewMessage creatorID
               (if bool_decide (old = EmptyString) then "当前没有封禁用户"
                else "封禁列表: " ++ old)]))
    ∧ (∀ userID, cmd = "ban" → strconv.ParseInt args = Ok userID →
       ∃ e sB evB, blockUser token userID s = (e, sB, evB)
         ∧ rows s' = rows sB
         ∧ sent evs
           = [NewMessage creatorID
                (match e with
                 | None => "用户ID: " ++ strconv.FormatInt userID ++ " 已被封禁"
                 | Some _ => "Failed to block user"
                 end)])
    ∧ (∀ userID, cmd = "unban" → strconv.ParseInt args = Ok userID →
       ∃ e sU evU, unblockUser token userID s = (e, sU, evU)
         ∧ rows s' = rows sU
         ∧ sent evs
           = [NewMessage creatorID
                (match e with
                 | None => "用户ID: " ++ strconv.FormatInt userID ++ " 已被解封"
                 | Some _ => "Failed to unblock user"
                 end)]).
Proof.
  intros token cmd args old. unfold handleBotCommands.
  fold token cmd args.
  assert (∀ c, message_to creatorID (NewMessage creatorID c)) as Hto.
  { intros c. by do 2 eexists. }
  destruct (decide (cmd = "start")) as [Hstart|Hstart].
  { rewrite bool_decide_eq_true_2 by done.
    set (startMessage := with_ReplyMarkup _ _).
    assert (startMessage = startNotice creatorID (From message)) as Hnotice by reflexivity.
    clearbody startMessage. subst startMessage.
    destruct (Send_run bot (startNotice creatorID (From message)) s) as [e Hsend].
    unfold bind. rewrite Hsend.
    destruct e as [err|]; (do 2 eexists; split; [reflexivity|]); simpl;
      (split; [repeat constructor; by do 2 eexists|]);
      (split; [done|]); (split; [done|]);
      (split; [by rewrite Hstart|]); split; intros ?; by rewrite Hstart. }
  rewrite (bool_decide_eq_false_2 (cmd = "start")) by done.
  destruct (decide (cmd = "getbans")) as [Hget|Hget].
  { rewrite bool_decide_eq_true_2 by done.
    unfold bind at 1. rewrite QueryRow_column_run.
    unfold answers.
    destruct (next_fault (db_faults s)).1; simpl.
    - destruct (Send_then_ret bot (NewMessage creatorID "Failed to get blocked users.")
                  (pop_db s)) as (s' & evs & Hrun & Hrows & Hsent).
      unfold bind at 1. unfold log_Printf at 1. unfold emit at 1.
      rewrite Hrun. do 2 eexists. split; [reflexivity|].
      sent_simpl.
      split; [by repeat constructor|]. split; [by rewrite Hget|].
      split; [done|]. split; [done|]. split; intros ?; by rewrite Hget.
    - rewrite scanned_column, store_failed_column. fold token old.
      destruct (decide (old = EmptyString)) as [Hold|Hold];
        [rewrite !(bool_decide_eq_true_2 (old = EmptyString)) by done
        |rewrite !(bool_decide_eq_false_2 (old = EmptyString)) by done].
      + destruct (Send_then_ret bot (NewMessage creatorID "当前没有封禁用户") (pop_db s))
          as (s' & evs & Hrun & Hrows & Hsent).
        rewrite Hrun. do 2 eexists. split; [reflexivity|].
        sent_simpl.
        split; [by repeat constructor|]. split; [by rewrite Hget|].
        split; [done|]. split; [done|]. split; intros ?; by rewrite Hget.
      + destruct (Send_then_ret bot (NewMessage creatorID ("封禁列表: " ++ old)) (pop_db s))
          as (s' & evs & Hrun & Hrows & Hsent).
        rewrite Hrun. do 2 eexists. split; [reflexivity|].
        sent_simpl.
        split; [by repeat constructor|]. split; [by rewrite Hget|].
        split; [done|]. split; [done|]. split; intros ?; by rewrite Hget. }
  rewrite (bool_decide_eq_false_2 (cmd = "getbans")) by done.
  destruct (decide (cmd = "ban")) as [Hban|Hban].
  { rewrite bool_decide_eq_true_2 by done.
    assert (∀ c s0 evs0, sent evs0 = [NewMessage creatorID c] →
              Forall (message_to creatorID) (sent evs0)
              ∧ (cmd = "start" → rows s0 = rows s
                 ∧ sent evs0 = [startNotice creatorID (From message)])
              ∧ (cmd ≠ "start" → cmd ≠ "getbans" → cmd ≠ "ban" → cmd ≠ "unban" →
                 s0 = s ∧ evs0 = [])
              ∧ (cmd = "getbans" →
                 rows s0 = rows s
                 ∧ (answers (db_faults s) →
                    sent evs0
                    = [NewMessage creatorID
                         (if bool_decide (old = EmptyString) then "当前没有封禁用户"
                          else "封禁列表: " ++ old)]))) as Hframe.
    { intros c s0 evs0 ->. split; [by repeat constructor|].
      split; [by rewrite Hban|]. split; [done|]. by rewrite Hban. }
    destruct (decide (args = EmptyString)) as [Hargs|Hargs];
      [rewrite (bool_decide_eq_true_2 (args = EmptyString)) by done
      |rewrite (bool_decide_eq_false_2 (args = EmptyString)) by done].
    - destruct (Send_then_ret bot
                  (NewMessage creatorID "请提供要封禁的 Telegram ID，例如：/ban 123456") s)
        as (s' & evs & Hrun & Hrows & Hsent).
      rewrite Hrun. do 2 eexists. split; [reflexivity|].
      destruct (Hframe _ s' evs Hsent) as (? & ? & ? & ?).
      split; [done|]. split; [done|]. split; [done|]. split; [done|]. split.
      + intros userID _. by rewrite Hargs.
      + intros userID Hc. by rewrite Hban in Hc.
    - destruct (strconv.ParseInt args) as [userID|err] eqn:Hparse.
      + destruct (blockUser_run token userID s)
          as (e & sB & evB & HrunB & HsentB & _ & _ & _ & _).
        unfold bind at 1. rewrite HrunB.
        destruct e as [err|].
        * destruct (Send_then_ret bot (NewMessage creatorID "Failed to block user") sB)
            as (s' & evs & Hrun & Hrows & Hsent).
          unfold bind at 1. unfold log_Printf at 1. unfold emit at 1.
          rewrite Hrun. do 2 eexists. split; [reflexivity|].
          assert (sent (evB ++ Log "Failed to block user using /ban command: %v"
                                 [AErr err] :: evs)
                  = [NewMessage creatorID "Failed to block user"]) as Hs.
          { by sent_simpl. }
          destruct (Hframe _ s' _ Hs) as (? & ? & ? & ?).
          split; [done|]. split; [done|]. split; [done|]. split; [done|]. split.
          -- intros userID' _ [= <-]. by exists (Some err), sB, evB.
          -- intros userID' Hc. by rewrite Hban in Hc.
        * destruct (Send_then_ret bot
                      (NewMessage creatorID
                         ("用户ID: " ++ strconv.FormatInt userID ++ " 已被封禁")) sB)
            as (s' & evs & Hrun & Hrows & Hsent).
          rewrite Hrun. do 2 eexists. split; [reflexivity|].
          assert (sent (evB ++ evs)
                  = [NewMessage creatorID
                       ("用户ID: " ++ strconv.FormatInt userID ++ " 已被封禁")]) as Hs.
          { by sent_simpl. }
          destruct (Hframe _ s' _ Hs) as (? & ? & ? & ?).
          split; [done|]. split; [done|]. split; [done|]. split; [done|]. split.
          -- intros userID' _ [= <-]. by exists None, sB, evB.
          -- intros userID' Hc. by rewrite Hban in Hc.
      + destruct (Send_then_ret bot (NewMessage creatorID "无效的 Telegram ID") s)
          as (s' & evs & Hrun & Hrows & Hsent).
        rewrite Hrun. do 2 eexists. split; [reflexivity|].
        destruct (Hframe _ s' evs Hsent) as (? & ? & ? & ?).
        split; [done|]. split; [done|]. split; [done|]. split; [done|]. split.
        * intros userID _ Hp. discriminate Hp.
        * intros userID Hc. by rewrite Hban in Hc. }
  rewrite (bool_decide_eq_false_2 (cmd = "ban")) by done.
  destruct (decide (cmd = "unban")) as [Hunban|Hunban].
  { rewrite bool_decide_eq_true_2 by done.
    assert (∀ c s0 evs0, sent evs0 = [NewMessage creatorID c] →
              Forall (message_to creatorID) (sent evs0)
              ∧ (cmd = "start" → rows s0 = rows s
                 ∧ sent evs0 = [startNotice creatorID (From message)])
              ∧ (cmd ≠ "start" → cmd ≠ "getbans" → cmd ≠ "ban" → cmd ≠ "unban" →
                 s0 = s ∧ evs0 = [])
              ∧ (cmd = "getbans" →
                 rows s0 = rows s
                 ∧ (answers (db_faults s) →
                    sent evs0
                    = [NewMessage creatorID
                         (if bool_decide (old = EmptyString) then "当前没有封禁用户"
                          else "封禁列表: " ++ old)]))) as Hframe.
    { intros c s0 evs0 ->. split; [by repeat constructor|].
      split; [by rewrite Hunban|]. split; [done|]. by rewrite Hunban. }
    destruct (decide (args = EmptyString)) as [Hargs|Hargs];
      [rewrite (bool_decide_eq_true_2 (args = EmptyString)) by done
      |rewrite (bool_decide_eq_false_2 (args = EmptyString)) by done].
    - destruct (Send_then_ret bot
                  (NewMessage creatorID "请提供要解封的 Telegram ID，例如：/unban 123456") s)
        as (s' & evs & Hrun & Hrows & Hsent).
      rewrite Hrun. do 2 eexists. split; [reflexivity|].
      destruct (Hframe _ s' evs Hsent) as (? & ? & ? & ?).
      split; [done|]. split; [done|]. split; [done|]. split; [done|]. split.
      + intros userID Hc. by rewrite Hunban in Hc.
      + intros userID _. by rewrite Hargs.
    - destruct (strconv.ParseInt args) as [userID|err] eqn:Hparse.
      + destruct (unblockUser_run token userID s)
          as (e & sU & evU & HrunU & HsentU & _ & _ & _).
        unfold bind at 1. rewrite HrunU.
        destruct e as [err|].
        * destruct (Send_then_ret bot (NewMessage creatorID "Failed to unblock user") sU)
            as (s' & evs & Hrun & Hrows & Hsent).
          unfold bind at 1. unfold log_Printf at 1. unfold emit at 1.
          rewrite Hrun. do 2 eexists. split; [reflexivity|].
          assert (sent (evU ++ Log "Failed to unblock user using /unban command: %v"
                                 [AErr err] :: evs)
                  = [NewMessage creatorID "Failed to unblock user"]) as Hs.
          { by sent_simpl. }
          destruct (Hframe _ s' _ Hs) as (? & ? & ? & ?).
          split; [done|]. split; [done|]. split; [done|]. split; [done|]. split.
          -- intros userID' Hc. by rewrite Hunban in Hc.
          -- intros userID' _ [= <-]. by exists (Some err), sU, evU.
        * destruct (Send_then_ret bot
                      (NewMessage creatorID
                         ("用户ID: " ++ strconv.FormatInt userID ++ " 已被解封")) sU)
            as (s' & evs & Hrun & Hrows & Hsent).
          rewrite Hrun. do 2 eexists. split; [reflexivity|].
          assert (sent (evU ++ evs)
                  = [NewMessage creatorID
                       ("用户ID: " ++ strconv.FormatInt userID ++ " 已被解封")]) as Hs.
          { by sent_simpl. }
          destruct (Hframe _ s' _ Hs) as (? & ? & ? & ?).
          split; [done|]. split; [done|]. split; [done|]. split; [done|]. split.
          -- intros userID' Hc. by rewrite Hunban in Hc.
          -- intros userID' _ [= <-]. by exists None, sU, evU.
      + destruct (Send_then_ret bot (NewMessage creatorID "无效的 Telegram ID") s)
          as (s' & evs & Hrun & Hrows & Hsent).
        rewrite Hrun. do 2 eexists. split; [reflexivity|].
        destruct (Hframe _ s' evs Hsent) as (? & ? & ? & ?).
        split; [done|]. split; [done|]. split; [done|]. split; [done|]. split.
        * intros userID Hc. by rewrite Hunban in Hc.
        * intros userID _ Hp. discriminate Hp. }
  rewrite (bool_decide_eq_false_2 (cmd = "unban")) by done.
  do 2 eexists. split; [reflexivity|].
  split; [constructor|]. split; [done|]. split; [done|].
  split; [done|]. split; intros ? ?; done.
Qed.
(** A command is dispatched to [handleBotCommands] whoever sent it. *)
Lemma command_dispatch_ignores_sender bot creatorID appeals message s :
  default false (appeals !! User_ID (From message)) = false →
  IsCommand message = true →
  startBot_update bot creatorID appeals (message_update message) s
  = bind
      (log_Printf "Received a message from user ID: %d in chat ID: %d, text: %s"
         [AInt (User_ID (From message)); AInt (Chat_ID (Message_Chat message));
          AStr (Text message)])
      (λ _, bind (handleBotCommands bot message creatorID) (λ _, ret appeals)) s.
Proof.
  intros Hflag Hcmd. unfold startBot_update. simpl. rewrite Hflag, Hcmd. simpl.
  by case_bool_decide.
Qed.


(** C4, amended: a command message never reaches the relay.  Whatever the
    run sends is a message to the operator: nothing is forwarded and a
    non-operator sender gets no block notice.  [/start] sends the operator
    the notice with the ban and unban buttons of the sender and leaves the
    table alone; a command other than start, getbans, ban and unban changes
    nothing and sends nothing.  From the operator, [/getbans] reports the
    stored ban list, and [/ban] and [/unban] with a numeric argument run
    [blockUser] and [unblockUser] on it and confirm or report the failure. *)
Theorem commands_bypass_the_relay bot creatorID appeals message s :
  default false (appeals !! User_ID (From message)) = false →
  IsCommand message = true →
  let token := Token bot in
  let cmd := Command message in
  let args := CommandArguments message in
  let sender := User_ID (From message) in
  let '(appeals', s', evs) :=
    startBot_update bot creatorID appeals (message_update message) s in
  appeals' = appeals
  ∧ Forall (message_to creatorID) (sent evs)
  ∧ (∀ chatID fromChatID messageID,
       ForwardConfig chatID fromChatID messageID ∉ sent evs)
  ∧ (sender ≠ creatorID →
       (blockNotice sender ∉ sent evs) ∧ (permanentBlockNotice sender ∉ sent evs))
  ∧ (cmd = "start" →
       rows s' = rows s ∧ sent evs = [startNotice creatorID (From message)])
  ∧ (cmd ≠ "start" → cmd ≠ "getbans" → cmd ≠ "ban" → cmd ≠ "unban" →
       s' = s ∧ sent evs = [])
  ∧ (sender = creatorID →
       (cmd = "getbans" →
          rows s' = rows s
          ∧ (answers (db_faults s) →
             sent evs
             = [NewMessage creatorID
                  (if bool_decide (column blocked_users (rows s) token = EmptyString)
                   then "当前没有封禁用户"
                   else "封禁列表: " ++ column blocked_users (rows s) token)]))
       ∧ (∀ userID, cmd = "ban" → strconv.ParseInt args = Ok userID →
            ∃ e sB evB, blockUser token userID s = (e, sB, evB)
              ∧ rows s' = rows sB
              ∧ sent evs
                = [NewMessage creatorID
                     (match e with
                      | None => "用户ID: " ++ strconv.FormatInt userID ++ " 已被封禁"
                      | Some _ => "Failed to block user"
                      end)])
       ∧ (∀ userID, cmd = "unban" → strconv.ParseInt args = Ok userID →
            ∃ e sU evU, unblockUser token userID s = (e, sU, evU)
              ∧ rows s' = rows sU
              ∧ sent evs
                = [NewMessage creatorID
                     (match e with
                      | None => "用户ID: " ++ strconv.FormatInt userID ++ " 已被解封"
                      | Some _ => "Failed to unblock user"
                      end)])).
Proof.
  intros Hflag Hcmd token cmd args sender.
  rewrite command_dispatch_ignores_sender by done.
  destruct (handleBotCommands_run bot message creatorID s)
    as (s' & evs & Hrun & Hto & Hstart & Hother & Hget & Hban & Hunban).
  unfold bind at 1. unfold log_Printf at 1. unfold emit at 1.
  unfold bind at 1. rewrite Hrun. unfold ret.
  assert (sent ([Log "Received a message from user ID: %d in chat ID: %d, text: %s"
                   [AInt (User_ID (From message));
                    AInt (Chat_ID (Message_Chat message)); AStr (Text message)]]
                ++ (evs ++ []))%list
          = sent evs) as ->.
  { rewrite !sent_app, sent_cons, sent_nil. simpl. by rewrite (right_id_L [] (++)%list). }
  split; [done|]. split; [done|]. split.
  { intros chatID fromChatID messageID Hin.
    rewrite Forall_forall in Hto. by destruct (Hto _ Hin) as (? & ? & ?). }
  split.
  { intros Hne. rewrite Forall_forall in Hto.
    split; intros Hin; destruct (Hto _ Hin) as (? & ? & [=]); done. }
  split; [done|]. split.
  { intros H1 H2 H3 H4. destruct (Hother H1 H2 H3 H4) as [-> ->]. done. }
  intros _. done.
Qed.
End Commands.

Section Claims.
Context {J : EncodingJson}.

Lemma elem_of_sent c evs : c ∈ sent evs ↔ NetSend c ∈ evs.
Proof.
  unfold sent. rewrite list_elem_of_omap. split.
  - intros (e & He & Hc). by destruct e; simplify_eq.
  - intros He. by exists (NetSend c).
Qed.

Lemma isUserBlocked_sent token userID s : sent (isUserBlocked token userID s).2 = [].
Proof.
  unfold isUserBlocked. unfold_prims. simpl.
  destruct (next_fault (db_faults s)) as [[] fs]; simpl; [done|].
  destruct (rows s !! token) as [r|]; simpl; [|done].
  by case_bool_decide.
Qed.

Lemma getAppealCount_sent token userID s : sent (getAppealCount token userID s).2 = [].
Proof.
  unfold getAppealCount. unfold_prims. simpl.
  destruct (next_fault (db_faults s)) as [[] fs]; simpl; [done|].
  destruct (rows s !! token) as [r|]; simpl; [|done].
  case_bool_decide; [done|].
  by destruct (json_Unmarshal (appeal_counts r)) as [m [e|]].
Qed.

(** ** Registration *)

(** C5: when the platform rejects the credential, [AddBot] returns that
    error and has created nothing: the registry maps and the table are as
    before, no worker was started and no statement was run on the store. *)
Theorem AddBot_invalid_credential token creatorID s err s1 ev :
  NewBotAPI token s = (Err err, s1, ev) →
  let '(e, s', evs) := AddBot token creatorID s in
  e = Some err ∧ bots s' = bots s ∧ creator s' = creator s ∧ rows s' = rows s
  ∧ spawned evs = [] ∧ executed evs = [] ∧ queried evs = [].
Proof.
  unfold AddBot. unfold_prims. simpl.
  destruct (next_fault (net_faults s)) as [[] fs]; simpl; intros H; simplify_eq.
  done.
Qed.

(** C6: when the table already holds a record for the token, [AddBot]
    writes nothing (the table, and with it the stored creator and columns,
    is unchanged); once the credential is accepted a worker is started for
    the token, and when the existence query answers the call returns
    success. *)
Theorem AddBot_existing_record token creatorID s r :
  rows s !! token = Some r →
  let '(e, s', evs) := AddBot token creatorID s in
  rows s' = rows s ∧ executed evs = []
  ∧ (answers (net_faults s) →
       spawned evs = [({| Token := token |}, creatorID)]
       ∧ bots s' !! token = Some {| Token := token |}
       ∧ (answers (db_faults s) → e = None)).
Proof.
  intros Hr. unfold AddBot, answers. unfold_prims. simpl.
  destruct (next_fault (net_faults s)) as [[] fs]; simpl; [done|].
  destruct (next_fault (db_faults s)) as [[] fs']; simpl.
  - repeat split; [by rewrite lookup_insert_eq|done].
  - rewrite Hr. rewrite bool_decide_eq_true_2 by eauto. simpl.
    repeat split. by rewrite lookup_insert_eq.
Qed.

(** ** Fail-open reads *)

(** C10: when the read of the column fails with an error other than
    [sql.ErrNoRows], [isUserBlocked] answers [false] and [getAppealCount]
    answers 0, whatever the table holds; neither returns an error. *)
Theorem store_failure_reads_open token userID s :
  (∀ err s1 ev,
     QueryRow_column q_blocked_users blocked_users token s = (Err err, s1, ev) →
     err ≠ ErrNoRows →
     (isUserBlocked token userID s).1.1 = false)
  ∧ (∀ err s1 ev,
     QueryRow_column q_appeal_counts appeal_counts token s = (Err err, s1, ev) →
     err ≠ ErrNoRows →
     (getAppealCount token userID s).1.1 = 0).
Proof.
  split; intros err s1 ev Hq Hne.
  - unfold isUserBlocked, bind at 1. rewrite Hq. simpl.
    rewrite bool_decide_eq_false_2 by done. reflexivity.
  - unfold getAppealCount, bind at 1. rewrite Hq. simpl.
    rewrite bool_decide_eq_false_2 by done. reflexivity.
Qed.

(** ** Messages of end users *)

(** C1: when [isUserBlocked] answers [true] for the sender, the only
    request of [handleIncomingMessage] is a notice to the sender: the
    permanent-block notice without keyboard when the appeal count read is
    at least 3, the block notice with one button carrying [appeal_<id>] of
    the sender when it is below 3.  Nothing is forwarded. *)
Theorem handleIncomingMessage_blocked bot message creatorID botAPI botToken
    s s1 ev1 appealCount s2 ev2 :
  let userID := User_ID (From message) in
  isUserBlocked botToken userID s = (true, s1, ev1) →
  getAppealCount botToken userID s1 = (appealCount, s2, ev2) →
  let evs := (handleIncomingMessage bot message creatorID botAPI botToken s).2 in
  sent evs
  = [if bool_decide (3 <= appealCount) then permanentBlockNotice userID
     else blockNotice userID]
  ∧ ∀ chatID fromChatID messageID,
      NetSend (ForwardConfig chatID fromChatID messageID) ∉ evs.
Proof.
  intros userID Hb Hc evs.
  pose proof (isUserBlocked_sent botToken userID s) as Hs1.
  pose proof (getAppealCount_sent botToken userID s1) as Hs2.
  rewrite Hb in Hs1. rewrite Hc in Hs2. simpl in Hs1, Hs2.
  assert (sent evs
          = [if bool_decide (3 <= appealCount) then permanentBlockNotice userID
             else blockNotice userID]) as Hsent.
  { subst evs. unfold handleIncomingMessage.
    unfold mu_RLock at 1. unfold emit at 1. unfold bind at 1.
    unfold bind at 1. unfold bind at 1. fold userID. rewrite Hb.
    unfold log_Printf at 1. unfold emit at 1. unfold bind at 1. unfold bind at 1.
    rewrite Hc.
    case_bool_decide; unfold_prims; simpl;
      destruct (next_fault (net_faults s2)) as [[] fs]; simpl;
      repeat (rewrite sent_app || rewrite sent_cons || rewrite Hs1 || rewrite Hs2);
      reflexivity. }
  split; [done|]. intros chatID fromChatID messageID Hin.
  apply elem_of_sent in Hin. rewrite Hsent in Hin.
  apply list_elem_of_singleton in Hin. by case_bool_decide.
Qed.
(** ** Replies of the operator *)

(** C8: when the operator replies to a message, the reply text goes to the
    user named in the forwarding metadata of the replied-to message, and to
    nobody else; when that message has no forwarding metadata, the run is
    one log line: nothing is sent, the state is untouched. *)
Theorem handleReplyMessage_routes bot message replied s :
  ReplyToMessage message = Some replied →
  match ForwardFrom replied with
  | Some sender =>
      sent (handleReplyMessage bot message s).2
      = [NewMessage (User_ID sender) (Text message)]
  | None =>
      handleReplyMessage bot message s
      = (tt, s, [Log "Message is a reply but no forward information is available." []])
  end.
Proof.
  intros Hr. unfold handleReplyMessage. rewrite Hr.
  destruct (ForwardFrom replied) as [sender|]; [|reflexivity].
  unfold_prims. simpl.
  destruct (next_fault (net_faults s)) as [[] fs]; reflexivity.
Qed.


(** ** The registry lock *)

(** C9, amended: [AddBot] makes no store or platform call while it holds
    the registry lock, which it takes only around the update of the two
    maps; [DeleteBot] always runs its DELETE under the write lock; and
    [handleIncomingMessage] holds the read lock across its store reads and
    its send: its run starts by taking the read lock and ends by releasing
    it, every store and platform call in between is made with the lock
    held, and among them are at least one read of the store and one
    send. *)
Theorem registry_lock_discipline :
  (∀ token creatorID s, locked_call 0 (AddBot token creatorID s).2 = false)
  ∧ (∀ token s, locked_call 0 (DeleteBot token s).2 = true)
  ∧ (∀ bot message creatorID botAPI botToken s,
       let evs := (handleIncomingMessage bot message creatorID botAPI botToken s).2 in
       locked_call 0 evs = true
       ∧ head evs = Some MuRLock ∧ last evs = Some MuRUnlock
       ∧ calls_locked 0 evs = true
       ∧ queried evs ≠ [] ∧ sent evs ≠ []).
Proof.
  split; [|split].
  - intros token creatorID s. unfold AddBot. unfold_prims. simpl.
    destruct (next_fault (net_faults s)) as [[] fs]; simpl; [done|].
    destruct (next_fault (db_faults s)) as [[] fs1]; simpl; [done|].
    case_bool_decide; simpl; [done|].
    destruct (next_fault fs1) as [[] fs2]; simpl; [done|].
    by destruct (rows s !! token).
  - intros token s. unfold DeleteBot. unfold_prims. simpl.
    by destruct (next_fault (db_faults s)) as [[] fs].
  - intros bot message creatorID botAPI botToken s evs. subst evs.
    unfold handleIncomingMessage, isUserBlocked, getAppealCount. unfold_prims. simpl.
    destruct (next_fault (db_faults s)) as [[] fs1]; simpl.
    { destruct (next_fault (net_faults s)) as [[] fn]; simpl; done. }
    destruct (rows s !! botToken) as [r|] eqn:Hr; simpl.
    2:{ destruct (next_fault (net_faults s)) as [[] fn]; simpl; done. }
    case_bool_decide; simpl.
    { destruct (next_fault (net_faults s)) as [[] fn]; simpl; done. }
    destruct (existsb _ _); simpl.
    2:{ destruct (next_fault (net_faults s)) as [[] fn]; simpl; done. }
    destruct (next_fault fs1) as [[] fs2]; simpl.
    { destruct (next_fault (net_faults s)) as [[] fn]; simpl; done. }
    rewrite Hr. simpl.
    case_bool_decide; simpl.
    { destruct (next_fault (net_faults s)) as [[] fn]; simpl; done. }
    destruct (json_Unmarshal _) as [m [err|]]; simpl.
    { destruct (next_fault (net_faults s)) as [[] fn]; simpl; done. }
    case_bool_decide; simpl;
      destruct (next_fault (net_faults s)) as [[] fn]; simpl; done.
Qed.

End Claims.

(** * The claims on concrete runs *)

(** ** Commands of a non-operator *)

(** The sender of [/ban], [/getbans] and [/unban] is not checked.  User 7 is
    not the operator (100) of bot [AAA]; its [/ban 42] blocks user 42, its
    [/getbans] has the ban list sent out, its [/unban 42] unblocks user 42,
    and each time the confirmation goes to the operator. *)
Lemma non_operator_commands_run :
  let '(_, s1, evs1) :=
    startBot_update (J := RefJson) demo_bot 100 ∅
      (message_update (demo_message 7 "/ban 42" [command_entity 4])) demo_state in
  let '(_, s2, evs2) :=
    startBot_update (J := RefJson) demo_bot 100 ∅
      (message_update (demo_message 7 "/getbans" [command_entity 8])) s1 in
  let '(_, s3, evs3) :=
    startBot_update (J := RefJson) demo_bot 100 ∅
      (message_update (demo_message 7 "/unban 42" [command_entity 6])) s2 in
  blockedIn demo_state "AAA" 42 = false
  ∧ blockedIn s1 "AAA" 42 = true
  ∧ sent evs1 = [NewMessage 100 "用户ID: 42 已被封禁"]
  ∧ sent evs2 = [NewMessage 100 "封禁列表: 42"]
  ∧ blockedIn s3 "AAA" 42 = false
  ∧ sent evs3 = [NewMessage 100 "用户ID: 42 已被解封"].
Proof. vm_compute. repeat split. Qed.

(** ** Counterexamples *)

(** C4 as stated fails: a command of a non-operator is not handled as
    end-user traffic.  A plain [hello] of user 7 is relayed, its command
    [/hello] is dropped; a plain [hello] of the blocked user 42 is answered
    with the block notice, its command [/hello] with nothing, and its
    [/start] notifies the operator.  The command [/ban 42] of user 7 is not
    relayed either: it blocks user 42 and is confirmed to the operator. *)
Lemma non_operator_command_not_relayed :
  let run s from text entities :=
    startBot_update (J := RefJson) demo_bot 100 ∅
      (message_update (demo_message from text entities)) s in
  sent (run demo_state 7 "hello" []).2 = [ForwardConfig 100 7 7]
  ∧ sent (run demo_state 7 "/hello" [command_entity 6]).2 = []
  ∧ sent (run banned_state 42 "hello" []).2 = [permanentBlockNotice 42]
  ∧ sent (run banned_state 42 "/hello" [command_entity 6]).2 = []
  ∧ sent (run banned_state 42 "/start" [command_entity 6]).2
    = [startNotice 100 (demo_user 42)]
  ∧ sent (run demo_state 7 "/ban 42" [command_entity 4]).2
    = [NewMessage 100 "用户ID: 42 已被封禁"]
  ∧ blockedIn demo_state "AAA" 42 = false
  ∧ blockedIn (run demo_state 7 "/ban 42" [command_entity 4]).1.2 "AAA" 42 = true.
Proof. vm_compute. repeat split. Qed.

(** C3 as stated fails: the count does not always grow by one.  User 42 is
    blocked and has pressed the appeal button.  When the read of the counts
    fails, and likewise after the bot's row has been deleted, the text is
    still sent to the operator and the flag is cleared, but the appeal
    count stays 0: the error of the increment is only logged. *)
Lemma appeal_consumed_without_increment :
  let s := (blockUser "AAA" 42 demo_state).1.2 in
  let run s :=
    startBot_update (J := RefJson) demo_bot 100 {[42 := true]}
      (message_update (demo_message 42 "please" [])) s in
  let failing := set_db_faults [true] s in
  let deleted := (DeleteBot "AAA" s).1.2 in
  appealCountOf (J := RefJson) failing "AAA" 42 = 0
  ∧ sent (run failing).2 = [NewMessage 100 "用户 42 发起申诉: please"]
  ∧ (run failing).1.1 !! 42 = None
  ∧ appealCountOf (J := RefJson) (run failing).1.2 "AAA" 42 = 0
  ∧ (getAppealCount (J := RefJson) "AAA" 42 (run failing).1.2).1.1 = 0
  ∧ appealCountOf (J := RefJson) deleted "AAA" 42 = 0
  ∧ db_faults deleted = []
  ∧ sent (run deleted).2 = [NewMessage 100 "用户 42 发起申诉: please"]
  ∧ (run deleted).1.1 !! 42 = None
  ∧ appealCountOf (J := RefJson) (run deleted).1.2 "AAA" 42 = 0
  ∧ (getAppealCount (J := RefJson) "AAA" 42 (run deleted).1.2).1.1 = 0.
Proof. vm_compute. repeat split. Qed.

(** C7 as stated fails: the operator bans user 42, the user presses the
    appeal button, the operator unbans, and the pending appeal text then
    raises the count to 1 with an empty blocked list.  A further Unblock
    succeeds and leaves the count at 1. *)
Lemma unblock_keeps_count_on_empty_list :
  let '(_, s, _) :=
    startBot (J := RefJson) demo_bot 100
      [message_update (demo_message 100 "/ban 42" [command_entity 4]);
       message_update (demo_message 42 "hello" []);
       callback_update "appeal_42";
       message_update (demo_message 100 "/unban 42" [command_entity 6]);
       message_update (demo_message 42 "please" [])]
      demo_state in
  let '(e, s', _) := unblockUser (J := RefJson) "AAA" 42 s in
  column blocked_users (rows s) "AAA" = EmptyString
  ∧ appealCountOf (J := RefJson) s "AAA" 42 = 1
  ∧ e = None
  ∧ appealCountOf (J := RefJson) s' "AAA" 42 = 1
  ∧ (getAppealCount (J := RefJson) "AAA" 42 s').1.1 = 1.
Proof. vm_compute. repeat split. Qed.

(** C9 as stated fails: [DeleteBot] runs its DELETE, and
    [handleIncomingMessage] its reads and its send, with the lock held. *)
Lemma lock_held_across_calls :
  ¬ (∀ token s, locked_call 0 (DeleteBot token s).2 = false)
  ∧ ¬ (∀ message s,
         locked_call 0
           (handleIncomingMessage (J := RefJson) demo_bot message 100 demo_bot "AAA" s).2
         = false).
Proof.
  split.
  - intros H. specialize (H "AAA" demo_state). vm_compute in H. discriminate H.
  - intros H. specialize (H (demo_message 42 "hello" []) demo_state).
    vm_compute in H. discriminate H.
Qed.

(** ** Instances of the theorems *)

Lemma handleIncomingMessage_blocked_witness :
  isUserBlocked "AAA" 42 banned_state
  = (true, pop_db banned_state, [SqlQuery q_blocked_users [AStr "AAA"]])
  ∧ (getAppealCount (J := RefJson) "AAA" 42 (pop_db banned_state)).1.1 = 3
  ∧ sent (handleIncomingMessage (J := RefJson) demo_bot (demo_message 42 "hello" [])
            100 demo_bot "AAA" banned_state).2
    = [permanentBlockNotice 42].
Proof.
  assert (isUserBlocked "AAA" 42 banned_state
          = (true, pop_db banned_state, [SqlQuery q_blocked_users [AStr "AAA"]])) as Hb.
  { vm_compute. reflexivity. }
  assert (getAppealCount (J := RefJson) "AAA" 42 (pop_db banned_state)
          = (3, pop_db (pop_db banned_state), [SqlQuery q_appeal_counts [AStr "AAA"]]))
    as Hc.
  { vm_compute. reflexivity. }
  split; [exact Hb|]. split; [by rewrite Hc|].
  exact (proj1 (handleIncomingMessage_blocked (J := RefJson) demo_bot
                  (demo_message 42 "hello" []) 100 demo_bot "AAA"
                  banned_state _ _ 3 _ _ Hb Hc)).
Defined.

Lemma unblockUser_resets_witness :
  let press := {| CallbackQuery_ID := "q"; Data := "appeal_42" |} in
  let text t := demo_message 42 t [] in
  let s1 := (blockUser "AAA" 42 demo_state).1.2 in
  let s2 :=
    (for_range (startBot_update (J := RefJson) demo_bot 100) ∅
       [callback_update "appeal_42"; message_update (text "one");
        callback_update "appeal_42"; message_update (text "two");
        callback_update "appeal_42"; message_update (text "three")] s1).1.2 in
  let s3 := (unblockUser (J := RefJson) "AAA" 42 s2).1.2 in
  (blockUser "AAA" 42 demo_state).1.1 = None
  ∧ (unblockUser (J := RefJson) "AAA" 42 s2).1.1 = None
  ∧ appealCountOf (J := RefJson) s2 "AAA" 42 = 3
  ∧ blockedIn s2 "AAA" 42 = true
  ∧ (getAppealCount (J := RefJson) "AAA" 42 s3).1.1 = 0
  ∧ (isUserBlocked "AAA" 42 s3).1.1 = false.
Proof.
  intros press text s1 s2 s3.
  split; [vm_compute; reflexivity|]. split; [vm_compute; reflexivity|].
  split; [vm_compute; reflexivity|]. split; [vm_compute; reflexivity|].
  assert (blockUser (Token demo_bot) 42 demo_state
          = (None, s1, (blockUser "AAA" 42 demo_state).2)) as H1.
  { vm_compute. reflexivity. }
  assert (appeal_steps (J := RefJson) demo_bot 100 42 s1 s2) as H2.
  { eapply (appeal_steps_press demo_bot 100 42 s1 ∅ press); [reflexivity..|].
    eapply (appeal_steps_text demo_bot 100 42 _ {[42 := true]} (text "one"));
      [reflexivity..|].
    eapply (appeal_steps_press demo_bot 100 42 _ ∅ press); [reflexivity..|].
    eapply (appeal_steps_text demo_bot 100 42 _ {[42 := true]} (text "two"));
      [reflexivity..|].
    eapply (appeal_steps_press demo_bot 100 42 _ ∅ press); [reflexivity..|].
    eapply (appeal_steps_text demo_bot 100 42 _ {[42 := true]} (text "three"));
      [reflexivity..|].
    match goal with
    | |- appeal_steps _ _ _ ?a ?b => replace b with a by (vm_compute; reflexivity)
    end.
    apply appeal_steps_done. }
  assert (unblockUser (J := RefJson) (Token demo_bot) 42 s2
          = (None, s3, (unblockUser (J := RefJson) "AAA" 42 s2).2)) as H3.
  { vm_compute. reflexivity. }
  pose proof (unblockUser_resets ref_laws demo_bot 100 42 demo_state s1 _ s2 s3 _
                H1 H2 H3) as (Hc & Hb & _).
  split; [exact Hc|exact Hb].
Defined.

Lemma appeal_text_consumed_witness :
  let s := (blockUser "AAA" 42 demo_state).1.2 in
  let run :=
    startBot_update (J := RefJson) demo_bot 100 {[42 := true]}
      (message_update (demo_message 42 "/ban 7" [command_entity 4])) s in
  default false (({[42 := true]} : gmap Z bool) !! 42) = true
  ∧ db_faults s = []
  ∧ is_Some (rows s !! "AAA")
  ∧ readable (J := RefJson) s "AAA"
  ∧ appealCountOf (J := RefJson) s "AAA" 42 = 0
  ∧ sent run.2 = [NewMessage 100 "用户 42 发起申诉: /ban 7"]
  ∧ run.1.1 !! 42 = None
  ∧ appealCountOf (J := RefJson) run.1.2 "AAA" 42 = 1
  ∧ blockedIn run.1.2 "AAA" 7 = false.
Proof.
  intros s run.
  assert (default false (({[42 := true]} : gmap Z bool) !! 42) = true) as Hflag
    by reflexivity.
  assert (db_faults s = []) as Hdb by reflexivity.
  assert (is_Some (rows s !! "AAA")) as Hrow by (vm_compute; eauto).
  assert (readable (J := RefJson) s "AAA") as Hread by (vm_compute; reflexivity).
  assert (appealCountOf (J := RefJson) s "AAA" 42 = 0) as Hzero
    by (vm_compute; reflexivity).
  pose proof (appeal_text_consumed ref_laws demo_bot 100 {[42 := true]}
                (demo_message 42 "/ban 7" [command_entity 4]) None s Hflag) as H.
  fold (message_update (demo_message 42 "/ban 7" [command_entity 4])) in H.
  fold run in H. rewrite (triple_eta run) in H.
  destruct H as (Hsent & Happeals & _ & Hcount & _).
  split; [exact Hflag|]. split; [exact Hdb|]. split; [exact Hrow|].
  split; [exact Hread|]. split; [exact Hzero|].
  split; [vm_compute; reflexivity|].
  split; [rewrite Happeals; apply lookup_delete_eq|].
  split; [|vm_compute; reflexivity].
  assert (minInt64 <= appealCountOf (J := RefJson) s "AAA" 42 < maxInt64) as Hbound.
  { rewrite Hzero. unfold minInt64, maxInt64. lia. }
  exact (eq_trans (Hcount Hdb Hrow Hread Hbound) (f_equal (λ z, z + 1) Hzero)).
Defined.

Lemma AddBot_invalid_credential_witness :
  let s := set_net_faults [true] demo_state in
  NewBotAPI "BAD" s = (Err ErrPlatform, set_net_faults [] demo_state, [NetNewBotAPI "BAD"])
  ∧ (AddBot "BAD" 5 s).1.1 = Some ErrPlatform
  ∧ bots (AddBot "BAD" 5 s).1.2 = bots s
  ∧ creator (AddBot "BAD" 5 s).1.2 = creator s
  ∧ rows (AddBot "BAD" 5 s).1.2 = rows s
  ∧ spawned (AddBot "BAD" 5 s).2 = []
  ∧ executed (AddBot "BAD" 5 s).2 = []
  ∧ queried (AddBot "BAD" 5 s).2 = [].
Proof.
  intros s.
  assert (NewBotAPI "BAD" s
          = (Err ErrPlatform, set_net_faults [] demo_state, [NetNewBotAPI "BAD"])) as Hv
    by reflexivity.
  split; [exact Hv|].
  pose proof (AddBot_invalid_credential "BAD" 5 s ErrPlatform _ _ Hv) as H.
  rewrite (triple_eta (AddBot "BAD" 5 s)) in H. exact H.
Defined.

Lemma AddBot_existing_record_witness :
  rows demo_state !! "AAA" = Some demo_row
  ∧ answers (net_faults demo_state)
  ∧ answers (db_faults demo_state)
  ∧ (AddBot "AAA" 100 demo_state).1.1 = None
  ∧ rows (AddBot "AAA" 100 demo_state).1.2 = rows demo_state
  ∧ executed (AddBot "AAA" 100 demo_state).2 = []
  ∧ spawned (AddBot "AAA" 100 demo_state).2 = [(demo_bot, 100)].
Proof.
  assert (rows demo_state !! "AAA" = Some demo_row) as Hr by (vm_compute; reflexivity).
  assert (answers (net_faults demo_state)) as Hn by reflexivity.
  assert (answers (db_faults demo_state)) as Hd by reflexivity.
  pose proof (AddBot_existing_record "AAA" 100 demo_state demo_row Hr) as H.
  rewrite (triple_eta (AddBot "AAA" 100 demo_state)) in H.
  destruct H as (Hrows & Hexec & Hrest).
  destruct (Hrest Hn) as (Hspawn & _ & Hok).
  split; [exact Hr|]. split; [exact Hn|]. split; [exact Hd|].
  split; [exact (Hok Hd)|]. split; [exact Hrows|]. split; [exact Hexec|exact Hspawn].
Defined.

Lemma store_failure_reads_open_witness :
  let s := set_db_faults [true] banned_state in
  QueryRow_column q_blocked_users blocked_users "AAA" s
  = (Err ErrStore, pop_db s, [SqlQuery q_blocked_users [AStr "AAA"]])
  ∧ QueryRow_column q_appeal_counts appeal_counts "AAA" s
    = (Err ErrStore, pop_db s, [SqlQuery q_appeal_counts [AStr "AAA"]])
  ∧ ErrStore ≠ ErrNoRows
  ∧ blockedIn s "AAA" 42 = true
  ∧ appealCountOf (J := RefJson) s "AAA" 42 = 3
  ∧ (isUserBlocked "AAA" 42 s).1.1 = false
  ∧ (getAppealCount (J := RefJson) "AAA" 42 s).1.1 = 0.
Proof.
  intros s.
  assert (QueryRow_column q_blocked_users blocked_users "AAA" s
          = (Err ErrStore, pop_db s, [SqlQuery q_blocked_users [AStr "AAA"]])) as Hb
    by reflexivity.
  assert (QueryRow_column q_appeal_counts appeal_counts "AAA" s
          = (Err ErrStore, pop_db s, [SqlQuery q_appeal_counts [AStr "AAA"]])) as Hc
    by reflexivity.
  assert (ErrStore ≠ ErrNoRows) as Hne by discriminate.
  destruct (store_failure_reads_open (J := RefJson) "AAA" 42 s) as [Hblocked Hcount].
  split; [exact Hb|]. split; [exact Hc|]. split; [exact Hne|].
  split; [vm_compute; reflexivity|]. split; [vm_compute; reflexivity|].
  split; [exact (Hblocked _ _ _ Hb Hne)|exact (Hcount _ _ _ Hc Hne)].
Defined.

Lemma handleReplyMessage_routes_witness :
  ReplyToMessage demo_reply = Some demo_forwarded
  ∧ sent (handleReplyMessage demo_bot demo_reply demo_state).2 = [NewMessage 42 "hi"].
Proof.
  split; [reflexivity|].
  exact (handleReplyMessage_routes demo_bot demo_reply demo_forwarded demo_state eq_refl).
Defined.

Lemma appealCount_only_reset_by_unblock_witness :
  let s' := (run_operation (J := RefJson) "AAA" (OpUnblock 42) banned_state).1.2 in
  readable (J := RefJson) banned_state "AAA"
  ∧ appealCountOf (J := RefJson) banned_state "AAA" 42 = 3
  ∧ column blocked_users (rows banned_state) "AAA" ≠ EmptyString
  ∧ (run_operation (J := RefJson) "AAA" (OpUnblock 42) banned_state).1.1 = None
  ∧ appealCountOf (J := RefJson) s' "AAA" 42 = 0.
Proof.
  intros s'.
  assert (readable (J := RefJson) banned_state "AAA") as Hread
    by (vm_compute; reflexivity).
  assert (appealCountOf (J := RefJson) banned_state "AAA" 42 = 3) as Hthree
    by (vm_compute; reflexivity).
  assert (column blocked_users (rows banned_state) "AAA" ≠ EmptyString) as Hold
    by (vm_compute; discriminate).
  assert ((run_operation (J := RefJson) "AAA" (OpUnblock 42) banned_state).1.1 = None)
    as Hok by (vm_compute; reflexivity).
  assert (minInt64 <= appealCountOf (J := RefJson) banned_state "AAA" 42 < maxInt64)
    as Hbound.
  { rewrite Hthree. unfold minInt64, maxInt64. lia. }
  pose proof (appealCount_only_reset_by_unblock ref_laws "AAA" (OpUnblock 42) "AAA" 42
                banned_state Hread Hbound) as H.
  rewrite (triple_eta (run_operation "AAA" (OpUnblock 42) banned_state)) in H.
  destruct H as (_ & _ & H). destruct (H eq_refl eq_refl) as (_ & Hreset & _).
  split; [exact Hread|]. split; [exact Hthree|]. split; [exact Hold|].
  split; [exact Hok|exact (Hreset Hok Hold)].
Defined.

Lemma commands_bypass_the_relay_witness :
  let ban := demo_message 100 "/ban 42" [command_entity 4] in
  let run :=
    startBot_update (J := RefJson) demo_bot 100 ∅ (message_update ban) demo_state in
  default false ((∅ : gmap Z bool) !! User_ID (From ban)) = false
  ∧ IsCommand ban = true
  ∧ Command ban = "ban"
  ∧ strconv.ParseInt (CommandArguments ban) = Ok 42
  ∧ blockedIn run.1.2 "AAA" 42 = true
  ∧ sent run.2 = [NewMessage 100 "用户ID: 42 已被封禁"]
  ∧ ForwardConfig 100 100 7 ∉ sent run.2.
Proof.
  intros ban run.
  assert (default false ((∅ : gmap Z bool) !! User_ID (From ban)) = false) as Hflag
    by reflexivity.
  assert (IsCommand ban = true) as Hcmd by reflexivity.
  assert (Command ban = "ban") as Hban by reflexivity.
  assert (strconv.ParseInt (CommandArguments ban) = Ok 42) as Hargs
    by (vm_compute; reflexivity).
  pose proof (commands_bypass_the_relay (J := RefJson) demo_bot 100 ∅ ban demo_state
                Hflag Hcmd) as H.
  fold run in H. rewrite (triple_eta run) in H.
  destruct H as (_ & _ & Hfwd & _ & _ & _ & Hop).
  destruct (Hop eq_refl) as (_ & Hblock & _).
  destruct (Hblock 42 Hban Hargs) as (e & sB & evB & Hrun & Hrows & Hsent).
  split; [exact Hflag|]. split; [exact Hcmd|]. split; [exact Hban|].
  split; [exact Hargs|]. split; [vm_compute; reflexivity|].
  split; [vm_compute; reflexivity|]. apply Hfwd.
Defined.

(** * Further properties of the program *)

(** ** Identifiers on the blocked list *)

Lemma ParseInt_FormatInt_inv i z :
  strconv.ParseInt (strconv.FormatInt i) = Ok z → z = i.
Proof.
  destruct (FormatInt_digits i) as (d & ds & -> & Hval & Hlt & _).
  pose proof (digits_of_digits_str d ds Hlt) as Hdig. rewrite Hval in Hdig.
  destruct (pretty_N_char_not_sign d) as [Hm Hp].
  change (digits_str (d :: ds)) with (String (pretty_N_char d) (digits_str ds)) in *.
  unfold strconv.ParseInt.
  case_bool_decide as Hneg.
  - change ("-" ++ String (pretty_N_char d) (digits_str ds))
      with (String "-"%char (String (pretty_N_char d) (digits_str ds))).
    cbv beta iota zeta. rewrite (bool_decide_eq_true_2 ("-"%char = "-"%char)) by done.
    rewrite orb_true_r. rewrite Hdig.
    cbv beta iota zeta. simpl negb. simpl andb.
    destruct (2 ^ 63 <? Z.abs_N i)%N; [done|]. intros [= <-]. lia.
  - change (EmptyString ++ String (pretty_N_char d) (digits_str ds))
      with (String (pretty_N_char d) (digits_str ds)).
    cbv beta iota zeta. rewrite !bool_decide_eq_false_2 by done.
    simpl orb. cbv beta iota zeta. rewrite Hdig. simpl negb. simpl andb.
    destruct (2 ^ 63 <=? Z.abs_N i)%N; [done|]. intros [= <-]. lia.
Qed.

Lemma is_id_FormatInt_other userID other :
  other ≠ userID → is_id other (strconv.FormatInt userID) = false.
Proof.
  intros Hne. unfold is_id.
  destruct (strconv.ParseInt (strconv.FormatInt userID)) as [z|] eqn:Hp; [|done].
  apply ParseInt_FormatInt_inv in Hp as ->. by apply bool_decide_eq_false_2.
Qed.

Lemma Split_blocked_after userID old :
  strings.Split (blocked_after userID old) comma
  = if bool_decide (old ≠ EmptyString)
    then (strings.Split old comma ++ [strconv.FormatInt userID])%list
    else [strconv.FormatInt userID].
Proof.
  assert (avoids comma (strconv.FormatInt userID) = true) as Hav
    by apply avoids_comma_plain, ref_plain_FormatInt.
  unfold blocked_after. case_bool_decide.
  - apply Split_Join.
    + intros Hnil%app_eq_nil. by destruct Hnil.
    + apply Forall_app. split; [apply Split_avoids|by repeat constructor].
  - by apply Split_Join; [|repeat constructor].
Qed.

Lemma blocked_after_nonempty userID old : blocked_after userID old ≠ EmptyString.
Proof.
  unfold blocked_after. case_bool_decide.
  - apply Join_snoc_nonempty, FormatInt_nonempty.
  - apply FormatInt_nonempty.
Qed.

Lemma Split_empty_is_id userID : existsb (is_id userID) (strings.Split EmptyString comma) = false.
Proof. reflexivity. Qed.

(** Who is on the list after [blocked_after]. *)
Lemma existsb_blocked_after userID other old :
  existsb (is_id other) (strings.Split (blocked_after userID old) comma)
  = (if bool_decide (old = EmptyString) then false
     else existsb (is_id other) (strings.Split old comma))
    || is_id other (strconv.FormatInt userID).
Proof.
  rewrite Split_blocked_after.
  destruct (decide (old = EmptyString)) as [->|Hold].
  - rewrite bool_decide_eq_false_2 by auto. rewrite bool_decide_eq_true_2 by done.
    simpl. by rewrite orb_false_r.
  - rewrite bool_decide_eq_true_2 by done. rewrite bool_decide_eq_false_2 by done.
    rewrite existsb_app. simpl. by rewrite orb_false_r.
Qed.

Lemma is_id_keeps_other userID other x :
  other ≠ userID → is_id other x = true → keeps userID x = true.
Proof.
  unfold is_id, keeps. destruct (strconv.ParseInt x); [|done].
  intros Hne Hid%bool_decide_eq_true. subst. by apply bool_decide_eq_true_2.
Qed.

Lemma existsb_filter_keeps userID other l :
  other ≠ userID →
  existsb (is_id other) (List.filter (keeps userID) l) = existsb (is_id other) l.
Proof.
  intros Hne. induction l as [|x l IH]; [done|]. simpl.
  destruct (keeps userID x) eqn:Hk; simpl; rewrite IH; [done|].
  destruct (is_id other x) eqn:Hid; [|done].
  by rewrite (is_id_keeps_other userID other x Hne Hid) in Hk.
Qed.

(** Who is on the list after [blocked_without]. *)
Lemma existsb_blocked_without userID other old :
  other ≠ userID →
  (if bool_decide (blocked_without userID old = EmptyString) then false
   else existsb (is_id other) (strings.Split (blocked_without userID old) comma))
  = existsb (is_id other) (strings.Split old comma).
Proof.
  intros Hne. unfold blocked_without.
  rewrite <- (existsb_filter_keeps userID other (strings.Split old comma) Hne).
  destruct (List.filter (keeps userID) (strings.Split old comma)) as [|x l] eqn:Hl.
  - by rewrite bool_decide_eq_true_2.
  - assert (strings.Split (strings.Join (x :: l) comma) comma = x :: l) as HSJ.
    { apply Split_Join; [done|]. rewrite <- Hl.
      apply Forall_filter_avoids, Split_avoids. }
    case_bool_decide as Hj; [|by rewrite HSJ].
    rewrite Hj in HSJ. simpl in HSJ. injection HSJ as <- <-. reflexivity.
Qed.

(** ** The ban list *)

Lemma rows_alter_other {A} (f : A → A) token (t : gmap string A) other :
  other ≠ token → alter f token t !! other = t !! other.
Proof. intros Hne. by rewrite lookup_alter_ne. Qed.

Lemma blockedIn_rows s s' token userID :
  column blocked_users (rows s') token = column blocked_users (rows s) token →
  blockedIn s' token userID = blockedIn s token userID.
Proof. unfold blockedIn. by intros ->. Qed.

(** The table after [blockUser], exactly. *)
Lemma blockUser_table token userID s :
  let old := column blocked_users (rows s) token in
  ∃ e s' evs, blockUser token userID s = (e, s', evs)
    ∧ bots s' = bots s ∧ creator s' = creator s
    ∧ sent evs = []
    ∧ (rows s' = rows s
       ∨ (e = None ∧ existsb (is_id userID) (strings.Split old comma) = false
          ∧ rows s' = alter (with_blocked_users (blocked_after userID old)) token (rows s)))
    ∧ (e ≠ None → rows s' = rows s)
    ∧ (answers (db_faults s) →
       existsb (is_id userID) (strings.Split old comma) = true →
       e = None ∧ rows s' = rows s ∧ executed evs = []).
Proof.
  intros old. unfold blockUser, answers. unfold bind at 1.
  rewrite QueryRow_column_run. unfold pop_db.
  destruct (next_fault (db_faults s)) as [f1 fs1]. simpl.
  destruct f1; simpl.
  { do 3 eexists. split; [reflexivity|]. simpl.
    repeat split; auto; try done; try (by left). }
  rewrite scanned_column, store_failed_column. fold old.
  destruct (existsb (is_id userID) (strings.Split old comma)) eqn:Hex.
  { do 3 eexists. split; [reflexivity|]. simpl.
    repeat split; auto; try done; try (by left). }
  change (strings.Join _ comma) with (blocked_after userID old).
  unfold bind at 1. unfold Exec_set_blocked_users. rewrite Exec_run.
  unfold pop_db. simpl.
  destruct (next_fault fs1) as [f2 fs2]. simpl.
  destruct f2; simpl.
  { do 3 eexists. split; [reflexivity|]. simpl.
    repeat split; auto; try done; try (by left). }
  do 3 eexists. split; [reflexivity|]. simpl.
  repeat split; auto; try done; try (right; by repeat split).
Qed.

Lemma blockedIn_alter_blocked s s' token userID new :
  is_Some (rows s !! token) →
  rows s' = alter (with_blocked_users new) token (rows s) →
  blockedIn s' token userID
  = if bool_decide (new = EmptyString) then false
    else existsb (is_id userID) (strings.Split new comma).
Proof.
  intros Hrow Hrows. unfold blockedIn. rewrite Hrows.
  by rewrite (column_written blocked_users (with_blocked_users new) new).
Qed.

Lemma blockedIn_missing s token userID :
  rows s !! token = None → blockedIn s token userID = false.
Proof. intros Hr. unfold blockedIn, column. by rewrite Hr. Qed.

Lemma blockedIn_other_token s s' f token token' userID :
  token' ≠ token →
  rows s' = alter f token (rows s) →
  blockedIn s' token' userID = blockedIn s token' userID.
Proof.
  intros Hne Hrows. apply blockedIn_rows. rewrite Hrows.
  by apply column_alter_ne.
Qed.

(** X1: with a store that answers and holds the bot's row, [blockUser]
    returns nil for any int64 user id, and from then on the user is on the
    stored list: [isUserBlocked] answers [true]. *)
Theorem blockUser_then_isUserBlocked token userID s :
  isInt64 userID →
  db_faults s = [] →
  is_Some (rows s !! token) →
  ∃ s' evs, blockUser token userID s = (None, s', evs)
    ∧ blockedIn s' token userID = true
    ∧ (isUserBlocked token userID s').1.1 = true.
Proof.
  intros Hid Hdb Hrow.
  destruct (blockUser_blocks token userID s Hid Hdb Hrow) as (s' & evs & Hrun & Hb).
  exists s', evs. split; [exact Hrun|]. split; [exact Hb|].
  destruct (blockUser_run token userID s) as (e & s2 & evs2 & Hrun2 & _ & Hdb' & _).
  rewrite Hrun in Hrun2. simplify_eq.
  destruct (isUserBlocked_run token userID s2) as (ev & -> & _). simpl.
  by rewrite (Hdb' Hdb).
Qed.

Lemma blockUser_then_isUserBlocked_witness :
  isInt64 42 ∧ db_faults demo_state = [] ∧ is_Some (rows demo_state !! "AAA")
  ∧ ∃ s' evs, blockUser "AAA" 42 demo_state = (None, s', evs)
      ∧ blockedIn s' "AAA" 42 = true
      ∧ (isUserBlocked "AAA" 42 s').1.1 = true.
Proof.
  assert (isInt64 42) as Hid by (vm_compute; intuition discriminate).
  assert (db_faults demo_state = []) as Hdb by reflexivity.
  assert (is_Some (rows demo_state !! "AAA")) as Hrow by (vm_compute; eauto).
  split; [exact Hid|]. split; [exact Hdb|]. split; [exact Hrow|].
  exact (blockUser_then_isUserBlocked "AAA" 42 demo_state Hid Hdb Hrow).
Defined.

(** X2: blocking a user who is already on the stored list is a no-op:
    when the read of the list answers, [blockUser] returns nil without
    running any UPDATE, and the table is as before. *)
Theorem blockUser_already_blocked token userID s :
  blockedIn s token userID = true →
  answers (db_faults s) →
  ∃ evs, blockUser token userID s = (None, pop_db s, evs)
    ∧ executed evs = [] ∧ sent evs = [].
Proof.
  unfold blockedIn, answers. intros Hb Hans.
  unfold blockUser. unfold bind at 1. rewrite QueryRow_column_run.
  rewrite Hans. simpl. rewrite scanned_column, store_failed_column.
  case_bool_decide as Hold; [discriminate Hb|]. rewrite Hb.
  eexists. split; [reflexivity|]. by split.
Qed.

Lemma blockUser_already_blocked_witness :
  blockedIn banned_state "AAA" 42 = true
  ∧ answers (db_faults banned_state)
  ∧ ∃ evs, blockUser "AAA" 42 banned_state = (None, pop_db banned_state, evs)
      ∧ executed evs = [] ∧ sent evs = [].
Proof.
  assert (blockedIn banned_state "AAA" 42 = true) as Hb by (vm_compute; reflexivity).
  assert (answers (db_faults banned_state)) as Ha by (vm_compute; reflexivity).
  split; [exact Hb|]. split; [exact Ha|].
  exact (blockUser_already_blocked "AAA" 42 banned_state Hb Ha).
Defined.

(** X3: [blockUser] touches nothing but the status of its user for its
    bot: every other user of the bot, and every user of every other bot,
    is blocked after the call exactly when blocked before; no appeal count
    column changes; no other row changes; the registry maps are untouched;
    nothing is sent; and a call that returns an error has not changed the
    table at all. *)
Theorem blockUser_frame token userID s :
  let '(e, s', evs) := blockUser token userID s in
  (∀ other, other ≠ userID → blockedIn s' token other = blockedIn s token other)
  ∧ (∀ token' other, token' ≠ token →
       blockedIn s' token' other = blockedIn s token' other)
  ∧ (∀ token', column appeal_counts (rows s') token'
               = column appeal_counts (rows s) token')
  ∧ (∀ token', token' ≠ token → rows s' !! token' = rows s !! token')
  ∧ (e ≠ None → rows s' = rows s)
  ∧ bots s' = bots s ∧ creator s' = creator s
  ∧ sent evs = [].
Proof.
  destruct (blockUser_table token userID s)
    as (e & s' & evs & -> & Hbots & Hcr & Hsent & Hrows & Hfail & _).
  assert (∀ other, other ≠ userID → blockedIn s' token other = blockedIn s token other)
    as Hsame.
  { intros other Hne. destruct Hrows as [Hrows|(_ & _ & Hrows)].
    { apply blockedIn_rows. by rewrite Hrows. }
    destruct (rows s !! token) as [r|] eqn:Hr.
    - rewrite (blockedIn_alter_blocked s s' token other _ (mk_is_Some _ _ Hr) Hrows).
      rewrite bool_decide_eq_false_2 by apply blocked_after_nonempty.
      rewrite existsb_blocked_after.
      rewrite (is_id_FormatInt_other userID other Hne), orb_false_r.
      reflexivity.
    - rewrite !blockedIn_missing; [done|done|].
      by rewrite Hrows, lookup_alter_eq, Hr. }
  split; [exact Hsame|].
  split.
  { intros token' other Hne. destruct Hrows as [Hrows|(_ & _ & Hrows)].
    - apply blockedIn_rows. by rewrite Hrows.
    - by apply (blockedIn_other_token s s' _ token token' other Hne Hrows). }
  split.
  { intros token'. destruct Hrows as [Hrows|(_ & _ & Hrows)]; rewrite Hrows; [done|].
    apply column_appeal_with_blocked. }
  split.
  { intros token' Hne. destruct Hrows as [Hrows|(_ & _ & Hrows)]; rewrite Hrows; [done|].
    by apply lookup_alter_ne. }
  done.
Qed.

Lemma blockUser_frame_witness :
  let run := blockUser "AAA" 7 banned_state in
  (42:Z) ≠ 7
  ∧ blockedIn run.1.2 "AAA" 7 = true
  ∧ blockedIn run.1.2 "AAA" 42 = blockedIn banned_state "AAA" 42
  ∧ column appeal_counts (rows run.1.2) "AAA"
    = column appeal_counts (rows banned_state) "AAA".
Proof.
  intros run.
  assert ((42:Z) ≠ 7) as Hne by discriminate.
  pose proof (blockUser_frame "AAA" 7 banned_state) as H.
  fold run in H. rewrite (triple_eta run) in H.
  destruct H as (Hb & _ & Hc & _).
  split; [exact Hne|]. split; [vm_compute; reflexivity|].
  split; [exact (Hb 42 Hne)|exact (Hc "AAA")].
Defined.

(** ** Unblocking *)

Lemma blockedIn_Split s token userID :
  blockedIn s token userID
  = existsb (is_id userID) (strings.Split (column blocked_users (rows s) token) comma).
Proof.
  unfold blockedIn. case_bool_decide as Hold; [|done].
  rewrite Hold. symmetry. apply Split_empty_is_id.
Qed.

Lemma blockedIn_unblocked s s' token userID other :
  other ≠ userID →
  rows s' = alter (with_blocked_users
                     (blocked_without userID (column blocked_users (rows s) token)))
              token (rows s) →
  blockedIn s' token other = blockedIn s token other.
Proof.
  intros Hne Hrows. destruct (rows s !! token) as [r|] eqn:Hr.
  - rewrite (blockedIn_alter_blocked s s' token other _ (mk_is_Some _ _ Hr) Hrows).
    rewrite (existsb_blocked_without userID other _ Hne).
    symmetry. apply blockedIn_Split.
  - rewrite !blockedIn_missing; [done|done|].
    by rewrite Hrows, lookup_alter_eq, Hr.
Qed.

Lemma isUserBlocked_false token userID s :
  blockedIn s token userID = false → (isUserBlocked token userID s).1.1 = false.
Proof.
  intros Hb. destruct (isUserBlocked_run token userID s) as (ev & -> & _). simpl.
  rewrite Hb. by destruct (next_fault (db_faults s)).1.
Qed.

(** X4: after [unblockUser] has returned nil, or has changed the table at
    all, the user is not on the stored list of the bot, and
    [isUserBlocked] answers [false]; this holds also for a list with
    duplicate or malformed entries. *)
Theorem unblockUser_unblocks `{J : EncodingJson} token userID s e s' evs :
  unblockUser token userID s = (e, s', evs) →
  e = None ∨ rows s' ≠ rows s →
  blockedIn s' token userID = false
  ∧ (isUserBlocked token userID s').1.1 = false.
Proof.
  intros Hrun Hcase.
  assert (blockedIn s' token userID = false) as Hb; [|by auto using isUserBlocked_false].
  destruct (unblockUser_run token userID s)
    as (e2 & s2 & evs2 & Hrun2 & _ & _ & _ & Hrows).
  rewrite Hrun in Hrun2. simplify_eq.
  pose proof (unblocked_list userID (column blocked_users (rows s) token)) as Hnew.
  simpl in Hnew.
  assert (∀ t : State,
            rows t = alter (with_blocked_users
                       (strings.Join
                          (List.filter (keeps userID)
                             (strings.Split (column blocked_users (rows s) token) comma))
                          comma)) token (rows s) →
            blockedIn t token userID = false) as Halt.
  { intros t Ht. destruct (rows s !! token) as [r|] eqn:Hr.
    - rewrite (blockedIn_alter_blocked s t token userID _ (mk_is_Some _ _ Hr) Ht).
      case_bool_decide; [done|]. by destruct Hnew.
    - apply blockedIn_missing. by rewrite Ht, lookup_alter_eq, Hr. }
  destruct Hrows as [[Hrows Hold]|[[Hne Hrows]|(-> & Hold & str & _ & Hrows)]].
  - destruct Hcase as [->|Hcase]; [|done].
    unfold blockedIn. rewrite Hrows, (Hold eq_refl). done.
  - by apply Halt.
  - unfold blockedIn. rewrite Hrows, column_blocked_with_appeal.
    set (t := set_rows (λ _, alter (with_blocked_users
                       (strings.Join
                          (List.filter (keeps userID)
                             (strings.Split (column blocked_users (rows s) token) comma))
                          comma)) token (rows s)) s).
    apply (Halt t). reflexivity.
Qed.

Lemma unblockUser_unblocks_witness :
  let run := unblockUser (J := RefJson) "AAA" 42 banned_state in
  (run.1.1 = None ∨ rows run.1.2 ≠ rows banned_state)
  ∧ blockedIn banned_state "AAA" 42 = true
  ∧ blockedIn run.1.2 "AAA" 42 = false
  ∧ (isUserBlocked "AAA" 42 run.1.2).1.1 = false.
Proof.
  intros run.
  assert (run.1.1 = None ∨ rows run.1.2 ≠ rows banned_state) as Hcase
    by (left; vm_compute; reflexivity).
  split; [exact Hcase|]. split; [vm_compute; reflexivity|].
  exact (unblockUser_unblocks (J := RefJson) "AAA" 42 banned_state _ _ _
           (triple_eta run) Hcase).
Defined.

Lemma count_other_deleted `{J : EncodingJson} (HJ : JsonLaws J) s s' t token
    userID other str :
  let m := (decode (column appeal_counts (rows s) token)).1 in
  other ≠ userID →
  readable s token →
  (∀ tok, column appeal_counts t tok = column appeal_counts (rows s) tok) →
  (is_Some (t !! token) ↔ is_Some (rows s !! token)) →
  json_Marshal (delete (strconv.FormatInt userID) m) = Ok str →
  rows s' = alter (with_appeal_counts str) token t →
  appealCountOf s' token other = appealCountOf s token other.
Proof.
  intros m Hne Hread Hcols Hdom Hmar Hrows.
  assert (json_clean (delete (strconv.FormatInt userID) m)) as Hclean.
  { apply (json_clean_delete _ HJ), (decode_clean HJ). }
  destruct (count_written HJ s s' t token token other _ str Hcols Hdom Hrows Hclean Hmar)
    as [(_ & _ & -> & _)|(_ & -> & _)]; [|done].
  rewrite lookup_delete_ne by (intros Heq; by apply FormatInt_inj in Heq).
  symmetry. apply appealCountOf_decode.
  unfold readable in Hread. subst m.
  destruct (decode (column appeal_counts (rows s) token)) as [m0 e0].
  simpl in *. by subst.
Qed.

(** X5: [unblockUser] leaves the other users alone: whatever the outcome,
    every other user of the bot is blocked afterwards exactly when blocked
    before, and the rows of the other bots are unchanged; when the stored
    counts of the bot decode, the appeal count of every other user is
    unchanged; a call that returns an error has changed no appeal count
    column; nothing is sent. *)
Theorem unblockUser_frame `{J : EncodingJson} (HJ : JsonLaws J) token userID s :
  let '(e, s', evs) := unblockUser token userID s in
  (∀ other, other ≠ userID → blockedIn s' token other = blockedIn s token other)
  ∧ (∀ token', token' ≠ token → rows s' !! token' = rows s !! token')
  ∧ (readable s token → ∀ other, other ≠ userID →
       appealCountOf s' token other = appealCountOf s token other)
  ∧ (e ≠ None → ∀ token',
       column appeal_counts (rows s') token' = column appeal_counts (rows s) token')
  ∧ sent evs = [].
Proof.
  destruct (unblockUser_run token userID s)
    as (e & s' & evs & -> & Hsent & _ & _ & Hrows).
  simpl in Hrows.
  change (strings.Join _ comma)
    with (blocked_without userID (column blocked_users (rows s) token)) in Hrows.
  set (new := blocked_without userID (column blocked_users (rows s) token)) in *.
  set (t := alter (with_blocked_users new) token (rows s)) in *.
  destruct Hrows as [[Hrows Hold]|[[Hne Hrows]|(-> & Hold & str & Hmar & Hrows)]].
  - split; [intros; apply blockedIn_rows; by rewrite Hrows|].
    split; [intros; by rewrite Hrows|].
    split; [intros; apply appealCountOf_rows; by rewrite Hrows|].
    split; [intros; by rewrite Hrows|done].
  - split; [intros other Hother; by apply (blockedIn_unblocked s s' token userID)|].
    split; [intros token' Hother; rewrite Hrows; by apply lookup_alter_ne|].
    split.
    { intros _ other _. apply appealCountOf_rows. rewrite Hrows.
      apply column_appeal_with_blocked. }
    split; [|done]. intros _ token'. rewrite Hrows. apply column_appeal_with_blocked.
  - split.
    { intros other Hother. 
      transitivity (blockedIn (set_rows (λ _, t) s) token other).
      - apply blockedIn_rows. rewrite Hrows. apply column_blocked_with_appeal.
      - by apply (blockedIn_unblocked s _ token userID). }
    split.
    { intros token' Hother. rewrite Hrows. subst t.
      by rewrite !lookup_alter_ne. }
    split; [|done].
    intros Hread other Hother.
    apply (count_other_deleted HJ s s' t token userID other str); try done.
    + intros tok. apply column_appeal_with_blocked.
    + subst t. destruct (decide (token = token)); [|done].
      rewrite lookup_alter_eq. split; intros [x Hx].
      * destruct (rows s !! token); [eauto|done].
      * rewrite Hx. eauto.
Qed.

Lemma unblockUser_frame_witness :
  let run := unblockUser (J := RefJson) "AAA" 42 banned_state in
  readable (J := RefJson) banned_state "AAA"
  ∧ (7:Z) ≠ 42
  ∧ blockedIn run.1.2 "AAA" 7 = blockedIn banned_state "AAA" 7
  ∧ appealCountOf (J := RefJson) run.1.2 "AAA" 7
    = appealCountOf (J := RefJson) banned_state "AAA" 7
  ∧ sent run.2 = [].
Proof.
  intros run.
  assert (readable (J := RefJson) banned_state "AAA") as Hread
    by (vm_compute; reflexivity).
  assert ((7:Z) ≠ 42) as Hne by discriminate.
  pose proof (unblockUser_frame ref_laws "AAA" 42 banned_state) as H.
  rewrite (triple_eta (unblockUser (J := RefJson) "AAA" 42 banned_state)) in H.
  destruct H as (Hb & _ & Hc & _ & Hs).
  split; [exact Hread|]. split; [exact Hne|].
  split; [exact (Hb 7 Hne)|]. split; [exact (Hc Hread 7 Hne)|exact Hs].
Defined.

(** ** Appeal counts *)

(** The table after [incrementAppealCount], exactly. *)
Lemma incrementAppealCount_table `{J : EncodingJson} token userID s :
  let k := strconv.FormatInt userID in
  ∃ e s' evs, incrementAppealCount token userID s = (e, s', evs)
    ∧ bots s' = bots s ∧ creator s' = creator s
    ∧ sent evs = []
    ∧ (rows s' = rows s
       ∨ (e = None
          ∧ ∃ m str,
              decode (column appeal_counts (rows s) token) = (m, None)
              ∧ json_Marshal (<[k := wrapInt (default 0 (m !! k) + 1)]> m) = Ok str
              ∧ rows s' = alter (with_appeal_counts str) token (rows s)))
    ∧ (e ≠ None → rows s' = rows s).
Proof.
  intros k. unfold incrementAppealCount. unfold bind at 1.
  rewrite QueryRow_column_run. unfold pop_db.
  destruct (next_fault (db_faults s)) as [f1 fs1]. simpl.
  destruct f1; simpl.
  { do 3 eexists. split; [reflexivity|]. simpl.
    repeat split; auto; try done; try (by left). }
  rewrite scanned_column, store_failed_column.
  change (if bool_decide (column appeal_counts (rows s) token ≠ EmptyString)
          then json_Unmarshal (column appeal_counts (rows s) token)
          else (∅, None))
    with (decode (column appeal_counts (rows s) token)).
  destruct (decode (column appeal_counts (rows s) token)) as [m [err|]] eqn:Hdec.
  { do 3 eexists. split; [reflexivity|]. simpl.
    repeat split; auto; try done; try (by left). }
  fold k.
  destruct (json_Marshal (<[k := wrapInt (default 0 (m !! k) + 1)]> m))
    as [str|err] eqn:Hmar.
  2:{ do 3 eexists. split; [reflexivity|]. simpl.
      repeat split; auto; try done; try (by left). }
  unfold bind at 1. unfold Exec_set_appeal_counts. rewrite Exec_run.
  unfold pop_db. simpl.
  destruct (next_fault fs1) as [f2 fs2]. simpl.
  destruct f2; simpl.
  { do 3 eexists. split; [reflexivity|]. simpl.
    repeat split; auto; try done; try (by left). }
  do 3 eexists. split; [reflexivity|]. simpl.
  split; [done|]. split; [done|]. split; [done|]. split; [|done].
  right. split; [done|]. by exists m, str.
Qed.

(** X6: [incrementAppealCount] changes the count of its user only: no
    blocked list changes, so nobody's blocked status changes; the rows of
    the other bots are unchanged; the appeal count of every other user of
    the bot is unchanged; the registry maps are untouched; nothing is sent;
    and a call that returns an error has not changed the table. *)
Theorem incrementAppealCount_frame `{J : EncodingJson} (HJ : JsonLaws J)
    token userID s :
  let '(e, s', evs) := incrementAppealCount token userID s in
  (∀ token', column blocked_users (rows s') token'
             = column blocked_users (rows s) token')
  ∧ (∀ token' other, blockedIn s' token' other = blockedIn s token' other)
  ∧ (∀ token', token' ≠ token → rows s' !! token' = rows s !! token')
  ∧ (∀ other, other ≠ userID →
       appealCountOf s' token other = appealCountOf s token other)
  ∧ (e ≠ None → rows s' = rows s)
  ∧ bots s' = bots s ∧ creator s' = creator s
  ∧ sent evs = [].
Proof.
  destruct (incrementAppealCount_table token userID s)
    as (e & s' & evs & -> & Hbots & Hcr & Hsent & Hrows & Hfail).
  assert (∀ token', column blocked_users (rows s') token'
                    = column blocked_users (rows s) token') as Hcol.
  { intros token'. destruct Hrows as [->|(_ & m & str & _ & _ & ->)]; [done|].
    apply column_blocked_with_appeal. }
  split; [exact Hcol|].
  split; [intros; by apply blockedIn_rows|].
  split.
  { intros token' Hne. destruct Hrows as [->|(_ & m & str & _ & _ & ->)]; [done|].
    by apply lookup_alter_ne. }
  split; [|done].
  intros other Hne. destruct Hrows as [Hrows|(_ & m & str & Hdec & Hmar & Hrows)].
  { apply appealCountOf_rows. by rewrite Hrows. }
  assert (json_clean (<[strconv.FormatInt userID
                        := wrapInt (default 0 (m !! strconv.FormatInt userID) + 1)]> m))
    as Hclean.
  { apply (json_clean_insert _ HJ); [|apply wrapInt_isInt64].
    pose proof (decode_clean HJ (column appeal_counts (rows s) token)) as Hc.
    by rewrite Hdec in Hc. }
  destruct (count_written HJ s s' (rows s) token token other _ str
              (λ _, eq_refl) (reflexivity _) Hrows Hclean Hmar)
    as [(_ & _ & -> & _)|(_ & -> & _)]; [|done].
  rewrite lookup_insert_ne by (intros Heq; by apply FormatInt_inj in Heq).
  symmetry. by apply appealCountOf_decode.
Qed.

Lemma incrementAppealCount_frame_witness :
  let run := incrementAppealCount (J := RefJson) "AAA" 7 banned_state in
  run.1.1 = None
  ∧ appealCountOf (J := RefJson) run.1.2 "AAA" 7 = 1
  ∧ appealCountOf (J := RefJson) banned_state "AAA" 42 = 3
  ∧ appealCountOf (J := RefJson) run.1.2 "AAA" 42 = 3
  ∧ blockedIn run.1.2 "AAA" 42 = true
  ∧ blockedIn run.1.2 "AAA" 7 = false.
Proof.
  intros run.
  pose proof (incrementAppealCount_frame ref_laws "AAA" 7 banned_state) as H.
  rewrite (triple_eta (incrementAppealCount (J := RefJson) "AAA" 7 banned_state)) in H.
  destruct H as (_ & Hb & _ & Hc & _).
  split; [vm_compute; reflexivity|]. split; [vm_compute; reflexivity|].
  assert (appealCountOf (J := RefJson) banned_state "AAA" 42 = 3) as H3
    by (vm_compute; reflexivity).
  split; [exact H3|].
  split; [exact (eq_trans (Hc 42 ltac:(discriminate)) H3)|].
  split; [exact (eq_trans (Hb "AAA" 42) ltac:(vm_compute; reflexivity))|].
  exact (eq_trans (Hb "AAA" 7) ltac:(vm_compute; reflexivity)).
Defined.

(** ** A token without a stored row *)

Lemma alter_missing {A} (f : A → A) (t : gmap string A) token :
  t !! token = None → alter f token t = t.
Proof.
  intros Hr. apply map_eq. intros k. destruct (decide (k = token)) as [->|Hne].
  - by rewrite lookup_alter_eq, Hr.
  - by rewrite lookup_alter_ne.
Qed.

Lemma column_missing col (t : gmap string BotRow) token :
  t !! token = None → column col t token = EmptyString.
Proof. intros Hr. unfold column. by rewrite Hr. Qed.

Lemma appealCountOf_missing `{J : EncodingJson} s token userID :
  rows s !! token = None → appealCountOf s token userID = 0.
Proof. intros Hr. unfold appealCountOf. by rewrite column_missing. Qed.

(** X7: for a token without a stored row, [isUserBlocked] answers [false]
    and [getAppealCount] answers 0 for every user, and every operation of
    the ban and appeal bookkeeping leaves the table unchanged and sends
    nothing; when the store answers, the operation also returns nil, so a
    ban of a user on such a bot reports success and blocks nobody. *)
Theorem missing_row_operations `{J : EncodingJson} (HJ : JsonLaws J) token s :
  rows s !! token = None →
  (∀ userID, (isUserBlocked token userID s).1.1 = false
             ∧ (getAppealCount token userID s).1.1 = 0)
  ∧ ∀ op, let '(e, s', evs) := run_operation token op s in
      rows s' = rows s ∧ sent evs = [] ∧ (db_faults s = [] → e = None).
Proof.
  intros Hr. split.
  { intros userID. split.
    - apply isUserBlocked_false. by apply blockedIn_missing.
    - destruct (getAppealCount_run token userID s) as (ev & -> & _). simpl.
      rewrite appealCountOf_missing by done. by destruct (next_fault (db_faults s)).1. }
  intros [userID|userID|userID|userID|userID]; simpl.
  - unfold bind. destruct (isUserBlocked_run token userID s) as (ev & -> & Hs). simpl.
    rewrite app_nil_r. done.
  - destruct (blockUser_table token userID s)
      as (e & s' & evs & Hrun & _ & _ & Hsent & Hrows & _ & _).
    rewrite Hrun. split.
    { destruct Hrows as [->|(_ & _ & ->)]; [done|]. by apply alter_missing. }
    split; [done|]. intros Hdb. revert Hrun.
    unfold blockUser. unfold bind at 1. rewrite QueryRow_column_run.
    unfold pop_db. rewrite Hdb. simpl.
    rewrite scanned_column, store_failed_column, column_missing by done. simpl.
    by intros [= <- _ _].
  - destruct (unblockUser_run token userID s)
      as (e & s' & evs & Hrun & Hsent & _ & _ & Hrows).
    rewrite Hrun. simpl in Hrows. split.
    { destruct Hrows as [[-> _]|[[_ ->]|(_ & Hold & _)]]; [done|by apply alter_missing|].
      by rewrite column_missing in Hold. }
    split; [done|]. intros Hdb. revert Hrun.
    unfold unblockUser. unfold bind at 1. rewrite QueryRow_column_run.
    unfold pop_db. rewrite Hdb. simpl.
    rewrite scanned_column, store_failed_column, column_missing by done. simpl.
    by intros [= <- _ _].
  - destruct (incrementAppealCount_run token userID s)
      as (e & s' & evs & Hrun & Hsent & _ & _ & Hrows & Hok).
    rewrite Hrun. simpl in Hrows, Hok. split.
    { destruct Hrows as [->|(m & str & _ & _ & ->)]; [done|]. by apply alter_missing. }
    split; [done|]. intros Hdb.
    assert (decode (column appeal_counts (rows s) token) = (∅, None)) as Hdec.
    { by rewrite column_missing. }
    assert (json_clean (∅ : gmap string Z)) as Hclean.
    { pose proof (decode_clean HJ EmptyString) as Hc. exact Hc. }
    destruct (json_roundtrip _ HJ
                (<[strconv.FormatInt userID
                   := wrapInt (default 0 ((∅ : gmap string Z) !! strconv.FormatInt userID) + 1)]> ∅))
      as (str & Hmar & _).
    { apply (json_clean_insert _ HJ); [done|apply wrapInt_isInt64]. }
    by destruct (Hok Hdb ∅ str Hdec Hmar).
  - unfold bind. destruct (getAppealCount_run token userID s) as (ev & -> & Hs). simpl.
    rewrite app_nil_r. done.
Qed.

Lemma missing_row_operations_witness :
  rows demo_state !! "BBB" = None
  ∧ db_faults demo_state = []
  ∧ (blockUser "BBB" 42 demo_state).1.1 = None
  ∧ rows (blockUser "BBB" 42 demo_state).1.2 = rows demo_state
  ∧ (isUserBlocked "BBB" 42 (blockUser "BBB" 42 demo_state).1.2).1.1 = false.
Proof.
  assert (rows demo_state !! "BBB" = None) as Hr by (vm_compute; reflexivity).
  assert (db_faults demo_state = []) as Hdb by reflexivity.
  destruct (missing_row_operations ref_laws "BBB" demo_state Hr) as [_ Hop].
  specialize (Hop (OpBlock 42)). simpl in Hop.
  rewrite (triple_eta (blockUser "BBB" 42 demo_state)) in Hop.
  destruct Hop as (Hrows & _ & He).
  split; [exact Hr|]. split; [exact Hdb|]. split; [exact (He Hdb)|].
  split; [exact Hrows|]. vm_compute. reflexivity.
Defined.

(** ** The relay *)

Lemma isUserBlocked_reads token userID s :
  ∃ evs, isUserBlocked token userID s
         = (if (next_fault (db_faults s)).1 then false else blockedIn s token userID,
            pop_db s, evs)
         ∧ sent evs = [] ∧ executed evs = [].
Proof.
  unfold isUserBlocked, blockedIn. unfold bind at 1.
  rewrite QueryRow_column_run.
  destruct (next_fault (db_faults s)).1; simpl; [by eexists|].
  rewrite scanned_column, store_failed_column.
  case_bool_decide; by eexists.
Qed.

Lemma getAppealCount_reads `{J : EncodingJson} token userID s :
  ∃ evs, getAppealCount token userID s
         = (if (next_fault (db_faults s)).1 then 0 else appealCountOf s token userID,
            pop_db s, evs)
         ∧ sent evs = [] ∧ executed evs = [].
Proof.
  unfold getAppealCount, appealCountOf. unfold bind at 1.
  rewrite QueryRow_column_run.
  destruct (next_fault (db_faults s)).1; simpl; [by eexists|].
  rewrite scanned_column, store_failed_column.
  case_bool_decide; [by eexists|].
  destruct (json_Unmarshal _) as [m [err|]]; by eexists.
Qed.

Lemma executed_app e1 e2 : executed (e1 ++ e2)%list = (executed e1 ++ executed e2)%list.
Proof. unfold executed. by rewrite omap_app. Qed.

Lemma queried_app e1 e2 : queried (e1 ++ e2)%list = (queried e1 ++ queried e2)%list.
Proof. unfold queried. by rewrite omap_app. Qed.

Lemma spawned_app e1 e2 : spawned (e1 ++ e2)%list = (spawned e1 ++ spawned e2)%list.
Proof. unfold spawned. by rewrite omap_app. Qed.

(** X8: when the sender is not on the stored blocked list of the bot,
    [handleIncomingMessage] sends exactly one request: the forward of the
    message (its chat and message id) to the operator.  It reads the
    blocked list once, runs no UPDATE, and leaves the table unchanged. *)
Theorem handleIncomingMessage_relays `{J : EncodingJson} bot message creatorID
    botAPI botToken s :
  blockedIn s botToken (User_ID (From message)) = false →
  let '(_, s', evs) := handleIncomingMessage bot message creatorID botAPI botToken s in
  sent evs
  = [NewForward creatorID (Chat_ID (Message_Chat message)) (MessageID message)]
  ∧ queried evs = [q_blocked_users]
  ∧ executed evs = []
  ∧ rows s' = rows s.
Proof.
  intros Hb. unfold handleIncomingMessage.
  unfold mu_RLock at 1. unfold emit at 1. unfold bind at 1.
  unfold bind at 1. unfold bind at 1.
  unfold isUserBlocked. unfold bind at 1. rewrite QueryRow_column_run.
  assert ((if (next_fault (db_faults s)).1 then false
           else blockedIn s botToken (User_ID (From message))) = false) as Hres.
  { rewrite Hb. by destruct (next_fault (db_faults s)).1. }
  unfold blockedIn in Hb.
  destruct (next_fault (db_faults s)).1 eqn:Hf; simpl.
  - unfold_prims. simpl.
    destruct (next_fault (net_faults s)) as [[] fs]; simpl; done.
  - rewrite scanned_column, store_failed_column.
    case_bool_decide as Hold.
    + unfold_prims. simpl.
      destruct (next_fault (net_faults s)) as [[] fs]; simpl; done.
    + rewrite Hb. unfold_prims. simpl.
      destruct (next_fault (net_faults s)) as [[] fs]; simpl; done.
Qed.

Lemma handleIncomingMessage_relays_witness :
  let run :=
    handleIncomingMessage (J := RefJson) demo_bot (demo_message 7 "hello" []) 100
      demo_bot "AAA" banned_state in
  blockedIn banned_state "AAA" 7 = false
  ∧ sent run.2 = [NewForward 100 7 7]
  ∧ rows run.1.2 = rows banned_state.
Proof.
  intros run.
  assert (blockedIn banned_state "AAA" (User_ID (From (demo_message 7 "hello" []))) = false)
    as Hb by (vm_compute; reflexivity).
  pose proof (handleIncomingMessage_relays (J := RefJson) demo_bot
                (demo_message 7 "hello" []) 100 demo_bot "AAA" banned_state Hb) as H.
  fold run in H. rewrite (triple_eta run) in H.
  destruct H as (Hs & _ & _ & Hr).
  split; [exact Hb|]. split; [exact Hs|exact Hr].
Defined.

(** X9: the two relay handlers never write: [handleIncomingMessage] leaves
    the table and the registry maps unchanged, runs no statement that
    writes, and sends exactly one request in every case;
    [handleReplyMessage] leaves the table and the registry maps unchanged
    and makes no store call at all. *)
Theorem relay_handlers_never_write `{J : EncodingJson} bot message creatorID
    botAPI botToken s :
  (let '(_, s', evs) := handleIncomingMessage bot message creatorID botAPI botToken s in
   rows s' = rows s ∧ bots s' = bots s ∧ creator s' = creator s
   ∧ executed evs = [] ∧ List.length (sent evs) = 1%nat)
  ∧ (let '(_, s', evs) := handleReplyMessage bot message s in
     rows s' = rows s ∧ bots s' = bots s ∧ creator s' = creator s
     ∧ db_faults s' = db_faults s
     ∧ executed evs = [] ∧ queried evs = []).
Proof.
  split.
  - unfold handleIncomingMessage.
    unfold mu_RLock at 1. unfold emit at 1. unfold bind at 1.
    unfold bind at 1. unfold bind at 1.
    destruct (isUserBlocked_reads botToken (User_ID (From message)) s)
      as (ev1 & -> & Hs1 & Hx1).
    destruct (if (next_fault (db_faults s)).1 then false
              else blockedIn s botToken (User_ID (From message))).
    + unfold log_Printf at 1. unfold emit at 1. unfold bind at 1. unfold bind at 1.
      destruct (getAppealCount_reads botToken (User_ID (From message)) (pop_db s))
        as (ev2 & -> & Hs2 & Hx2).
      case_bool_decide; unfold_prims; simpl;
        destruct (next_fault (net_faults s)) as [[] fs]; simpl;
        rewrite ?executed_app, ?sent_app, ?sent_cons, ?sent_nil, ?Hs1, ?Hs2, ?Hx1, ?Hx2;
        simpl;
        rewrite ?executed_app, ?sent_app, ?sent_cons, ?sent_nil, ?Hs1, ?Hs2, ?Hx1, ?Hx2;
        done.
    + unfold_prims; simpl;
        destruct (next_fault (net_faults s)) as [[] fs]; simpl;
        rewrite ?executed_app, ?sent_app, ?sent_cons, ?sent_nil, ?Hs1, ?Hx1;
        simpl; rewrite ?executed_app, ?sent_app, ?sent_cons, ?sent_nil, ?Hs1, ?Hx1;
        done.
  - unfold handleReplyMessage.
    destruct (ReplyToMessage message) as [replied|]; [|done].
    destruct (ForwardFrom replied) as [sender|]; [|done].
    unfold_prims. simpl.
    destruct (next_fault (net_faults s)) as [[] fs]; done.
Qed.

(** ** Button presses *)

Lemma Request_answers bot c s :
  answers (net_faults s) →
  Request bot c s = (None, set_net_faults (next_fault (net_faults s)).2 s, [NetRequest c]).
Proof.
  unfold answers, Request. unfold_prims.
  destruct (next_fault (net_faults s)) as [[] fs]; simpl; [discriminate|done].
Qed.

Lemma Send_result bot c s :
  Send bot c s
  = (if (next_fault (net_faults s)).1 then Some ErrPlatform else None,
     set_net_faults (next_fault (net_faults s)).2 s, [NetSend c]).
Proof.
  unfold Send. unfold_prims.
  destruct (next_fault (net_faults s)) as [[] fs]; done.
Qed.

Lemma when_err_logs e format (args : error → list Arg) s :
  ∃ ev, when_err e (λ err, log_Printf format (args err)) s = (tt, s, ev)
    ∧ sent ev = [] ∧ executed ev = [] ∧ queried ev = [].
Proof. destruct e as [err|]; simpl; by eexists. Qed.

(** X10: a press of the appeal button, once acknowledged, with a payload
    [appeal_<id>] that carries a number: when the count read for that id is
    3 or more, the permanent-block notice is sent to that id and the
    pending flags are unchanged; below 3, the prompt for the appeal text is
    sent to that id, and the flag of that id is set exactly when the prompt
    was delivered.  The table is never written.  The id is the one in the
    payload; the person pressing is not looked at. *)
Theorem appeal_press `{J : EncodingJson} bot creatorID appeals query userID s :
  answers (net_faults s) →
  strings.HasPrefix (Data query) "appeal_" = true →
  strconv.ParseInt (strings.TrimPrefix (Data query) "appeal_") = Ok userID →
  let count := (getAppealCount (Token bot) userID s).1.1 in
  let delivered := negb (next_fault (next_fault (net_faults s)).2).1 in
  let '(appeals', s', evs) := handleCallback bot creatorID appeals query s in
  rows s' = rows s
  ∧ executed evs = []
  ∧ (if bool_decide (3 <= count)
     then sent evs = [noAppealMsg userID] ∧ appeals' = appeals
     else sent evs = [NewMessage userID "请在此输入你的申诉信息："]
          ∧ appeals' = if delivered then <[userID := true]> appeals else appeals).
Proof.
  intros Hack Hpre Hparse count delivered.
  unfold handleCallback. unfold bind at 1. rewrite Request_answers by done.
  unfold bind at 1. unfold log_Printf at 1. unfold emit at 1.
  rewrite Hpre, Hparse.
  set (sA := set_net_faults _ s).
  destruct (getAppealCount_reads (Token bot) userID sA) as (ev1 & Hrun1 & Hs1 & Hx1).
  destruct (getAppealCount_reads (Token bot) userID s) as (ev0 & Hrun0 & _).
  assert (count = if (next_fault (db_faults sA)).1 then 0
                  else appealCountOf sA (Token bot) userID) as Hcount.
  { subst count. by rewrite Hrun0. }
  unfold bind at 1. rewrite Hrun1. rewrite <- Hcount.
  case_bool_decide as Hcap.
  - unfold bind at 1. rewrite Send_result.
    unfold bind at 1.
    destruct (when_err_logs (if (next_fault (net_faults (pop_db sA))).1
                             then Some ErrPlatform else None)
               "Failed to send no appeal message to user %d of bot %s : %v"
               (λ err, [AInt userID; AStr (Token bot); AErr err])
               (set_net_faults (next_fault (net_faults (pop_db sA))).2 (pop_db sA)))
      as (ev2 & Hrun2 & Hs2 & Hx2 & _).
    rewrite Hrun2. unfold ret. simpl.
    split; [done|]. split.
    + rewrite !executed_app, Hx1. simpl. by rewrite executed_app, Hx2.
    + split; [|done]. sent_simpl. done.
  - unfold bind at 1. rewrite Send_result.
    change (net_faults (pop_db sA)) with (next_fault (net_faults s)).2.
    subst delivered.
    destruct (next_fault (next_fault (net_faults s)).2).1; simpl.
    + split; [done|]. split; [by rewrite !executed_app, Hx1|].
      split; [|done]. sent_simpl. done.
    + split; [done|]. split; [by rewrite !executed_app, Hx1|].
      split; [|done]. sent_simpl. done.
Qed.

Lemma appeal_press_witness :
  let query := {| CallbackQuery_ID := "q"; Data := "appeal_42" |} in
  let run := handleCallback (J := RefJson) demo_bot 100 ∅ query demo_state in
  answers (net_faults demo_state)
  ∧ strings.HasPrefix (Data query) "appeal_" = true
  ∧ strconv.ParseInt (strings.TrimPrefix (Data query) "appeal_") = Ok 42
  ∧ sent run.2 = [NewMessage 42 "请在此输入你的申诉信息："]
  ∧ run.1.1 = {[42 := true]}
  ∧ rows run.1.2 = rows demo_state.
Proof.
  intros query run.
  assert (answers (net_faults demo_state)) as Ha by reflexivity.
  assert (strings.HasPrefix (Data query) "appeal_" = true) as Hp by reflexivity.
  assert (strconv.ParseInt (strings.TrimPrefix (Data query) "appeal_") = Ok 42) as Hi
    by (vm_compute; reflexivity).
  pose proof (appeal_press (J := RefJson) demo_bot 100 ∅ query 42 demo_state Ha Hp Hi)
    as H.
  fold run in H. rewrite (triple_eta run) in H.
  destruct H as (Hr & _ & Hs).
  assert (bool_decide (3 <= (getAppealCount (J := RefJson) (Token demo_bot) 42
                               demo_state).1.1) = false) as Hc
    by (vm_compute; reflexivity).
  rewrite Hc in Hs. destruct Hs as [Hs Hf].
  split; [exact Ha|]. split; [exact Hp|]. split; [exact Hi|].
  split; [exact Hs|]. split; [exact Hf|exact Hr].
Defined.

(** X11: when the acknowledgement of a button press fails, the worker
    does nothing else for that press: the run is the request and one log
    line, whatever the payload; the flags and the table are unchanged. *)
Theorem callback_ack_failure `{J : EncodingJson} bot creatorID appeals query s :
  (next_fault (net_faults s)).1 = true →
  handleCallback bot creatorID appeals query s
  = (appeals, set_net_faults (next_fault (net_faults s)).2 s,
     [NetRequest (NewCallback (CallbackQuery_ID query) EmptyString);
      Log "Error processing callback: %v" [AErr ErrPlatform]]).
Proof.
  intros Hf. unfold handleCallback. unfold bind at 1. unfold Request.
  unfold_prims. destruct (next_fault (net_faults s)) as [[] fs]; [done|].
  discriminate Hf.
Qed.

Lemma callback_ack_failure_witness :
  let s := set_net_faults [true] demo_state in
  let run := handleCallback (J := RefJson) demo_bot 100 ∅
               {| CallbackQuery_ID := "q"; Data := "ban_42" |} s in
  (next_fault (net_faults s)).1 = true
  ∧ run.1.1 = ∅
  ∧ rows run.1.2 = rows demo_state
  ∧ blockedIn run.1.2 "AAA" 42 = false.
Proof.
  intros s run.
  assert ((next_fault (net_faults s)).1 = true) as Hf by reflexivity.
  pose proof (callback_ack_failure (J := RefJson) demo_bot 100 ∅
                {| CallbackQuery_ID := "q"; Data := "ban_42" |} s Hf) as H.
  fold run in H.
  split; [exact Hf|]. rewrite H. split; [reflexivity|].
  split; [reflexivity|]. vm_compute. reflexivity.
Defined.

(** X12: a button press whose payload starts with none of [appeal_],
    [ban_], [unban_], or whose rest after the prefix is not a number, has
    no effect beyond the acknowledgement: nothing is sent, no store call is
    made, the flags and the table are unchanged. *)
Theorem callback_malformed_payload `{J : EncodingJson} bot creatorID appeals query s :
  (∀ pre, pre ∈ ["appeal_"; "ban_"; "unban_"] →
     strings.HasPrefix (Data query) pre = true →
     ∃ err, strconv.ParseInt (strings.TrimPrefix (Data query) pre) = Err err) →
  let '(appeals', s', evs) := handleCallback bot creatorID appeals query s in
  appeals' = appeals
  ∧ rows s' = rows s ∧ db_faults s' = db_faults s
  ∧ sent evs = [] ∧ queried evs = [] ∧ executed evs = [].
Proof.
  intros Hbad. unfold handleCallback. unfold bind at 1.
  destruct (Request_run bot (NewCallback (CallbackQuery_ID query) EmptyString) s)
    as [e ->].
  destruct e as [err|]; [done|].
  unfold bind at 1. unfold log_Printf at 1. unfold emit at 1.
  destruct (strings.HasPrefix (Data query) "appeal_") eqn:Hp1.
  { destruct (Hbad "appeal_") as [err ->]; [set_solver|done|done]. }
  destruct (strings.HasPrefix (Data query) "ban_") eqn:Hp2.
  { destruct (Hbad "ban_") as [err ->]; [set_solver|done|done]. }
  destruct (strings.HasPrefix (Data query) "unban_") eqn:Hp3.
  { destruct (Hbad "unban_") as [err ->]; [set_solver|done|done]. }
  done.
Qed.

Lemma callback_malformed_payload_witness :
  let run d := handleCallback (J := RefJson) demo_bot 100 {[7 := true]}
                 {| CallbackQuery_ID := "q"; Data := d |} demo_state in
  (run "ban_4x2").1.1 = {[7 := true]}
  ∧ rows (run "ban_4x2").1.2 = rows demo_state
  ∧ sent (run "ban_4x2").2 = []
  ∧ queried (run "ban_4x2").2 = [].
Proof.
  intros run.
  assert (∀ pre, pre ∈ ["appeal_"; "ban_"; "unban_"] →
            strings.HasPrefix "ban_4x2" pre = true →
            ∃ err, strconv.ParseInt (strings.TrimPrefix "ban_4x2" pre) = Err err) as Hbad.
  { intros pre Hin Hp.
    apply elem_of_cons in Hin as [->|Hin]; [discriminate Hp|].
    apply elem_of_cons in Hin as [->|Hin]; [by eexists|].
    apply elem_of_cons in Hin as [->|Hin]; [discriminate Hp|].
    by apply elem_of_nil in Hin. }
  pose proof (callback_malformed_payload (J := RefJson) demo_bot 100 {[7 := true]}
                {| CallbackQuery_ID := "q"; Data := "ban_4x2" |} demo_state Hbad) as H.
  fold (run "ban_4x2") in H. rewrite (triple_eta (run "ban_4x2")) in H.
  destruct H as (Ha & Hr & _ & Hs & Hq & _).
  split; [exact Ha|]. split; [exact Hr|]. split; [exact Hs|exact Hq].
Defined.

Lemma prefix_cons a s1 b s2 :
  String.prefix (String a s1) (String b s2)
  = if Ascii.ascii_dec a b then String.prefix s1 s2 else false.
Proof. reflexivity. Qed.

Lemma HasPrefix_ban_not_appeal d :
  strings.HasPrefix d "ban_" = true → strings.HasPrefix d "appeal_" = false.
Proof.
  unfold strings.HasPrefix. destruct d as [|c d]; [done|]. rewrite !prefix_cons.
  destruct (Ascii.ascii_dec "b" c) as [<-|]; [|done]. intros _.
  destruct (Ascii.ascii_dec "a" "b") as [Heq|]; [discriminate Heq|done].
Qed.

Lemma HasPrefix_unban_not_others d :
  strings.HasPrefix d "unban_" = true →
  strings.HasPrefix d "appeal_" = false ∧ strings.HasPrefix d "ban_" = false.
Proof.
  unfold strings.HasPrefix. destruct d as [|c d]; [done|]. rewrite !prefix_cons.
  destruct (Ascii.ascii_dec "u" c) as [<-|]; [|done]. intros _.
  destruct (Ascii.ascii_dec "a" "u") as [Heq|]; [discriminate Heq|].
  destruct (Ascii.ascii_dec "b" "u") as [Heq|]; [discriminate Heq|done].
Qed.

(** X13: an acknowledged press of a ban button [ban_<id>] runs
    [blockUser] for the worker's bot and that id; the table afterwards is
    the one [blockUser] leaves; on success the confirmation is sent to the
    operator, on failure nothing is sent; the pending flags are
    unchanged. *)
Theorem callback_ban `{J : EncodingJson} bot creatorID appeals query userID s :
  answers (net_faults s) →
  strings.HasPrefix (Data query) "ban_" = true →
  strconv.ParseInt (strings.TrimPrefix (Data query) "ban_") = Ok userID →
  let sA := set_net_faults (next_fault (net_faults s)).2 s in
  let '(e, sB, _) := blockUser (Token bot) userID sA in
  let '(appeals', s', evs) := handleCallback bot creatorID appeals query s in
  appeals' = appeals
  ∧ rows s' = rows sB
  ∧ sent evs
    = match e with
      | None => [NewMessage creatorID
                   ("用户ID: " ++ strconv.FormatInt userID ++ " 已被封禁")]
      | Some _ => []
      end.
Proof.
  intros Hack Hpre Hparse sA.
  destruct (blockUser_table (Token bot) userID sA)
    as (e & sB & evB & HrunB & _ & _ & HsB & _).
  rewrite HrunB.
  unfold handleCallback. unfold bind at 1. rewrite Request_answers by done.
  unfold bind at 1. unfold log_Printf at 1. unfold emit at 1.
  rewrite (HasPrefix_ban_not_appeal _ Hpre), Hpre, Hparse.
  unfold bind at 1. unfold log_Printf at 1. unfold emit at 1.
  fold sA. unfold bind at 1. rewrite HrunB.
  destruct e as [err|].
  - unfold_prims. simpl. split; [done|]. split; [done|]. sent_simpl. done.
  - unfold bind at 1. rewrite Send_result. unfold bind at 1.
    destruct (when_err_logs (if (next_fault (net_faults sB)).1
                             then Some ErrPlatform else None)
               "Failed to send ban confirmation message to creator: %v"
               (λ err, [AErr err])
               (set_net_faults (next_fault (net_faults sB)).2 sB))
      as (ev2 & Hrun2 & Hs2 & _).
    rewrite Hrun2. unfold ret. simpl.
    split; [done|]. split; [done|]. sent_simpl. done.
Qed.

Lemma callback_ban_witness :
  let query := {| CallbackQuery_ID := "q"; Data := "ban_42" |} in
  let run := handleCallback (J := RefJson) demo_bot 100 ∅ query demo_state in
  answers (net_faults demo_state)
  ∧ strings.HasPrefix (Data query) "ban_" = true
  ∧ strconv.ParseInt (strings.TrimPrefix (Data query) "ban_") = Ok 42
  ∧ sent run.2 = [NewMessage 100 "用户ID: 42 已被封禁"]
  ∧ blockedIn run.1.2 "AAA" 42 = true.
Proof.
  intros query run.
  assert (answers (net_faults demo_state)) as Ha by reflexivity.
  assert (strings.HasPrefix (Data query) "ban_" = true) as Hp by reflexivity.
  assert (strconv.ParseInt (strings.TrimPrefix (Data query) "ban_") = Ok 42) as Hi
    by (vm_compute; reflexivity).
  pose proof (callback_ban (J := RefJson) demo_bot 100 ∅ query 42 demo_state Ha Hp Hi)
    as H.
  simpl in H.
  rewrite (triple_eta (blockUser _ _ _)) in H.
  fold run in H. rewrite (triple_eta run) in H.
  destruct H as (_ & Hr & Hs).
  split; [exact Ha|]. split; [exact Hp|]. split; [exact Hi|].
  split; [exact Hs|]. vm_compute. reflexivity.
Defined.

(** X14: an acknowledged press of an unban button [unban_<id>] runs
    [unblockUser] for the worker's bot and that id; the table afterwards is
    the one [unblockUser] leaves; on success the confirmation is sent to
    the operator, on failure nothing is sent; the pending flags are
    unchanged. *)
Theorem callback_unban `{J : EncodingJson} bot creatorID appeals query userID s :
  answers (net_faults s) →
  strings.HasPrefix (Data query) "unban_" = true →
  strconv.ParseInt (strings.TrimPrefix (Data query) "unban_") = Ok userID →
  let sA := set_net_faults (next_fault (net_faults s)).2 s in
  let '(e, sU, _) := unblockUser (Token bot) userID sA in
  let '(appeals', s', evs) := handleCallback bot creatorID appeals query s in
  appeals' = appeals
  ∧ rows s' = rows sU
  ∧ sent evs
    = match e with
      | None => [NewMessage creatorID
                   ("用户ID: " ++ strconv.FormatInt userID ++ " 已被解禁")]
      | Some _ => []
      end.
Proof.
  intros Hack Hpre Hparse sA.
  destruct (unblockUser_run (Token bot) userID sA)
    as (e & sU & evU & HrunU & HsU & _).
  rewrite HrunU.
  unfold handleCallback. unfold bind at 1. rewrite Request_answers by done.
  unfold bind at 1. unfold log_Printf at 1. unfold emit at 1.
  destruct (HasPrefix_unban_not_others _ Hpre) as [-> ->].
  rewrite Hpre, Hparse.
  unfold bind at 1. unfold log_Printf at 1. unfold emit at 1.
  fold sA. unfold bind at 1. rewrite HrunU.
  destruct e as [err|].
  - unfold_prims. simpl. split; [done|]. split; [done|]. sent_simpl. done.
  - unfold bind at 1. rewrite Send_result. unfold bind at 1.
    destruct (when_err_logs (if (next_fault (net_faults sU)).1
                             then Some ErrPlatform else None)
               "Failed to send unban confirmation message to creator: %v"
               (λ err, [AErr err])
               (set_net_faults (next_fault (net_faults sU)).2 sU))
      as (ev2 & Hrun2 & Hs2 & _).
    rewrite Hrun2. unfold ret. simpl.
    split; [done|]. split; [done|]. sent_simpl. done.
Qed.

Lemma callback_unban_witness :
  let query := {| CallbackQuery_ID := "q"; Data := "unban_42" |} in
  let run := handleCallback (J := RefJson) demo_bot 100 ∅ query banned_state in
  answers (net_faults banned_state)
  ∧ strings.HasPrefix (Data query) "unban_" = true
  ∧ strconv.ParseInt (strings.TrimPrefix (Data query) "unban_") = Ok 42
  ∧ sent run.2 = [NewMessage 100 "用户ID: 42 已被解禁"]
  ∧ blockedIn banned_state "AAA" 42 = true
  ∧ blockedIn run.1.2 "AAA" 42 = false.
Proof.
  intros query run.
  assert (answers (net_faults banned_state)) as Ha by (vm_compute; reflexivity).
  assert (strings.HasPrefix (Data query) "unban_" = true) as Hp by reflexivity.
  assert (strconv.ParseInt (strings.TrimPrefix (Data query) "unban_") = Ok 42) as Hi
    by (vm_compute; reflexivity).
  set (runU := unblockUser (J := RefJson) (Token demo_bot) 42
                 (set_net_faults (next_fault (net_faults banned_state)).2 banned_state)).
  pose proof (callback_unban (J := RefJson) demo_bot 100 ∅ query 42 banned_state Ha Hp Hi)
    as H.
  cbv zeta in H. fold runU in H. rewrite (triple_eta runU) in H.
  fold run in H. rewrite (triple_eta run) in H.
  destruct H as (_ & _ & Hs).
  assert (runU.1.1 = None) as He by (vm_compute; reflexivity).
  rewrite He in Hs.
  split; [exact Ha|]. split; [exact Hp|]. split; [exact Hi|].
  split; [exact Hs|]. split; vm_compute; reflexivity.
Defined.

(** ** The appeal cap *)

Lemma is_Some_alter {A} (f : A → A) (t : gmap string A) token token' :
  is_Some (alter f token t !! token') ↔ is_Some (t !! token').
Proof.
  destruct (decide (token = token')) as [->|Hne].
  - rewrite lookup_alter_eq. destruct (t !! token'); simpl; split; intros [x Hx]; eauto; done.
  - by rewrite lookup_alter_ne.
Qed.

(** X15: the appeal text at the cap.  With a store that answers, holds
    the bot's row and decodable counts, consuming an appeal text raises the
    count of the sender by one (in int64) and clears the flag; when the new
    count is 3 or more the sender is put on the blocked list (again, if an
    unban came in between) and receives the notice that the appeals are
    used up, after the text went to the operator; when it is below 3 only
    the text is sent and nobody's blocked status changes. *)
Theorem appeal_cap_reblocks `{J : EncodingJson} (HJ : JsonLaws J) bot creatorID
    appeals message s :
  let token := Token bot in
  let userID := User_ID (From message) in
  let appealForward :=
    NewMessage creatorID
      ("用户 " ++ strconv.FormatInt userID ++ " 发起申诉: " ++ Text message) in
  let count := wrapInt (appealCountOf s token userID + 1) in
  isInt64 userID →
  db_faults s = [] →
  is_Some (rows s !! token) →
  readable s token →
  let '(appeals', s', evs) := consumeAppeal bot creatorID appeals message s in
  appeals' = delete userID appeals
  ∧ appealCountOf s' token userID = count
  ∧ if bool_decide (3 <= count)
    then blockedIn s' token userID = true
         ∧ sent evs = [appealForward; noAppealMsg userID]
    else (∀ other, blockedIn s' token other = blockedIn s token other)
         ∧ sent evs = [appealForward].
Proof.
  intros token userID appealForward count Hid Hdb Hrow Hread.
  unfold consumeAppeal. fold token userID appealForward.
  unfold bind at 1. rewrite Send_result.
  set (sA := set_net_faults _ s).
  unfold bind at 1.
  destruct (when_err_logs (if (next_fault (net_faults s)).1 then Some ErrPlatform else None)
              "Failed to send appeal message to creator: %v" (λ err, [AErr err]) sA)
    as (ev2 & -> & Hs2 & _).
  unfold bind at 1. unfold log_Printf at 1. unfold emit at 1.
  destruct (incrementAppealCount_adds HJ token userID sA Hdb Hrow Hread)
    as (sI & evI & HrunI & HcountI & HdbI).
  destruct (incrementAppealCount_table token userID sA)
    as (eI & sI' & evI' & HrunI' & _ & _ & HsI & HrowsI & _).
  rewrite HrunI in HrunI'. symmetry in HrunI'. simplify_eq.
  assert (∀ other, blockedIn sI token other = blockedIn sA token other) as HblockedI.
  { intros other. apply blockedIn_rows.
    destruct HrowsI as [->|(_ & m & str & _ & _ & ->)]; [done|].
    apply column_blocked_with_appeal. }
  unfold bind at 1. rewrite HrunI.
  unfold bind at 1. simpl when_err. unfold ret at 1.
  destruct (getAppealCount_reads token userID sI) as (ev4 & Hrun4 & Hs4 & _).
  change (appealCountOf sA token userID) with (appealCountOf s token userID) in HcountI.
  fold count in HcountI.
  assert ((if (next_fault (db_faults sI)).1 then 0 else appealCountOf sI token userID)
          = count) as Hval.
  { rewrite HdbI. exact HcountI. }
  rewrite Hval in Hrun4.
  unfold bind at 1. rewrite Hrun4.
  assert (is_Some (rows sI !! token)) as HrowI.
  { destruct HrowsI as [->|(_ & m & str & _ & _ & ->)]; [done|]. by apply is_Some_alter. }
  case_bool_decide as Hcap.
  - assert (db_faults (pop_db sI) = []) as HdbP by (unfold pop_db; simpl; by rewrite HdbI).
    destruct (blockUser_blocks token userID (pop_db sI) Hid HdbP HrowI)
      as (sB & evB & HrunB & HblockedB).
    destruct (blockUser_table token userID (pop_db sI))
      as (eB & sB' & evB' & HrunB' & _ & _ & HsB & HrowsB & _).
    rewrite HrunB in HrunB'. symmetry in HrunB'. simplify_eq.
    assert (∀ token', column appeal_counts (rows sB) token'
                      = column appeal_counts (rows (pop_db sI)) token') as HcolB.
    { intros token'. destruct HrowsB as [->|(_ & _ & ->)]; [done|].
      apply column_appeal_with_blocked. }
    unfold bind at 1. unfold bind at 1. rewrite HrunB.
    unfold bind at 1. simpl when_err. unfold ret at 1.
    unfold bind at 1. rewrite Send_result.
    destruct (when_err_logs (if (next_fault (net_faults sB)).1
                             then Some ErrPlatform else None)
               "Failed to send no appeal message to user %d of bot %s : %v"
               (λ err, [AInt userID; AStr token; AErr err])
               (set_net_faults (next_fault (net_faults sB)).2 sB))
      as (ev7 & -> & Hs7 & _).
    unfold ret. simpl.
    split; [done|]. split.
    { rewrite <- HcountI. 
      transitivity (appealCountOf sB token userID).
      - by apply appealCountOf_rows.
      - apply appealCountOf_rows. apply HcolB. }
    split.
    { rewrite <- HblockedB. by apply blockedIn_rows. }
    sent_simpl. done.
  - unfold bind at 1. unfold ret. simpl.
    split; [done|]. split.
    { rewrite <- HcountI. by apply appealCountOf_rows. }
    split.
    { intros other. 
      transitivity (blockedIn sI token other); [by apply blockedIn_rows|].
      rewrite HblockedI. by apply blockedIn_rows. }
    sent_simpl. done.
Qed.

Lemma appeal_cap_reblocks_witness :
  let s :=
    (startBot (J := RefJson) demo_bot 100
       [message_update (demo_message 100 "/ban 42" [command_entity 4]);
        callback_update "appeal_42";
        message_update (demo_message 42 "one" []);
        callback_update "appeal_42";
        message_update (demo_message 42 "two" [])]
       demo_state).1.2 in
  let run := consumeAppeal (J := RefJson) demo_bot 100 {[42 := true]}
               (demo_message 42 "three" []) s in
  isInt64 42 ∧ db_faults s = [] ∧ is_Some (rows s !! "AAA")
  ∧ readable (J := RefJson) s "AAA"
  ∧ appealCountOf (J := RefJson) s "AAA" 42 = 2
  ∧ appealCountOf (J := RefJson) run.1.2 "AAA" 42 = 3
  ∧ blockedIn run.1.2 "AAA" 42 = true
  ∧ sent run.2 = [NewMessage 100 "用户 42 发起申诉: three"; noAppealMsg 42].
Proof.
  intros s run.
  assert (isInt64 (User_ID (From (demo_message 42 "three" [])))) as Hid
    by (vm_compute; intuition discriminate).
  assert (db_faults s = []) as Hdb by (vm_compute; reflexivity).
  assert (is_Some (rows s !! Token demo_bot)) as Hrow by (vm_compute; eauto).
  assert (readable (J := RefJson) s (Token demo_bot)) as Hread
    by (vm_compute; reflexivity).
  assert (appealCountOf (J := RefJson) s "AAA" 42 = 2) as Hc
    by (vm_compute; reflexivity).
  pose proof (appeal_cap_reblocks ref_laws demo_bot 100 {[42 := true]}
                (demo_message 42 "three" []) s Hid Hdb Hrow Hread) as H.
  fold run in H. rewrite (triple_eta run) in H.
  destruct H as (_ & Hcount & Hcase).
  assert (wrapInt (appealCountOf (J := RefJson) s (Token demo_bot)
                     (User_ID (From (demo_message 42 "three" []))) + 1) = 3) as Hw
    by (vm_compute; reflexivity).
  rewrite Hw in Hcount, Hcase. simpl in Hcase. destruct Hcase as [Hb Hs].
  split; [exact Hid|]. split; [exact Hdb|]. split; [exact Hrow|].
  split; [exact Hread|]. split; [exact Hc|]. split; [exact Hcount|].
  split; [exact Hb|exact Hs].
Defined.

(** ** Dispatch of plain messages and malformed commands *)

(** X16: a message of the operator that is not a command, with no appeal
    pending for the operator, is never relayed and never checked against
    the blocked list: no store call is made, the table and the flags are
    unchanged, and the only request, if any, is the reply text to the user
    named in the forwarding metadata of the replied-to message. *)
Theorem operator_plain_message `{J : EncodingJson} bot creatorID appeals message s :
  default false (appeals !! User_ID (From message)) = false →
  IsCommand message = false →
  User_ID (From message) = creatorID →
  let '(appeals', s', evs) :=
    startBot_update bot creatorID appeals (message_update message) s in
  appeals' = appeals
  ∧ rows s' = rows s ∧ db_faults s' = db_faults s
  ∧ queried evs = [] ∧ executed evs = []
  ∧ sent evs
    = match ReplyToMessage message with
      | Some replied =>
          match ForwardFrom replied with
          | Some sender => [NewMessage (User_ID sender) (Text message)]
          | None => []
          end
      | None => []
      end.
Proof.
  intros Hflag Hcmd Hop. unfold startBot_update, message_update. simpl.
  unfold bind at 1. unfold log_Printf at 1. unfold emit at 1.
  rewrite Hflag, Hcmd. simpl.
  rewrite bool_decide_eq_true_2 by done.
  unfold handleReplyMessage.
  destruct (ReplyToMessage message) as [replied|]; [|done].
  destruct (ForwardFrom replied) as [sender|]; [|done].
  unfold_prims. simpl.
  destruct (next_fault (net_faults s)) as [[] fs]; done.
Qed.

Lemma operator_plain_message_witness :
  let run m := startBot_update (J := RefJson) demo_bot 100 ∅ (message_update m)
                 banned_state in
  sent (run demo_reply).2 = [NewMessage 42 "hi"]
  ∧ sent (run (demo_message 100 "hello" [])).2 = []
  ∧ rows (run (demo_message 100 "hello" [])).1.2 = rows banned_state.
Proof.
  intros run.
  pose proof (operator_plain_message (J := RefJson) demo_bot 100 ∅ demo_reply
                banned_state eq_refl eq_refl eq_refl) as H1.
  pose proof (operator_plain_message (J := RefJson) demo_bot 100 ∅
                (demo_message 100 "hello" []) banned_state eq_refl eq_refl eq_refl)
    as H2.
  fold (run demo_reply) in H1. rewrite (triple_eta (run demo_reply)) in H1.
  fold (run (demo_message 100 "hello" [])) in H2.
  rewrite (triple_eta (run (demo_message 100 "hello" []))) in H2.
  destruct H1 as (_ & _ & _ & _ & _ & Hs1).
  destruct H2 as (_ & Hr2 & _ & _ & _ & Hs2).
  split; [exact Hs1|]. split; [exact Hs2|exact Hr2].
Defined.

(** X17: [/ban] and [/unban] without an argument, or with an argument that
    is not an int64 number, only answer the operator: the usage text of the
    command when the argument is empty, the invalid-id text otherwise.  No
    store call is made and the table is unchanged. *)
Theorem ban_unban_bad_argument `{J : EncodingJson} bot message creatorID s :
  let args := CommandArguments message in
  Command message = "ban" ∨ Command message = "unban" →
  args = EmptyString ∨ (∃ err, strconv.ParseInt args = Err err) →
  let '(_, s', evs) := handleBotCommands bot message creatorID s in
  rows s' = rows s ∧ db_faults s' = db_faults s
  ∧ queried evs = [] ∧ executed evs = []
  ∧ sent evs
    = [NewMessage creatorID
         (if bool_decide (args = EmptyString)
          then if bool_decide (Command message = "ban")
               then "请提供要封禁的 Telegram ID，例如：/ban 123456"
               else "请提供要解封的 Telegram ID，例如：/unban 123456"
          else "无效的 Telegram ID")].
Proof.
  intros args Hcmd Hargs. unfold handleBotCommands. fold args.
  assert (∀ c, (let '(_, s', evs) := bind (Send bot c) (λ _, ret tt) s in
                rows s' = rows s ∧ db_faults s' = db_faults s
                ∧ queried evs = [] ∧ executed evs = [] ∧ sent evs = [c])) as Hsend.
  { intros c. unfold bind. rewrite Send_result. simpl. done. }
  destruct Hcmd as [Hcmd|Hcmd]; rewrite Hcmd; simpl.
  - case_bool_decide as Hempty; [apply Hsend|].
    destruct Hargs as [?|[err ->]]; [done|]. apply Hsend.
  - case_bool_decide as Hempty; [apply Hsend|].
    destruct Hargs as [?|[err ->]]; [done|]. apply Hsend.
Qed.

Lemma ban_unban_bad_argument_witness :
  let run text len := handleBotCommands (J := RefJson) demo_bot
                        (demo_message 100 text [command_entity len]) 100 demo_state in
  sent (run "/ban" 4%nat).2
  = [NewMessage 100 "请提供要封禁的 Telegram ID，例如：/ban 123456"]
  ∧ sent (run "/unban 4x2" 6%nat).2 = [NewMessage 100 "无效的 Telegram ID"]
  ∧ rows (run "/unban 4x2" 6%nat).1.2 = rows demo_state.
Proof.
  intros run.
  pose proof (ban_unban_bad_argument (J := RefJson) demo_bot
                (demo_message 100 "/ban" [command_entity 4]) 100 demo_state
                (or_introl eq_refl) (or_introl eq_refl)) as H1.
  pose proof (ban_unban_bad_argument (J := RefJson) demo_bot
                (demo_message 100 "/unban 4x2" [command_entity 6]) 100 demo_state
                (or_intror eq_refl) (or_intror (ex_intro _ ErrNum eq_refl))) as H2.
  fold (run "/ban" 4%nat) in H1. rewrite (triple_eta (run "/ban" 4%nat)) in H1.
  fold (run "/unban 4x2" 6%nat) in H2. rewrite (triple_eta (run "/unban 4x2" 6%nat)) in H2.
  destruct H1 as (_ & _ & _ & _ & Hs1).
  destruct H2 as (Hr2 & _ & _ & _ & Hs2).
  split; [exact Hs1|]. split; [exact Hs2|exact Hr2].
Defined.

(** ** Registration and removal *)

(** What [AddBot] does once the platform has accepted the credential. *)
Lemma AddBot_accepted token creatorID s :
  answers (net_faults s) →
  ∃ e s' evs, AddBot token creatorID s = (e, s', evs)
    ∧ bots s' = <[token := {| Token := token |}]> (bots s)
    ∧ creator s' = <[token := creatorID]> (creator s)
    ∧ net_faults s' = (next_fault (net_faults s)).2
    ∧ spawned evs = [({| Token := token |}, creatorID)]
    ∧ sent evs = []
    ∧ (rows s' = rows s
       ∨ (e = None ∧ rows s !! token = None
          ∧ rows s' = <[token := fresh_row creatorID]> (rows s)))
    ∧ (e ≠ None → rows s' = rows s)
    ∧ (answers (db_faults s) → is_Some (rows s !! token) →
       e = None ∧ rows s' = rows s ∧ db_faults s' = (next_fault (db_faults s)).2)
    ∧ (answers (db_faults s) → answers (next_fault (db_faults s)).2 →
       rows s !! token = None →
       e = None ∧ rows s' = <[token := fresh_row creatorID]> (rows s)
       ∧ db_faults s' = (next_fault (next_fault (db_faults s)).2).2).
Proof.
  unfold AddBot, answers. intros Hnet. unfold_prims. simpl.
  destruct (next_fault (net_faults s)) as [[] fs]; simpl in *; [discriminate Hnet|].
  destruct (next_fault (db_faults s)) as [[] fs1]; simpl.
  { do 3 eexists. split; [reflexivity|]. simpl.
    repeat split; auto; try done; try (by left). }
  destruct (rows s !! token) as [r|] eqn:Hr; simpl.
  { do 3 eexists. split; [reflexivity|]. simpl.
    repeat split; auto; try done; try (by left). }
  destruct (next_fault fs1) as [[] fs2]; simpl; rewrite ?Hr; simpl.
  { do 3 eexists. split; [reflexivity|]. simpl.
    repeat split; auto; try done; try (by left); try (intros _ [? ?]; done). }
  do 3 eexists. split; [reflexivity|]. simpl.
  repeat split; auto; try done; try (intros _ [? ?]; done).
Qed.

Lemma blockedIn_fresh s token creatorID userID :
  rows s !! token = Some (fresh_row creatorID) → blockedIn s token userID = false.
Proof. intros Hr. unfold blockedIn, column. by rewrite Hr. Qed.

Lemma appealCountOf_fresh `{J : EncodingJson} s token creatorID userID :
  rows s !! token = Some (fresh_row creatorID) → appealCountOf s token userID = 0.
Proof. intros Hr. unfold appealCountOf, column. by rewrite Hr. Qed.

(** X18: [AddBot] for a token without a stored row, with calls that
    answer: it returns nil, inserts the row with the creator and two empty
    columns by one INSERT, binds the token in both registry maps and starts
    one worker; on the new bot nobody is blocked and every appeal count
    is 0. *)
Theorem AddBot_new_token `{J : EncodingJson} token creatorID s :
  rows s !! token = None →
  answers (net_faults s) →
  answers (db_faults s) →
  answers (next_fault (db_faults s)).2 →
  let '(e, s', evs) := AddBot token creatorID s in
  e = None
  ∧ rows s' = <[token := fresh_row creatorID]> (rows s)
  ∧ bots s' = <[token := {| Token := token |}]> (bots s)
  ∧ creator s' = <[token := creatorID]> (creator s)
  ∧ spawned evs = [({| Token := token |}, creatorID)]
  ∧ executed evs = [q_insert]
  ∧ (∀ userID, blockedIn s' token userID = false
               ∧ appealCountOf s' token userID = 0).
Proof.
  intros Hr Hnet Hdb1 Hdb2.
  destruct (AddBot_accepted token creatorID s Hnet)
    as (e & s' & evs & Hrun & Hbots & Hcr & _ & Hsp & _ & _ & _ & _ & Hnew).
  destruct (Hnew Hdb1 Hdb2 Hr) as (-> & Hrows & _).
  rewrite Hrun. split; [done|]. split; [done|]. split; [done|]. split; [done|].
  split; [done|]. split.
  { revert Hrun. unfold AddBot, answers in *. unfold_prims. simpl.
    destruct (next_fault (net_faults s)) as [[] fs]; simpl in *; [discriminate Hnet|].
    destruct (next_fault (db_faults s)) as [[] fs1]; simpl in *; [discriminate Hdb1|].
    rewrite Hr. simpl.
    destruct (next_fault fs1) as [[] fs2]; simpl in *; [discriminate Hdb2|].
    rewrite Hr. simpl. by intros [= _ <-]. }
  intros userID.
  assert (rows s' !! token = Some (fresh_row creatorID)) as Hfresh
    by (by rewrite Hrows, lookup_insert_eq).
  split; [by apply (blockedIn_fresh _ _ creatorID)|by apply (appealCountOf_fresh _ _ creatorID)].
Qed.

Lemma AddBot_new_token_witness :
  let run := AddBot "BBB" 5 demo_state in
  rows demo_state !! "BBB" = None
  ∧ run.1.1 = None
  ∧ rows run.1.2 !! "BBB" = Some (fresh_row 5)
  ∧ rows run.1.2 !! "AAA" = Some demo_row
  ∧ creator run.1.2 !! "BBB" = Some 5
  ∧ spawned run.2 = [({| Token := "BBB" |}, 5)].
Proof.
  intros run.
  assert (rows demo_state !! "BBB" = None) as Hr by (vm_compute; reflexivity).
  pose proof (AddBot_new_token (J := RefJson) "BBB" 5 demo_state Hr
                eq_refl eq_refl eq_refl) as H.
  fold run in H. rewrite (triple_eta run) in H.
  destruct H as (He & Hrows & _ & Hcr & Hsp & _).
  split; [exact Hr|]. split; [exact He|].
  split; [rewrite Hrows; vm_compute; reflexivity|].
  split; [rewrite Hrows; vm_compute; reflexivity|].
  split; [rewrite Hcr; vm_compute; reflexivity|exact Hsp].
Defined.

(** X19: once the platform has accepted the credential, [AddBot] has
    registered the bot whatever the store does afterwards: the token is
    bound in both registry maps (the creator map to the creator passed in)
    and one worker is started, also when the call returns a store error;
    in that case the table is unchanged.  A stored row of the token is
    never overwritten, and no other row changes. *)
Theorem AddBot_registers_despite_store token creatorID s :
  answers (net_faults s) →
  let '(e, s', evs) := AddBot token creatorID s in
  bots s' = <[token := {| Token := token |}]> (bots s)
  ∧ creator s' = <[token := creatorID]> (creator s)
  ∧ spawned evs = [({| Token := token |}, creatorID)]
  ∧ (e ≠ None → rows s' = rows s)
  ∧ (∀ r, rows s !! token = Some r → rows s' !! token = Some r)
  ∧ (∀ token', token' ≠ token → rows s' !! token' = rows s !! token').
Proof.
  intros Hnet.
  destruct (AddBot_accepted token creatorID s Hnet)
    as (e & s' & evs & -> & Hbots & Hcr & _ & Hsp & _ & Hrows & Hfail & _).
  split; [done|]. split; [done|]. split; [done|]. split; [done|].
  split.
  - intros r Hr. destruct Hrows as [->|(_ & Hnone & _)]; [done|congruence].
  - intros token' Hne. destruct Hrows as [->|(_ & _ & ->)]; [done|].
    by rewrite lookup_insert_ne.
Qed.

Lemma AddBot_registers_despite_store_witness :
  let s := set_db_faults [true] demo_state in
  let run := AddBot "BBB" 5 s in
  answers (net_faults s)
  ∧ run.1.1 = Some ErrStore
  ∧ rows run.1.2 !! "BBB" = None
  ∧ bots run.1.2 !! "BBB" = Some {| Token := "BBB" |}
  ∧ creator run.1.2 !! "BBB" = Some 5
  ∧ spawned run.2 = [({| Token := "BBB" |}, 5)].
Proof.
  intros s run.
  assert (answers (net_faults s)) as Hnet by reflexivity.
  pose proof (AddBot_registers_despite_store "BBB" 5 s Hnet) as H.
  fold run in H. rewrite (triple_eta run) in H.
  destruct H as (Hbots & Hcr & Hsp & _).
  split; [exact Hnet|]. split; [vm_compute; reflexivity|].
  split; [vm_compute; reflexivity|].
  split; [rewrite Hbots; apply lookup_insert_eq|].
  split; [rewrite Hcr; apply lookup_insert_eq|exact Hsp].
Defined.

(** X20: [DeleteBot] removes the token from both registry maps in every
    case; the stored row is removed exactly when the DELETE answers, and is
    kept when it fails; the entries of every other token, stored and in
    memory, are unchanged; after a DELETE that answered nobody is blocked
    on the token and every appeal count is 0; nothing is sent and no worker
    is started. *)
Theorem DeleteBot_effect `{J : EncodingJson} token s :
  let '(_, s', evs) := DeleteBot token s in
  bots s' = delete token (bots s)
  ∧ creator s' = delete token (creator s)
  ∧ rows s' = (if (next_fault (db_faults s)).1 then rows s else delete token (rows s))
  ∧ (∀ token', token' ≠ token →
       rows s' !! token' = rows s !! token'
       ∧ bots s' !! token' = bots s !! token'
       ∧ creator s' !! token' = creator s !! token')
  ∧ (answers (db_faults s) → ∀ userID,
       blockedIn s' token userID = false ∧ appealCountOf s' token userID = 0)
  ∧ sent evs = [] ∧ spawned evs = [].
Proof.
  unfold DeleteBot, answers. unfold_prims. simpl.
  destruct (next_fault (db_faults s)) as [[] fs]; simpl.
  - split; [done|]. split; [done|]. split; [done|]. split; [|done].
    intros token' Hne. by rewrite !lookup_delete_ne.
  - split; [done|]. split; [done|]. split; [done|]. split.
    { intros token' Hne. by rewrite !lookup_delete_ne. }
    split; [|done]. intros _ userID. split.
    + apply blockedIn_missing. simpl. apply lookup_delete_eq.
    + apply appealCountOf_missing. simpl. apply lookup_delete_eq.
Qed.

Lemma DeleteBot_effect_witness :
  let run := DeleteBot "AAA" banned_state in
  answers (db_faults banned_state)
  ∧ blockedIn banned_state "AAA" 42 = true
  ∧ blockedIn run.1.2 "AAA" 42 = false
  ∧ appealCountOf (J := RefJson) run.1.2 "AAA" 42 = 0
  ∧ bots run.1.2 = delete "AAA" (bots banned_state).
Proof.
  intros run.
  assert (answers (db_faults banned_state)) as Ha by (vm_compute; reflexivity).
  pose proof (DeleteBot_effect (J := RefJson) "AAA" banned_state) as H.
  fold run in H. rewrite (triple_eta run) in H.
  destruct H as (Hbots & _ & _ & _ & Hclean & _).
  split; [exact Ha|]. split; [vm_compute; reflexivity|].
  split; [exact (proj1 (Hclean Ha 42))|].
  split; [exact (proj2 (Hclean Ha 42))|exact Hbots].
Defined.

(** What [DeleteBot] does. *)
Lemma DeleteBot_run token s :
  ∃ evs, DeleteBot token s
         = (tt,
            set_rows (λ t, if (next_fault (db_faults s)).1 then t else delete token t)
              (set_db_faults (next_fault (db_faults s)).2
                 (set_creator (delete token) (set_bots (delete token) s))),
            evs)
    ∧ sent evs = [] ∧ spawned evs = []
    ∧ executed evs = [q_delete].
Proof.
  unfold DeleteBot. unfold_prims. simpl.
  destruct (next_fault (db_faults s)) as [[] fs]; simpl; by eexists.
Qed.

(** X21: with calls that answer, [DeleteBot] followed by [AddBot] of the
    same token gives a new row: the call returns nil, the row holds the new
    creator and two empty columns, so the bans and appeal counts of the
    deleted bot are gone. *)
Theorem DeleteBot_then_AddBot `{J : EncodingJson} token creatorID s :
  db_faults s = [] →
  net_faults s = [] →
  let '(_, s1, _) := DeleteBot token s in
  let '(e, s2, evs) := AddBot token creatorID s1 in
  e = None
  ∧ rows s2 = <[token := fresh_row creatorID]> (rows s)
  ∧ creator s2 !! token = Some creatorID
  ∧ (∀ userID, blockedIn s2 token userID = false
               ∧ appealCountOf s2 token userID = 0).
Proof.
  intros Hdb Hnet.
  destruct (DeleteBot_run token s) as (evs1 & -> & _).
  rewrite Hdb. simpl next_fault. cbv beta iota.
  set (s1 := set_rows _ _).
  assert (rows s1 !! token = None) as Hr1 by (simpl; apply lookup_delete_eq).
  destruct (AddBot_accepted token creatorID s1)
    as (e & s2 & evs & -> & _ & Hcr & _ & _ & _ & _ & _ & _ & Hnew).
  { unfold answers. simpl. by rewrite Hnet. }
  destruct Hnew as (-> & Hrows & _); [done|done|done|].
  split; [done|]. split.
  { rewrite Hrows. simpl. apply insert_delete_eq. }
  split; [by rewrite Hcr, lookup_insert_eq|].
  intros userID.
  assert (rows s2 !! token = Some (fresh_row creatorID)) as Hfresh
    by (by rewrite Hrows, lookup_insert_eq).
  split; [by apply (blockedIn_fresh _ _ creatorID)|by apply (appealCountOf_fresh _ _ creatorID)].
Qed.

Lemma DeleteBot_then_AddBot_witness :
  let s1 := (DeleteBot "AAA" banned_state).1.2 in
  let s2 := (AddBot "AAA" 100 s1).1.2 in
  db_faults banned_state = [] ∧ net_faults banned_state = []
  ∧ blockedIn banned_state "AAA" 42 = true
  ∧ blockedIn s2 "AAA" 42 = false
  ∧ appealCountOf (J := RefJson) s2 "AAA" 42 = 0
  ∧ blockedIn (AddBot "AAA" 100 banned_state).1.2 "AAA" 42 = true.
Proof.
  intros s1 s2.
  assert (db_faults banned_state = []) as Hdb by (vm_compute; reflexivity).
  assert (net_faults banned_state = []) as Hnet by (vm_compute; reflexivity).
  pose proof (DeleteBot_then_AddBot (J := RefJson) "AAA" 100 banned_state Hdb Hnet) as H.
  rewrite (triple_eta (DeleteBot "AAA" banned_state)) in H. fold s1 in H.
  rewrite (triple_eta (AddBot "AAA" 100 s1)) in H. fold s2 in H.
  destruct H as (_ & _ & _ & Hclean).
  split; [exact Hdb|]. split; [exact Hnet|].
  split; [vm_compute; reflexivity|].
  split; [exact (proj1 (Hclean 42))|].
  split; [exact (proj2 (Hclean 42))|]. vm_compute. reflexivity.
Defined.

(** ** The manager process *)

(** [AddBot] for a token the table holds, whatever the calls do. *)
Lemma AddBot_stored token creatorID s :
  is_Some (rows s !! token) →
  ∃ e s' evs, AddBot token creatorID s = (e, s', evs)
    ∧ rows s' = rows s ∧ executed evs = [] ∧ sent evs = []
    ∧ (db_faults s = [] → db_faults s' = [])
    ∧ (net_faults s = [] → net_faults s' = [])
    ∧ (net_faults s = [] →
       bots s' = <[token := {| Token := token |}]> (bots s)
       ∧ creator s' = <[token := creatorID]> (creator s)
       ∧ spawned evs = [({| Token := token |}, creatorID)]).
Proof.
  intros [r Hr]. unfold AddBot. unfold_prims. simpl.
  destruct (net_faults s) as [|[] fs] eqn:Hnet; simpl.
  - destruct (db_faults s) as [|[] fs1] eqn:Hdb; simpl; rewrite ?Hr; simpl;
      do 3 eexists; (split; [reflexivity|]); simpl; repeat split; auto; done.
  - do 3 eexists. split; [reflexivity|]. simpl. repeat split; auto; done.
  - destruct (db_faults s) as [|[] fs1] eqn:Hdb; simpl; rewrite ?Hr; simpl;
      do 3 eexists; (split; [reflexivity|]); simpl; repeat split; auto; done.
Qed.

Lemma for_range_cons {A S} (body : S → A → M S) acc x xs s :
  for_range body acc (x :: xs) s
  = let '(acc', s1, e1) := body acc x s in
    let '(r, s2, e2) := for_range body acc' xs s1 in
    (r, s2, (e1 ++ e2)%list).
Proof. reflexivity. Qed.

(** The load loop of [main] never writes to the table. *)
Lemma main_load_rows (l : list (string * Z)) s :
  (∀ row, row ∈ l → is_Some (rows s !! row.1)) →
  ∃ s' evs, for_range main_load_row tt l s = (tt, s', evs)
    ∧ rows s' = rows s ∧ executed evs = [] ∧ sent evs = [].
Proof.
  revert s. induction l as [|[token creatorID] l IH]; intros s Hl.
  { by exists s, []. }
  rewrite for_range_cons. unfold main_load_row at 1.
  destruct (AddBot_stored token creatorID s) as (e & s1 & ev1 & Hrun & Hrows1 & Hx1 & Hs1 & _).
  { apply (Hl (token, creatorID)). by left. }
  unfold bind at 1. rewrite Hrun.
  destruct (IH s1) as (s2 & ev2 & Hrun2 & Hrows2 & Hx2 & Hs2).
  { intros row Hin. rewrite Hrows1. apply Hl. by right. }
  destruct e as [err|]; unfold log_Printf, emit; simpl; rewrite Hrun2;
    (do 2 eexists; split; [reflexivity|]);
    rewrite ?executed_app, ?sent_app, ?Hx1, ?Hs1, ?Hx2, ?Hs2; simpl;
    (split; [congruence|]); rewrite ?executed_app, ?sent_app, ?Hx1, ?Hs1, ?Hx2, ?Hs2;
    done.
Qed.

(** The load loop when every call answers. *)
Lemma main_load_healthy (l : list (string * Z)) s :
  net_faults s = [] →
  db_faults s = [] →
  (∀ row, row ∈ l → is_Some (rows s !! row.1)) →
  ∃ s' evs, for_range main_load_row tt l s = (tt, s', evs)
    ∧ rows s' = rows s ∧ net_faults s' = [] ∧ db_faults s' = []
    ∧ bots s' = foldl (λ m row, <[row.1 := {| Token := row.1 |}]> m) (bots s) l
    ∧ creator s' = foldl (λ m row, <[row.1 := row.2]> m) (creator s) l
    ∧ spawned evs = (λ row, ({| Token := row.1 |}, row.2)) <$> l.
Proof.
  revert s. induction l as [|[token creatorID] l IH]; intros s Hnet Hdb Hl.
  { by exists s, []. }
  rewrite for_range_cons. unfold main_load_row at 1.
  destruct (AddBot_stored token creatorID s)
    as (e & s1 & ev1 & Hrun & Hrows1 & _ & _ & Hdb1 & Hnet1 & Hreg).
  { apply (Hl (token, creatorID)). by left. }
  destruct (Hreg Hnet) as (Hbots1 & Hcr1 & Hsp1).
  unfold bind at 1. rewrite Hrun.
  destruct (IH s1 (Hnet1 Hnet) (Hdb1 Hdb))
    as (s2 & ev2 & Hrun2 & Hrows2 & Hnet2 & Hdb2 & Hbots2 & Hcr2 & Hsp2).
  { intros row Hin. rewrite Hrows1. apply Hl. by right. }
  destruct e as [err|]; unfold log_Printf, emit; simpl; rewrite Hrun2;
    (do 2 eexists; split; [reflexivity|]);
    rewrite Hbots2, Hcr2, Hbots1, Hcr1, !spawned_app, Hsp1, Hsp2; simpl;
    (split; [congruence|]); done.
Qed.

Lemma foldl_insert_lookup {V} (f : string * Z → V) (l : list (string * Z))
    (m0 : gmap string V) k :
  NoDup l.*1 →
  (∀ row, row ∈ l → row.1 = k →
     foldl (λ m row, <[row.1 := f row]> m) m0 l !! k = Some (f row))
  ∧ (k ∉ l.*1 → foldl (λ m row, <[row.1 := f row]> m) m0 l !! k = m0 !! k).
Proof.
  revert m0. induction l as [|x l IH]; intros m0 Hnd.
  { split; [intros row Hin; by apply elem_of_nil in Hin|done]. }
  apply NoDup_cons in Hnd as [Hx Hnd]. simpl.
  destruct (IH (<[x.1 := f x]> m0) Hnd) as [IH1 IH2]. split.
  - intros row Hin Hk. apply elem_of_cons in Hin as [->|Hin]; [|by apply IH1].
    rewrite IH2 by (by rewrite <- Hk). by rewrite Hk, lookup_insert_eq.
  - intros Hk. apply not_elem_of_cons in Hk as [Hne Hk].
    rewrite IH2 by done. by rewrite lookup_insert_ne.
Qed.

(** X22: startup of [main] with calls that answer: it runs the CREATE
    TABLE statement and nothing else that writes, leaves the table as it
    is, sends nothing, and restores the registry from the stored rows: a
    token is bound in the maps exactly when it has a row, the creator map
    holds the stored creator, and one worker is started per row with the
    stored creator.  The manager's updates are then processed from that
    state. *)
Theorem main_startup_restores (Error : error → string) managerToken s :
  net_faults s = [] →
  db_faults s = [] →
  ∃ s0 evs0,
    (∀ updates,
       main Error managerToken updates s
       = let '(u, s', evs) :=
           for_range (main_update Error {| Token := managerToken |}) tt updates s0 in
         (u, s', (evs0 ++ evs)%list))
    ∧ rows s0 = rows s
    ∧ (∀ token, bots s0 !! token = (λ _, {| Token := token |}) <$> rows s !! token)
    ∧ (∀ token, creator s0 !! token = creator_id <$> rows s !! token)
    ∧ spawned evs0
      = (λ kv : string * BotRow, ({| Token := kv.1 |}, creator_id kv.2))
          <$> map_to_list (rows s)
    ∧ sent evs0 = [] ∧ executed evs0 = [q_create_table].
Proof.
  intros Hnet Hdb.
  set (l := (λ kv : string * BotRow, (kv.1, creator_id kv.2)) <$> map_to_list (rows s)).
  set (sQ := set_creator (λ _, ∅) (set_bots (λ _, ∅) s)).
  destruct (main_load_healthy l sQ Hnet Hdb)
    as (s0 & evL & HrunL & Hrows & _ & _ & Hbots & Hcr & Hsp).
  { intros row Hin. apply list_elem_of_fmap in Hin as ([k r] & -> & Hin).
    apply elem_of_map_to_list in Hin. simpl. eauto. }
  assert (NoDup l.*1) as Hnd.
  { subst l. rewrite <- list_fmap_compose.
    apply (NoDup_fst_map_to_list (rows s)). }
  assert (∀ token r, rows s !! token = Some r → (token, creator_id r) ∈ l) as Hin.
  { intros token r Hr. subst l. apply list_elem_of_fmap.
    exists (token, r). split; [done|]. by apply elem_of_map_to_list. }
  assert (∀ token, rows s !! token = None → token ∉ l.*1) as Hout.
  { intros token Hr Hel. apply list_elem_of_fmap in Hel as ([k c] & -> & Hel).
    subst l. apply list_elem_of_fmap in Hel as ([k' r] & [= -> ->] & Hel).
    apply elem_of_map_to_list in Hel. simpl in Hr. congruence. }
  exists s0,
    ([NetNewBotAPI managerToken;
      Log "Manager bot created successfully." [];
      Log "Database connection established." [];
      SqlExec q_create_table [];
      Log "Database table 'bots' created or already exists." [];
      Log "Bot manager initialized." [];
      Log "Loading existing bots from the database..." [];
      SqlQuery q_select_bots []]
     ++ evL
     ++ [Log "Existing bots loaded from database." [];
         Log "Manager bot started listening for updates." []])%list.
  split; [|split; [exact Hrows|]].
  - intros updates. unfold main, Exec_create_table, Query_bots, NewBotManager.
    unfold_prims. simpl. rewrite Hnet. simpl. rewrite Hdb. simpl.
    fold l.
    match goal with
    | |- context [for_range main_load_row () l ?st] =>
        assert (st = sQ) as ->
          by (subst sQ; destruct s; simpl in *; subst; reflexivity)
    end.
    rewrite HrunL.
    destruct (for_range _ tt updates s0) as [[u s'] evs].
    rewrite <- !app_assoc. reflexivity.
  - split.
    { intros token. rewrite Hbots.
      destruct (foldl_insert_lookup (λ row, {| Token := row.1 |}) l (bots sQ) token Hnd)
        as [Hl1 Hl2].
      destruct (rows s !! token) as [r|] eqn:Hr.
      - by rewrite (Hl1 _ (Hin _ _ Hr) eq_refl).
      - by rewrite (Hl2 (Hout _ Hr)). }
    split.
    { intros token. rewrite Hcr.
      destruct (foldl_insert_lookup (λ row, row.2) l (creator sQ) token Hnd)
        as [Hl1 Hl2].
      destruct (rows s !! token) as [r|] eqn:Hr.
      - by rewrite (Hl1 _ (Hin _ _ Hr) eq_refl).
      - by rewrite (Hl2 (Hout _ Hr)). }
    split.
    { rewrite !spawned_app, Hsp. simpl. subst l. rewrite <- list_fmap_compose.
      by rewrite app_nil_r. }
    split.
    + rewrite !sent_app. simpl.
      destruct (main_load_rows l sQ) as (s0' & evL' & HrunL' & _ & _ & HsL).
      { intros row Hel. apply list_elem_of_fmap in Hel as ([k r] & -> & Hel).
        apply elem_of_map_to_list in Hel. simpl. eauto. }
      rewrite HrunL in HrunL'. simplify_eq. by rewrite HsL.
    + rewrite !executed_app. simpl.
      destruct (main_load_rows l sQ) as (s0' & evL' & HrunL' & _ & HxL & _).
      { intros row Hel. apply list_elem_of_fmap in Hel as ([k r] & -> & Hel).
        apply elem_of_map_to_list in Hel. simpl. eauto. }
      rewrite HrunL in HrunL'. simplify_eq. by rewrite HxL.
Qed.

Lemma main_startup_restores_witness :
  let run := main (λ _, "error") "MMM" [] banned_state in
  net_faults banned_state = [] ∧ db_faults banned_state = []
  ∧ rows run.1.2 = rows banned_state
  ∧ bots run.1.2 !! "AAA" = Some demo_bot
  ∧ creator run.1.2 !! "AAA" = Some 100
  ∧ spawned run.2 = [(demo_bot, 100)]
  ∧ blockedIn run.1.2 "AAA" 42 = true.
Proof.
  intros run.
  assert (net_faults banned_state = []) as Hnet by (vm_compute; reflexivity).
  assert (db_faults banned_state = []) as Hdb by (vm_compute; reflexivity).
  destruct (main_startup_restores (λ _, "error") "MMM" banned_state Hnet Hdb)
    as (s0 & evs0 & Hrun & Hrows & Hbots & Hcr & Hsp & _).
  specialize (Hrun []). simpl in Hrun. fold run in Hrun.
  split; [exact Hnet|]. split; [exact Hdb|].
  rewrite Hrun. simpl. rewrite app_nil_r.
  split; [exact Hrows|].
  split; [rewrite Hbots; vm_compute; reflexivity|].
  split; [rewrite Hcr; vm_compute; reflexivity|].
  split; [rewrite Hsp; vm_compute; reflexivity|].
  unfold blockedIn. rewrite Hrows. vm_compute. reflexivity.
Defined.

(** X23: whatever fails, the startup of [main] does not change the table
    and sends nothing; the only statement that can write is the CREATE
    TABLE.  Either the process ends there (a fatal log line), whatever
    updates are waiting, or the manager's updates are processed from a
    state with the same table. *)
Theorem main_startup_keeps_table (Error : error → string) managerToken s :
  ∃ s0 evs0,
    rows s0 = rows s
    ∧ sent evs0 = []
    ∧ (executed evs0 = [] ∨ executed evs0 = [q_create_table])
    ∧ ((∀ updates, main Error managerToken updates s = (tt, s0, evs0))
       ∨ (∀ updates,
            main Error managerToken updates s
            = let '(u, s', evs) :=
                for_range (main_update Error {| Token := managerToken |}) tt updates s0 in
              (u, s', (evs0 ++ evs)%list))).
Proof.
  unfold main, Exec_create_table, Query_bots, NewBotManager.
  unfold_prims. simpl.
  destruct (next_fault (net_faults s)) as [[] fs] eqn:Hnet; simpl.
  { do 2 eexists. split; [|split; [|split; [|left; intros; reflexivity]]];
      [done|done|by left]. }
  destruct (next_fault (db_faults s)) as [[] fs1] eqn:Hdb1; simpl.
  { do 2 eexists. split; [|split; [|split; [|left; intros; reflexivity]]];
      [done|done|by right]. }
  destruct (next_fault fs1) as [[] fs2] eqn:Hdb2; simpl.
  { do 2 eexists. split; [|split; [|split; [|left; intros; reflexivity]]];
      [done|done|by right]. }
  set (l := (λ kv : string * BotRow, (kv.1, creator_id kv.2)) <$> map_to_list (rows s)).
  match goal with
  | |- context [for_range main_load_row () l ?st] => set (sQ := st)
  end.
  destruct (main_load_rows l sQ) as (s0 & evL & HrunL & Hrows & HxL & HsL).
  { intros row Hel. apply list_elem_of_fmap in Hel as ([k r] & -> & Hel).
    apply elem_of_map_to_list in Hel. simpl. eauto. }
  exists s0,
    ([NetNewBotAPI managerToken;
      Log "Manager bot created successfully." [];
      Log "Database connection established." [];
      SqlExec q_create_table [];
      Log "Database table 'bots' created or already exists." [];
      Log "Bot manager initialized." [];
      Log "Loading existing bots from the database..." [];
      SqlQuery q_select_bots []]
     ++ evL
     ++ [Log "Existing bots loaded from database." [];
         Log "Manager bot started listening for updates." []])%list.
  split; [exact Hrows|]. split.
  { rewrite !sent_app, HsL. done. }
  split.
  { right. rewrite !executed_app, HxL. done. }
  right. intros updates. rewrite HrunL.
  destruct (for_range _ tt updates s0) as [[u s'] evs].
  rewrite <- !app_assoc. reflexivity.
Qed.

(** X24: when the platform rejects the manager's credential, or the CREATE
    TABLE statement fails, [main] ends before it loads or serves anything:
    no worker is started, nothing is sent, no query is run, and the table
    and the registry maps are as before, whatever updates are waiting. *)
Theorem main_fatal (Error : error → string) managerToken updates s :
  (next_fault (net_faults s)).1 = true ∨ (next_fault (db_faults s)).1 = true →
  let '(_, s', evs) := main Error managerToken updates s in
  rows s' = rows s ∧ bots s' = bots s ∧ creator s' = creator s
  ∧ spawned evs = [] ∧ sent evs = [] ∧ queried evs = [].
Proof.
  intros Hf. unfold main, Exec_create_table, Query_bots, NewBotManager.
  unfold_prims. simpl.
  destruct (next_fault (net_faults s)) as [[] fs] eqn:Hnet; simpl; [done|].
  destruct (next_fault (db_faults s)) as [[] fs1] eqn:Hdb1; simpl; [done|].
  simpl in Hf. by destruct Hf.
Qed.

Lemma main_fatal_witness :
  let s := set_db_faults [true] banned_state in
  let run := main (λ _, "error") "MMM"
               [message_update (demo_message 5 "/newbot BBB" [command_entity 7])] s in
  ((next_fault (net_faults s)).1 = true ∨ (next_fault (db_faults s)).1 = true)
  ∧ rows run.1.2 = rows s ∧ spawned run.2 = [] ∧ sent run.2 = [].
Proof.
  intros s run.
  assert ((next_fault (net_faults s)).1 = true ∨ (next_fault (db_faults s)).1 = true)
    as Hf by (right; reflexivity).
  pose proof (main_fatal (λ _, "error") "MMM"
                [message_update (demo_message 5 "/newbot BBB" [command_entity 7])] s Hf)
    as H.
  fold run in H. rewrite (triple_eta run) in H.
  destruct H as (Hr & _ & _ & Hsp & Hs & _).
  split; [exact Hf|]. split; [exact Hr|]. split; [exact Hsp|exact Hs].
Defined.

(** ** The commands of the manager bot *)

Lemma AddBot_sent token creatorID s : sent (AddBot token creatorID s).2 = [].
Proof.
  unfold AddBot. unfold_prims. simpl.
  destruct (next_fault (net_faults s)) as [[] fs]; simpl; [done|].
  destruct (next_fault (db_faults s)) as [[] fs1]; simpl; [done|].
  case_bool_decide; simpl; [done|].
  destruct (next_fault fs1) as [[] fs2]; simpl; [done|].
  by destruct (rows s !! token).
Qed.

(** X25: the manager command [newbot] runs [AddBot] with the command's
    argument as token and the chat of the message as creator, and answers
    into that chat: the success text when [AddBot] returned nil, the
    failure text followed by the error's text otherwise.  The table, the
    registry and the workers started are those of [AddBot]. *)
Theorem newbot_command (Error : error → string) managerBot message s :
  IsCommand message = true →
  Command message = "newbot" →
  let chatID := Chat_ID (Message_Chat message) in
  let '(e, sA, evA) := AddBot (CommandArguments message) chatID s in
  let '(_, s', evs) := main_update Error managerBot tt (message_update message) s in
  rows s' = rows sA ∧ bots s' = bots sA ∧ creator s' = creator sA
  ∧ spawned evs = spawned evA
  ∧ sent evs
    = [NewMessage chatID
         match e with
         | Some err => "Failed to create new bot: " ++ Error err
         | None => "New bot created successfully!"
         end].
Proof.
  intros Hcmd Hnew chatID.
  unfold main_update, message_update. simpl. rewrite Hcmd, Hnew. simpl.
  unfold bind at 1. unfold log_Printf at 1. unfold emit at 1.
  fold chatID. unfold bind at 1.
  pose proof (AddBot_sent (CommandArguments message) chatID s) as HsA.
  destruct (AddBot (CommandArguments message) chatID s) as [[e sA] evA].
  simpl in HsA.
  destruct e as [err|]; unfold_prims; simpl;
    destruct (next_fault (net_faults sA)) as [[] fs]; simpl;
    rewrite ?spawned_app, ?sent_app, ?HsA; simpl; rewrite ?app_nil_r; done.
Qed.

Lemma newbot_command_witness :
  let run s := main_update (λ _, "error") {| Token := "MMM" |} tt
                 (message_update (demo_message 5 "/newbot BBB" [command_entity 7])) s in
  sent (run demo_state).2 = [NewMessage 5 "New bot created successfully!"]
  ∧ creator (run demo_state).1.2 !! "BBB" = Some 5
  ∧ sent (run (set_net_faults [true] demo_state)).2
    = [NewMessage 5 "Failed to create new bot: error"]
  ∧ rows (run (set_net_faults [true] demo_state)).1.2 = rows demo_state.
Proof.
  intros run.
  pose proof (newbot_command (λ _, "error") {| Token := "MMM" |}
                (demo_message 5 "/newbot BBB" [command_entity 7]) demo_state
                eq_refl eq_refl) as H1.
  pose proof (newbot_command (λ _, "error") {| Token := "MMM" |}
                (demo_message 5 "/newbot BBB" [command_entity 7])
                (set_net_faults [true] demo_state) eq_refl eq_refl) as H2.
  cbv zeta in H1, H2.
  rewrite (triple_eta (AddBot _ _ _)) in H1.
  rewrite (triple_eta (AddBot _ _ _)) in H2.
  fold (run demo_state) in H1. rewrite (triple_eta (run demo_state)) in H1.
  fold (run (set_net_faults [true] demo_state)) in H2.
  rewrite (triple_eta (run (set_net_faults [true] demo_state))) in H2.
  destruct H1 as (_ & _ & Hcr1 & _ & Hs1).
  destruct H2 as (Hr2 & _ & _ & _ & Hs2).
  split; [exact Hs1|].
  split; [rewrite Hcr1; vm_compute; reflexivity|].
  split; [exact Hs2|]. rewrite Hr2. vm_compute. reflexivity.
Defined.

(** X26: the manager command [deletebot] removes the command's argument
    from both registry maps and answers the success text into the chat in
    every case, also when the DELETE failed and the stored row is still
    there. *)
Theorem deletebot_command (Error : error → string) managerBot message s :
  IsCommand message = true →
  Command message = "deletebot" →
  let token := CommandArguments message in
  let '(_, s', evs) := main_update Error managerBot tt (message_update message) s in
  bots s' = delete token (bots s)
  ∧ creator s' = delete token (creator s)
  ∧ rows s' = (if (next_fault (db_faults s)).1 then rows s else delete token (rows s))
  ∧ sent evs
    = [NewMessage (Chat_ID (Message_Chat message)) "Bot deleted successfully!"].
Proof.
  intros Hcmd Hdel token.
  unfold main_update, message_update. simpl. rewrite Hcmd, Hdel. simpl.
  unfold bind at 1. unfold log_Printf at 1. unfold emit at 1.
  fold token. unfold bind at 1.
  destruct (DeleteBot_run token s) as (evD & -> & HsD & _).
  unfold bind at 1. rewrite Send_result. unfold log_Printf, emit. simpl.
  split; [done|]. split; [done|]. split; [done|]. sent_simpl. done.
Qed.

Lemma deletebot_command_witness :
  let run s := main_update (λ _, "error") {| Token := "MMM" |} tt
                 (message_update (demo_message 5 "/deletebot AAA" [command_entity 10])) s in
  sent (run (set_db_faults [true] demo_state)).2
  = [NewMessage 5 "Bot deleted successfully!"]
  ∧ rows (run (set_db_faults [true] demo_state)).1.2 !! "AAA" = Some demo_row
  ∧ bots (run (set_db_faults [true] demo_state)).1.2 !! "AAA" = None
  ∧ rows (run demo_state).1.2 !! "AAA" = None.
Proof.
  intros run.
  pose proof (deletebot_command (λ _, "error") {| Token := "MMM" |}
                (demo_message 5 "/deletebot AAA" [command_entity 10])
                (set_db_faults [true] demo_state) eq_refl eq_refl) as H1.
  pose proof (deletebot_command (λ _, "error") {| Token := "MMM" |}
                (demo_message 5 "/deletebot AAA" [command_entity 10])
                demo_state eq_refl eq_refl) as H2.
  cbv zeta in H1, H2.
  fold (run (set_db_faults [true] demo_state)) in H1.
  rewrite (triple_eta (run (set_db_faults [true] demo_state))) in H1.
  fold (run demo_state) in H2. rewrite (triple_eta (run demo_state)) in H2.
  destruct H1 as (Hb1 & _ & Hr1 & Hs1).
  destruct H2 as (_ & _ & Hr2 & _).
  split; [exact Hs1|].
  split; [rewrite Hr1; vm_compute; reflexivity|].
  split; [rewrite Hb1; vm_compute; reflexivity|].
  rewrite Hr2. vm_compute. reflexivity.
Defined.

(** X27: the manager bot ignores everything but its two commands: an
    update without a message, a message that is not a command, and a
    command other than [newbot] and [deletebot] leave the state unchanged,
    send nothing, start no worker and make no store call. *)
Theorem manager_ignores_other_updates (Error : error → string) managerBot update s :
  match Update_Message update with
  | Some message =>
      IsCommand message = false
      ∨ (Command message ≠ "newbot" ∧ Command message ≠ "deletebot")
  | None => True
  end →
  let '(_, s', evs) := main_update Error managerBot tt update s in
  s' = s ∧ sent evs = [] ∧ spawned evs = []
  ∧ queried evs = [] ∧ executed evs = [].
Proof.
  intros Hcase. unfold main_update.
  destruct (Update_Message update) as [message|]; [|done].
  destruct (IsCommand message) eqn:Hcmd; [|done].
  destruct Hcase as [?|[Hn Hd]]; [done|].
  unfold bind at 1. unfold log_Printf at 1. unfold emit at 1.
  rewrite bool_decide_eq_false_2 by done.
  rewrite bool_decide_eq_false_2 by done. done.
Qed.

Lemma manager_ignores_other_updates_witness :
  let run u := main_update (λ _, "error") {| Token := "MMM" |} tt u demo_state in
  (run (message_update (demo_message 5 "hello" []))).1.2 = demo_state
  ∧ (run (message_update (demo_message 5 "/ban 42" [command_entity 4]))).1.2 = demo_state
  ∧ (run (callback_update "ban_42")).1.2 = demo_state
  ∧ sent (run (callback_update "ban_42")).2 = [].
Proof.
  intros run.
  pose proof (manager_ignores_other_updates (λ _, "error") {| Token := "MMM" |}
                (message_update (demo_message 5 "hello" [])) demo_state
                (or_introl eq_refl)) as H1.
  assert (Command (demo_message 5 "/ban 42" [command_entity 4]) ≠ "newbot"
          ∧ Command (demo_message 5 "/ban 42" [command_entity 4]) ≠ "deletebot") as Hc
    by (split; vm_compute; discriminate).
  pose proof (manager_ignores_other_updates (λ _, "error") {| Token := "MMM" |}
                (message_update (demo_message 5 "/ban 42" [command_entity 4])) demo_state
                (or_intror Hc)) as H2.
  pose proof (manager_ignores_other_updates (λ _, "error") {| Token := "MMM" |}
                (callback_update "ban_42") demo_state I) as H3.
  fold (run (message_update (demo_message 5 "hello" []))) in H1.
  rewrite (triple_eta (run (message_update (demo_message 5 "hello" [])))) in H1.
  fold (run (message_update (demo_message 5 "/ban 42" [command_entity 4]))) in H2.
  rewrite (triple_eta (run (message_update (demo_message 5 "/ban 42" [command_entity 4]))))
    in H2.
  fold (run (callback_update "ban_42")) in H3.
  rewrite (triple_eta (run (callback_update "ban_42"))) in H3.
  split; [exact (proj1 H1)|]. split; [exact (proj1 H2)|].
  split; [exact (proj1 H3)|exact (proj1 (proj2 H3))].
Defined.

(** ** Restart *)

(** [main] with no update for the manager bot leaves the table as it is. *)
Lemma main_rows_startup (Error : error → string) managerToken s :
  rows (main Error managerToken [] s).1.2 = rows s.
Proof.
  unfold main, Exec_create_table, Query_bots, NewBotManager.
  unfold_prims. simpl.
  destruct (next_fault (net_faults s)) as [[] fs]; simpl; [done|].
  destruct (next_fault (db_faults s)) as [[] fs1]; simpl; [done|].
  destruct (next_fault fs1) as [[] fs2]; simpl; [done|].
  set (l := (λ kv : string * BotRow, (kv.1, creator_id kv.2)) <$> map_to_list (rows s)).
  match goal with
  | |- context [for_range main_load_row () l ?st] => set (sQ := st)
  end.
  destruct (main_load_rows l sQ) as (s0 & evL & -> & Hrows & _).
  { intros row Hel. apply list_elem_of_fmap in Hel as ([k r] & -> & Hel).
    apply elem_of_map_to_list in Hel. simpl. eauto. }
  simpl. exact Hrows.
Qed.

(** X28: a ban persists across a restart.  After a [blockUser] that ran
    on a store that answers and holds the bot's row, a later run of the
    startup of [main], whatever fails in it, leaves the user on the stored
    blocked list, and [isUserBlocked] answers [true] when its read
    answers. *)
Theorem ban_persists_across_restart (Error : error → string) managerToken
    token userID s dbf netf :
  isInt64 userID →
  db_faults s = [] →
  is_Some (rows s !! token) →
  let s1 := (blockUser token userID s).1.2 in
  let s2 := (main Error managerToken [] (set_db_faults dbf (set_net_faults netf s1))).1.2 in
  blockedIn s2 token userID = true
  ∧ (answers (db_faults s2) → (isUserBlocked token userID s2).1.1 = true).
Proof.
  intros Hid Hdb Hrow s1 s2.
  destruct (blockUser_blocks token userID s Hid Hdb Hrow) as (s1' & evs & Hrun & Hb).
  assert (s1 = s1') as Hs1 by (subst s1; by rewrite Hrun).
  assert (blockedIn s2 token userID = true) as Hb2.
  { rewrite <- Hb, <- Hs1. apply blockedIn_rows. subst s2.
    by rewrite main_rows_startup. }
  split; [exact Hb2|]. unfold answers. intros Hans.
  destruct (isUserBlocked_run token userID s2) as (ev & -> & _). simpl.
  by rewrite Hans.
Qed.

Lemma ban_persists_across_restart_witness :
  let s1 := (blockUser "AAA" 42 demo_state).1.2 in
  let s2 := (main (λ _, "error") "MMM" []
               (set_db_faults [false; false; true] (set_net_faults [false; true] s1))).1.2 in
  isInt64 42 ∧ db_faults demo_state = [] ∧ is_Some (rows demo_state !! "AAA")
  ∧ blockedIn s2 "AAA" 42 = true
  ∧ bots s2 !! "AAA" = None.
Proof.
  intros s1 s2.
  assert (isInt64 42) as Hid by (vm_compute; intuition discriminate).
  assert (db_faults demo_state = []) as Hdb by reflexivity.
  assert (is_Some (rows demo_state !! "AAA")) as Hrow by (vm_compute; eauto).
  split; [exact Hid|]. split; [exact Hdb|]. split; [exact Hrow|].
  split.
  - exact (proj1 (ban_persists_across_restart (λ _, "error") "MMM" "AAA" 42 demo_state
                    [false; false; true] [false; true] Hid Hdb Hrow)).
  - vm_compute. reflexivity.
Defined.

(** ** What an unban leaves on the list *)

(** X29: the list a successful [unblockUser] leaves behind is clean: when
    it is not empty, each of its entries is a number other than the id of
    the unblocked user; entries that were not numbers have been
    dropped. *)
Theorem unblockUser_cleans_list `{J : EncodingJson} token userID s s' evs :
  unblockUser token userID s = (None, s', evs) →
  let new := column blocked_users (rows s') token in
  new ≠ EmptyString →
  ∀ entry, entry ∈ strings.Split new comma →
    ∃ id, strconv.ParseInt entry = Ok id ∧ id ≠ userID.
Proof.
  intros Hrun new Hnew entry Hin.
  destruct (unblockUser_run token userID s)
    as (e2 & s2 & evs2 & Hrun2 & _ & _ & _ & Hrows).
  rewrite Hrun in Hrun2. simplify_eq. simpl in Hrows.
  set (old := column blocked_users (rows s) token) in *.
  set (kept := List.filter (keeps userID) (strings.Split old comma)) in *.
  assert (new = strings.Join kept comma) as Hcol.
  { destruct Hrows as [[Hrows Hold]|[[Hne _]|(_ & Hold & str & _ & Hrows)]].
    - exfalso. apply Hnew. subst new. rewrite Hrows. fold old. by apply Hold.
    - done.
    - subst new. rewrite Hrows, column_blocked_with_appeal.
      apply column_written; [|done].
      by apply (column_nonempty blocked_users). }
  assert (kept ≠ []) as Hkept.
  { intros Hk. apply Hnew. by rewrite Hcol, Hk. }
  assert (strings.Split new comma = kept) as Hsplit.
  { rewrite Hcol. apply Split_Join; [done|].
    apply Forall_filter_avoids, Split_avoids. }
  rewrite Hsplit in Hin. subst kept.
  apply list_elem_of_In, filter_In in Hin as [_ Hkeep].
  unfold keeps in Hkeep.
  destruct (strconv.ParseInt entry) as [id|err]; [|done].
  exists id. split; [done|]. by apply bool_decide_eq_true_1 in Hkeep.
Qed.

Lemma unblockUser_cleans_list_witness :
  let s :=
    set_rows (λ _, {["AAA" := {| creator_id := 100; blocked_users := "42,abc,7";
                                 appeal_counts := EmptyString |}]}) demo_state in
  let run := unblockUser (J := RefJson) "AAA" 42 s in
  run.1.1 = None
  ∧ column blocked_users (rows run.1.2) "AAA" = "7"
  ∧ ∀ entry, entry ∈ strings.Split (column blocked_users (rows run.1.2) "AAA") comma →
      ∃ id, strconv.ParseInt entry = Ok id ∧ id ≠ 42.
Proof.
  intros s run.
  assert (unblockUser (J := RefJson) "AAA" 42 s = (None, run.1.2, run.2)) as Hrun
    by (vm_compute; reflexivity).
  assert (column blocked_users (rows run.1.2) "AAA" = "7") as Hcol
    by (vm_compute; reflexivity).
  split; [vm_compute; reflexivity|]. split; [exact Hcol|].
  apply (unblockUser_cleans_list (J := RefJson) "AAA" 42 s run.1.2 run.2 Hrun).
  rewrite Hcol. discriminate.
Defined.

(** ** The ban list shown to the operator *)

(** X30: [/getbans] reports the stored column: the failure text when the
    read fails, the text for an empty list when the column is empty or the
    bot has no row, the column itself otherwise.  It runs no statement that
    writes and leaves the table and the registry maps unchanged. *)
Theorem getbans_reports `{J : EncodingJson} bot message creatorID s :
  Command message = "getbans" →
  let old := column blocked_users (rows s) (Token bot) in
  let '(_, s', evs) := handleBotCommands bot message creatorID s in
  rows s' = rows s ∧ bots s' = bots s ∧ creator s' = creator s
  ∧ executed evs = []
  ∧ sent evs
    = [NewMessage creatorID
         (if (next_fault (db_faults s)).1 then "Failed to get blocked users."
          else if bool_decide (old = EmptyString) then "当前没有封禁用户"
          else "封禁列表: " ++ old)].
Proof.
  intros Hcmd old. unfold handleBotCommands. rewrite Hcmd. simpl.
  unfold bind at 1. rewrite QueryRow_column_run.
  destruct (next_fault (db_faults s)).1 eqn:Hf; simpl.
  - unfold_prims. simpl.
    destruct (next_fault (net_faults s)) as [[] fs]; done.
  - rewrite scanned_column, store_failed_column. fold old.
    case_bool_decide; unfold_prims; simpl;
      destruct (next_fault (net_faults s)) as [[] fs]; done.
Qed.

Lemma getbans_reports_witness :
  let run s := handleBotCommands (J := RefJson) demo_bot
                 (demo_message 100 "/getbans" [command_entity 8]) 100 s in
  sent (run banned_state).2 = [NewMessage 100 "封禁列表: 42"]
  ∧ sent (run demo_state).2 = [NewMessage 100 "当前没有封禁用户"]
  ∧ sent (run (set_db_faults [true] banned_state)).2
    = [NewMessage 100 "Failed to get blocked users."].
Proof.
  intros run.
  pose proof (getbans_reports (J := RefJson) demo_bot
                (demo_message 100 "/getbans" [command_entity 8]) 100 banned_state
                eq_refl) as H1.
  pose proof (getbans_reports (J := RefJson) demo_bot
                (demo_message 100 "/getbans" [command_entity 8]) 100 demo_state
                eq_refl) as H2.
  pose proof (getbans_reports (J := RefJson) demo_bot
                (demo_message 100 "/getbans" [command_entity 8]) 100
                (set_db_faults [true] banned_state) eq_refl) as H3.
  cbv zeta in H1, H2, H3.
  fold (run banned_state) in H1. rewrite (triple_eta (run banned_state)) in H1.
  fold (run demo_state) in H2. rewrite (triple_eta (run demo_state)) in H2.
  fold (run (set_db_faults [true] banned_state)) in H3.
  rewrite (triple_eta (run (set_db_faults [true] banned_state))) in H3.
  destruct H1 as (_ & _ & _ & _ & Hs1).
  destruct H2 as (_ & _ & _ & _ & Hs2).
  destruct H3 as (_ & _ & _ & _ & Hs3).
  split; [rewrite Hs1; vm_compute; reflexivity|].
  split; [rewrite Hs2; vm_compute; reflexivity|].
  rewrite Hs3. vm_compute. reflexivity.
Defined.
